(** * WindowsAiMic: the real-time audio pipeline, embedded and verified

    The engine's C++ units are embedded as Rocq functions over IEEE-754
    values: [float] is binary32 and [double] is binary64, both taken from
    the Standard Library's executable specification [SpecFloat] (round to
    nearest, ties to even).  Objects become records, member functions
    become functions from the object's state to its new state, and the
    sample loops become recursion over the block. *)

From Stdlib Require Import String ZArith Arith Bool Lia List QArith Qround.
From Stdlib Require Import Floats.SpecFloat.
Import ListNotations.

Set Implicit Arguments.
Local Open Scope Z_scope.

(** ** IEEE-754 binary32: the C++ [float] *)

Module F32.

Definition prec : Z := 24.
Definition emax : Z := 128.

Definition t : Type := spec_float.

Definition add : t -> t -> t := SFadd prec emax.
Definition sub : t -> t -> t := SFsub prec emax.
Definition mul : t -> t -> t := SFmul prec emax.
Definition div : t -> t -> t := SFdiv prec emax.
Definition sqrt : t -> t := SFsqrt prec emax.
Definition opp : t -> t := SFopp.
Definition abs : t -> t := SFabs.
Definition ltb : t -> t -> bool := SFltb.
Definition leb : t -> t -> bool := SFleb.
Definition eqb : t -> t -> bool := SFeqb.
Definition gtb (x y : t) : bool := SFltb y x.
Definition geb (x y : t) : bool := SFleb y x.

(** An integer, rounded to the nearest float (exact below 2^24). *)
Definition of_Z (n : Z) : t := binary_normalize prec emax n 0 false.

(** A decimal literal [num/den] of the source, rounded once. *)
Definition lit (num den : Z) : t := div (of_Z num) (of_Z den).

Definition zero : t := S754_zero false.
Definition one : t := of_Z 1.

(** The value whose IEEE encoding is the 32-bit word [w]. *)
Definition of_bits (w : Z) : t :=
  let s := Z.testbit w 31 in
  let e := Z.land (Z.shiftr w 23) 255 in
  let m := Z.land w 8388607 in
  if Z.eqb e 0 then
    match m with
    | Zpos p => S754_finite s p (-149)
    | _ => S754_zero s
    end
  else if Z.eqb e 255 then
    (if Z.eqb m 0 then S754_infinity s else S754_nan)
  else
    match m + 8388608 with
    | Zpos p => S754_finite s p (e - 150)
    | _ => S754_nan
    end.

(** [static_cast<size_t>(x)]: truncation toward zero of a non-negative
    finite value (the cast is undefined otherwise: [None]). *)
Definition to_size_t (x : t) : option Z :=
  match x with
  | S754_zero _ => Some 0%Z
  | S754_finite false m e =>
      let v := match e with
               | Zneg k => Z.shiftr (Zpos m) (Zpos k)
               | _ => Z.shiftl (Zpos m) e
               end in
      if Z.ltb v (2 ^ 64) then Some v else None
  | S754_finite true m e =>
      match e with
      | Zneg k => if Z.eqb (Z.shiftr (Zpos m) (Zpos k)) 0 then Some 0%Z else None
      | _ => None
      end
  | _ => None
  end.

(** [std::max(a, b)] is [(a < b) ? b : a]; [std::min(a, b)] is
    [(b < a) ? b : a]; [std::clamp(v, lo, hi)] is
    [(v < lo) ? lo : (hi < v) ? hi : v]. *)
Definition max (a b : t) : t := if ltb a b then b else a.
Definition min (a b : t) : t := if ltb b a then b else a.
Definition clamp (v lo hi : t) : t :=
  if ltb v lo then lo else if ltb hi v then hi else v.

Definition is_finite (x : t) : bool :=
  match x with
  | S754_zero _ | S754_finite _ _ _ => true
  | _ => false
  end.

(** The rational a finite float denotes (0 for the others). *)
Definition to_Q (x : t) : Q :=
  match x with
  | S754_finite s m e =>
      let q := match e with
               | Zneg k => Qmake (Zpos m) (2 ^ k)%positive
               | _ => Qmake (Zpos m * 2 ^ e) 1
               end in
      if s then Qopp q else q
  | _ => Qmake 0 1
  end.

Definition is_nan (x : t) : bool :=
  match x with
  | S754_nan => true
  | _ => false
  end.

End F32.

(** ** IEEE-754 binary64: the C++ [double] *)

Module F64.

Definition prec : Z := 53.
Definition emax : Z := 1024.

Definition t : Type := spec_float.

Definition add : t -> t -> t := SFadd prec emax.
Definition sub : t -> t -> t := SFsub prec emax.
Definition mul : t -> t -> t := SFmul prec emax.
Definition div : t -> t -> t := SFdiv prec emax.
Definition ltb : t -> t -> bool := SFltb.

Definition of_Z (n : Z) : t := binary_normalize prec emax n 0 false.
Definition zero : t := S754_zero false.
Definition one : t := of_Z 1.

(** [float] to [double]: exact. *)
Definition of_float (x : F32.t) : t :=
  match x with
  | S754_finite s m e => binary_round prec emax s m e
  | _ => x
  end.

(** [static_cast<float>(d)]: one rounding to binary32. *)
Definition to_float (x : t) : F32.t :=
  match x with
  | S754_finite s m e => binary_round F32.prec F32.emax s m e
  | _ => x
  end.

(** [static_cast<size_t>(d)], as for [float]. *)
Definition to_size_t (x : t) : option Z :=
  match x with
  | S754_zero _ => Some 0%Z
  | S754_finite false m e =>
      let v := match e with
               | Zneg k => Z.shiftr (Zpos m) (Zpos k)
               | _ => Z.shiftl (Zpos m) e
               end in
      if Z.ltb v (2 ^ 64) then Some v else None
  | S754_finite true m e =>
      match e with
      | Zneg k => if Z.eqb (Z.shiftr (Zpos m) (Zpos k)) 0 then Some 0%Z else None
      | _ => None
      end
  | _ => None
  end.

End F64.

Definition float : Type := F32.t.
Definition double : Type := F64.t.

Arguments F32.add : simpl never.
Arguments F32.sub : simpl never.
Arguments F32.mul : simpl never.
Arguments F32.div : simpl never.
Arguments F32.sqrt : simpl never.
Arguments F32.ltb : simpl never.
Arguments F32.gtb : simpl never.
Arguments F32.of_Z : simpl never.
Arguments F32.lit : simpl never.
Arguments F32.max : simpl never.
Arguments F32.clamp : simpl never.
Arguments F64.add : simpl never.
Arguments F64.sub : simpl never.
Arguments F64.mul : simpl never.
Arguments F64.div : simpl never.
Arguments F64.ltb : simpl never.
Arguments F64.of_Z : simpl never.

Declare Scope f32_scope.
Delimit Scope f32_scope with f32.
Infix "+" := F32.add : f32_scope.
Infix "-" := F32.sub : f32_scope.
Infix "*" := F32.mul : f32_scope.
Infix "/" := F32.div : f32_scope.
Infix "<?" := F32.ltb : f32_scope.
Infix ">?" := F32.gtb : f32_scope.
Notation "- x" := (F32.opp x) : f32_scope.

(** ** The C math library

    [std::pow], [std::exp] and [std::log10] on [float] come from the
    platform's libm, not from this repository: the units take them as an
    interface. *)

Record MathLib : Type := {
  powf : float -> float -> float;
  expf : float -> float;
  log10f : float -> float;
  sinf : float -> float;
  cosf : float -> float
}.

(** ** Compressor (dsp/compressor.cpp) *)

Module Compressor.

Record state : Type := {
  enabled_ : bool;
  thresholdDb_ : float;
  ratio_ : float;
  kneeDb_ : float;
  attackCoeff_ : float;
  releaseCoeff_ : float;
  makeupGain_ : float;
  envelope_ : float;
  gainReductionDb_ : float;
  smoothedGain_ : float;
  sampleRate_ : float
}.

(** The in-class member initialisers of compressor.h. *)
Definition fresh : state := {|
  enabled_ := true;
  thresholdDb_ := F32.of_Z (-18);
  ratio_ := F32.of_Z 4;
  kneeDb_ := F32.of_Z 6;
  attackCoeff_ := F32.zero;
  releaseCoeff_ := F32.zero;
  makeupGain_ := F32.one;
  envelope_ := F32.zero;
  gainReductionDb_ := F32.zero;
  smoothedGain_ := F32.one;
  sampleRate_ := F32.of_Z 48000
|}.

Definition setEnabled (b : bool) (c : state) : state :=
  {| enabled_ := b; thresholdDb_ := thresholdDb_ c; ratio_ := ratio_ c;
     kneeDb_ := kneeDb_ c; attackCoeff_ := attackCoeff_ c;
     releaseCoeff_ := releaseCoeff_ c; makeupGain_ := makeupGain_ c;
     envelope_ := envelope_ c; gainReductionDb_ := gainReductionDb_ c;
     smoothedGain_ := smoothedGain_ c; sampleRate_ := sampleRate_ c |}.

Definition setThreshold (dbThreshold : float) (c : state) : state :=
  {| enabled_ := enabled_ c;
     thresholdDb_ := F32.clamp dbThreshold (F32.of_Z (-40)) F32.zero;
     ratio_ := ratio_ c;
     kneeDb_ := kneeDb_ c; attackCoeff_ := attackCoeff_ c;
     releaseCoeff_ := releaseCoeff_ c; makeupGain_ := makeupGain_ c;
     envelope_ := envelope_ c; gainReductionDb_ := gainReductionDb_ c;
     smoothedGain_ := smoothedGain_ c; sampleRate_ := sampleRate_ c |}.

Definition setRatio (ratio : float) (c : state) : state :=
  {| enabled_ := enabled_ c; thresholdDb_ := thresholdDb_ c;
     ratio_ := F32.clamp ratio F32.one (F32.of_Z 20);
     kneeDb_ := kneeDb_ c; attackCoeff_ := attackCoeff_ c;
     releaseCoeff_ := releaseCoeff_ c; makeupGain_ := makeupGain_ c;
     envelope_ := envelope_ c; gainReductionDb_ := gainReductionDb_ c;
     smoothedGain_ := smoothedGain_ c; sampleRate_ := sampleRate_ c |}.

Definition setKnee (db : float) (c : state) : state :=
  {| enabled_ := enabled_ c; thresholdDb_ := thresholdDb_ c;
     ratio_ := ratio_ c;
     kneeDb_ := F32.clamp db F32.zero (F32.of_Z 12);
     attackCoeff_ := attackCoeff_ c;
     releaseCoeff_ := releaseCoeff_ c; makeupGain_ := makeupGain_ c;
     envelope_ := envelope_ c; gainReductionDb_ := gainReductionDb_ c;
     smoothedGain_ := smoothedGain_ c; sampleRate_ := sampleRate_ c |}.

Section WithLibm.
Variable M : MathLib.

Definition setAttack (ms : float) (c : state) : state :=
  let attackMs := F32.clamp ms (F32.lit 1 10) (F32.of_Z 100) in
  {| enabled_ := enabled_ c; thresholdDb_ := thresholdDb_ c;
     ratio_ := ratio_ c; kneeDb_ := kneeDb_ c;
     attackCoeff_ :=
       expf M (F32.of_Z (-1) / (attackMs * sampleRate_ c / F32.of_Z 1000))%f32;
     releaseCoeff_ := releaseCoeff_ c; makeupGain_ := makeupGain_ c;
     envelope_ := envelope_ c; gainReductionDb_ := gainReductionDb_ c;
     smoothedGain_ := smoothedGain_ c; sampleRate_ := sampleRate_ c |}.

Definition setRelease (ms : float) (c : state) : state :=
  let releaseMs := F32.clamp ms (F32.of_Z 10) (F32.of_Z 1000) in
  {| enabled_ := enabled_ c; thresholdDb_ := thresholdDb_ c;
     ratio_ := ratio_ c; kneeDb_ := kneeDb_ c;
     attackCoeff_ := attackCoeff_ c;
     releaseCoeff_ :=
       expf M (F32.of_Z (-1) / (releaseMs * sampleRate_ c / F32.of_Z 1000))%f32;
     makeupGain_ := makeupGain_ c;
     envelope_ := envelope_ c; gainReductionDb_ := gainReductionDb_ c;
     smoothedGain_ := smoothedGain_ c; sampleRate_ := sampleRate_ c |}.

Definition setMakeupGain (db : float) (c : state) : state :=
  {| enabled_ := enabled_ c; thresholdDb_ := thresholdDb_ c;
     ratio_ := ratio_ c; kneeDb_ := kneeDb_ c;
     attackCoeff_ := attackCoeff_ c; releaseCoeff_ := releaseCoeff_ c;
     makeupGain_ :=
       powf M (F32.of_Z 10)
         (F32.clamp db F32.zero (F32.of_Z 24) / F32.of_Z 20)%f32;
     envelope_ := envelope_ c; gainReductionDb_ := gainReductionDb_ c;
     smoothedGain_ := smoothedGain_ c; sampleRate_ := sampleRate_ c |}.

(** The constructor: the six setters on the member initialisers. *)
Definition create : state :=
  setMakeupGain (F32.of_Z 6)
    (setRelease (F32.of_Z 100)
      (setAttack (F32.of_Z 10)
        (setKnee (F32.of_Z 6)
          (setRatio (F32.of_Z 4)
            (setThreshold (F32.of_Z (-18)) fresh))))).
End WithLibm.

Definition reset (c : state) : state :=
  {| enabled_ := enabled_ c; thresholdDb_ := thresholdDb_ c;
     ratio_ := ratio_ c; kneeDb_ := kneeDb_ c;
     attackCoeff_ := attackCoeff_ c; releaseCoeff_ := releaseCoeff_ c;
     makeupGain_ := makeupGain_ c;
     envelope_ := F32.zero; gainReductionDb_ := F32.zero;
     smoothedGain_ := F32.one; sampleRate_ := sampleRate_ c |}.

(** [Compressor::computeGainDb]: it reads the parameters only. *)
Definition computeGainDb (c : state) (inputDb : float) : float :=
  let kneeStart := (thresholdDb_ c - kneeDb_ c / F32.of_Z 2)%f32 in
  let kneeEnd := (thresholdDb_ c + kneeDb_ c / F32.of_Z 2)%f32 in
  let outputDb :=
    if (inputDb <? kneeStart)%f32 then
      inputDb
    else if (inputDb >? kneeEnd)%f32 then
      (thresholdDb_ c + (inputDb - thresholdDb_ c) / ratio_ c)%f32
    else
      let x := (inputDb - kneeStart)%f32 in
      let kneeWidth := kneeDb_ c in
      let slope :=
        ((F32.one / ratio_ c - F32.one) / (F32.of_Z 2 * kneeWidth))%f32 in
      (inputDb + slope * x * x)%f32
  in
  (outputDb - inputDb)%f32.

Section Process.
Variable M : MathLib.

(** One iteration of the loop of [Compressor::process]. *)
Definition process_sample (c : state) (input : float) : state * float :=
  let level := F32.abs input in
  if (level <? F32.lit 1 10000000000)%f32 then
    (c, (input * smoothedGain_ c * makeupGain_ c)%f32)
  else
    let coeff :=
      if (level >? envelope_ c)%f32 then attackCoeff_ c
      else releaseCoeff_ c in
    let envelope := (coeff * envelope_ c + (F32.one - coeff) * level)%f32 in
    let envelopeDb := (F32.of_Z 20 * log10f M envelope)%f32 in
    let gainDb := computeGainDb c envelopeDb in
    let gain := powf M (F32.of_Z 10) (gainDb / F32.of_Z 20)%f32 in
    let smoothCoeff := F32.lit 99 100 in
    let smoothedGain :=
      (smoothCoeff * smoothedGain_ c + (F32.one - smoothCoeff) * gain)%f32 in
    ({| enabled_ := enabled_ c; thresholdDb_ := thresholdDb_ c;
        ratio_ := ratio_ c; kneeDb_ := kneeDb_ c;
        attackCoeff_ := attackCoeff_ c; releaseCoeff_ := releaseCoeff_ c;
        makeupGain_ := makeupGain_ c;
        envelope_ := envelope;
        gainReductionDb_ := (- gainDb)%f32;
        smoothedGain_ := smoothedGain;
        sampleRate_ := sampleRate_ c |},
     (input * smoothedGain * makeupGain_ c)%f32).

Fixpoint process_loop (c : state) (buffer : list float)
  : state * list float :=
  match buffer with
  | [] => (c, [])
  | x :: rest =>
      let '(c1, y) := process_sample c x in
      let '(c2, ys) := process_loop c1 rest in
      (c2, y :: ys)
  end.

Definition process (c : state) (buffer : list float) : state * list float :=
  if negb (enabled_ c) then (c, buffer) else process_loop c buffer.
End Process.

End Compressor.

(** ** Expander (dsp/expander.cpp) *)

Module Expander.

Record state : Type := {
  enabled_ : bool;
  threshold_ : float;
  ratio_ : float;
  attackCoeff_ : float;
  releaseCoeff_ : float;
  hysteresis_ : float;
  envelope_ : float;
  gainReductionDb_ : float;
  gateOpen_ : bool;
  sampleRate_ : float
}.

(** The in-class member initialisers of expander.h. *)
Definition fresh : state := {|
  enabled_ := true;
  threshold_ := F32.lit 1 100;
  ratio_ := F32.of_Z 2;
  attackCoeff_ := F32.zero;
  releaseCoeff_ := F32.zero;
  hysteresis_ := F32.lit 3 2;
  envelope_ := F32.zero;
  gainReductionDb_ := F32.zero;
  gateOpen_ := false;
  sampleRate_ := F32.of_Z 48000
|}.

Definition setEnabled (b : bool) (e : state) : state :=
  {| enabled_ := b; threshold_ := threshold_ e; ratio_ := ratio_ e;
     attackCoeff_ := attackCoeff_ e; releaseCoeff_ := releaseCoeff_ e;
     hysteresis_ := hysteresis_ e; envelope_ := envelope_ e;
     gainReductionDb_ := gainReductionDb_ e; gateOpen_ := gateOpen_ e;
     sampleRate_ := sampleRate_ e |}.

Definition setRatio (ratio : float) (e : state) : state :=
  {| enabled_ := enabled_ e; threshold_ := threshold_ e;
     ratio_ := F32.clamp ratio F32.one (F32.of_Z 10);
     attackCoeff_ := attackCoeff_ e; releaseCoeff_ := releaseCoeff_ e;
     hysteresis_ := hysteresis_ e; envelope_ := envelope_ e;
     gainReductionDb_ := gainReductionDb_ e; gateOpen_ := gateOpen_ e;
     sampleRate_ := sampleRate_ e |}.

(** The per-sample state: envelope, meter value and gate. *)
Definition update (e : state) (env gr : float) (gate : bool) : state :=
  {| enabled_ := enabled_ e; threshold_ := threshold_ e; ratio_ := ratio_ e;
     attackCoeff_ := attackCoeff_ e; releaseCoeff_ := releaseCoeff_ e;
     hysteresis_ := hysteresis_ e; envelope_ := env;
     gainReductionDb_ := gr; gateOpen_ := gate;
     sampleRate_ := sampleRate_ e |}.

Definition reset (e : state) : state := update e F32.zero F32.zero false.

Definition getGainReduction (e : state) : float := gainReductionDb_ e.

Section WithLibm.
Variable M : MathLib.

Definition setThreshold (dbThreshold : float) (e : state) : state :=
  {| enabled_ := enabled_ e;
     threshold_ :=
       powf M (F32.of_Z 10)
         (F32.clamp dbThreshold (F32.of_Z (-60)) F32.zero / F32.of_Z 20)%f32;
     ratio_ := ratio_ e;
     attackCoeff_ := attackCoeff_ e; releaseCoeff_ := releaseCoeff_ e;
     hysteresis_ := hysteresis_ e; envelope_ := envelope_ e;
     gainReductionDb_ := gainReductionDb_ e; gateOpen_ := gateOpen_ e;
     sampleRate_ := sampleRate_ e |}.

Definition setAttack (ms : float) (e : state) : state :=
  let attackMs := F32.clamp ms (F32.lit 1 10) (F32.of_Z 100) in
  {| enabled_ := enabled_ e; threshold_ := threshold_ e; ratio_ := ratio_ e;
     attackCoeff_ :=
       expf M (F32.of_Z (-1) / (attackMs * sampleRate_ e / F32.of_Z 1000))%f32;
     releaseCoeff_ := releaseCoeff_ e;
     hysteresis_ := hysteresis_ e; envelope_ := envelope_ e;
     gainReductionDb_ := gainReductionDb_ e; gateOpen_ := gateOpen_ e;
     sampleRate_ := sampleRate_ e |}.

Definition setRelease (ms : float) (e : state) : state :=
  let releaseMs := F32.clamp ms (F32.of_Z 10) (F32.of_Z 1000) in
  {| enabled_ := enabled_ e; threshold_ := threshold_ e; ratio_ := ratio_ e;
     attackCoeff_ := attackCoeff_ e;
     releaseCoeff_ :=
       expf M (F32.of_Z (-1) / (releaseMs * sampleRate_ e / F32.of_Z 1000))%f32;
     hysteresis_ := hysteresis_ e; envelope_ := envelope_ e;
     gainReductionDb_ := gainReductionDb_ e; gateOpen_ := gateOpen_ e;
     sampleRate_ := sampleRate_ e |}.

Definition setHysteresis (db : float) (e : state) : state :=
  {| enabled_ := enabled_ e; threshold_ := threshold_ e; ratio_ := ratio_ e;
     attackCoeff_ := attackCoeff_ e; releaseCoeff_ := releaseCoeff_ e;
     hysteresis_ :=
       powf M (F32.of_Z 10)
         (F32.clamp db F32.zero (F32.of_Z 10) / F32.of_Z 20)%f32;
     envelope_ := envelope_ e;
     gainReductionDb_ := gainReductionDb_ e; gateOpen_ := gateOpen_ e;
     sampleRate_ := sampleRate_ e |}.

Definition create : state :=
  setHysteresis (F32.of_Z 3)
    (setRelease (F32.of_Z 100)
      (setAttack (F32.of_Z 5)
        (setRatio (F32.of_Z 2)
          (setThreshold (F32.of_Z (-40)) fresh)))).

(** [Expander::computeGain]: returns the linear gain and stores the
    meter value [gainReductionDb_]. *)
Definition computeGain (e : state) (envelope : float) : state * float :=
  if (envelope <? F32.lit 1 10000000000)%f32 then
    (e, F32.lit 1 1000)
  else
    let envelopeDb := (F32.of_Z 20 * log10f M envelope)%f32 in
    let thresholdDb := (F32.of_Z 20 * log10f M (threshold_ e))%f32 in
    if (envelopeDb <? thresholdDb)%f32 then
      let belowDb := (thresholdDb - envelopeDb)%f32 in
      let expansionDb := (belowDb * (ratio_ e - F32.one))%f32 in
      (update e (envelope_ e) (- expansionDb)%f32 (gateOpen_ e),
       powf M (F32.of_Z 10) (- expansionDb / F32.of_Z 20)%f32)
    else
      (update e (envelope_ e) F32.zero (gateOpen_ e), F32.one).

(** One iteration of the loop of [Expander::process]. *)
Definition process_sample (e : state) (input : float) : state * float :=
  let level := F32.abs input in
  let coeff :=
    if (level >? envelope_ e)%f32 then attackCoeff_ e
    else releaseCoeff_ e in
  let envelope := (coeff * envelope_ e + (F32.one - coeff) * level)%f32 in
  let effectiveThreshold :=
    if gateOpen_ e then (threshold_ e / hysteresis_ e)%f32
    else threshold_ e in
  let gate :=
    if (envelope >? threshold_ e)%f32 then true
    else if (envelope <? effectiveThreshold)%f32 then false
    else gateOpen_ e in
  let '(e1, gain) :=
    computeGain (update e envelope (gainReductionDb_ e) gate) envelope in
  (e1, (input * gain)%f32).

Fixpoint process_loop (e : state) (buffer : list float)
  : state * list float :=
  match buffer with
  | [] => (e, [])
  | x :: rest =>
      let '(e1, y) := process_sample e x in
      let '(e2, ys) := process_loop e1 rest in
      (e2, y :: ys)
  end.

Definition process (e : state) (buffer : list float) : state * list float :=
  if negb (enabled_ e) then (e, buffer) else process_loop e buffer.
End WithLibm.

End Expander.

(** ** Limiter (dsp/limiter.cpp) *)

Module Limiter.

Record state : Type := {
  enabled_ : bool;
  ceiling_ : float;
  releaseCoeff_ : float;
  lookaheadSamples_ : nat;
  lookaheadBuffer_ : list float;
  bufferPos_ : nat;
  gainReductionDb_ : float;
  smoothedGain_ : float;
  sampleRate_ : float
}.

(** The in-class member initialisers of limiter.h ([0.891f] is the
    literal of the header). *)
Definition fresh : state := {|
  enabled_ := true;
  ceiling_ := F32.lit 891 1000;
  releaseCoeff_ := F32.zero;
  lookaheadSamples_ := 0;
  lookaheadBuffer_ := [];
  bufferPos_ := 0;
  gainReductionDb_ := F32.zero;
  smoothedGain_ := F32.one;
  sampleRate_ := F32.of_Z 48000
|}.

Definition setEnabled (b : bool) (l : state) : state :=
  {| enabled_ := b; ceiling_ := ceiling_ l;
     releaseCoeff_ := releaseCoeff_ l;
     lookaheadSamples_ := lookaheadSamples_ l;
     lookaheadBuffer_ := lookaheadBuffer_ l; bufferPos_ := bufferPos_ l;
     gainReductionDb_ := gainReductionDb_ l;
     smoothedGain_ := smoothedGain_ l; sampleRate_ := sampleRate_ l |}.

(** The state a sample of [process] writes: ring, position, meter value
    and smoothed gain. *)
Definition update (l : state) (buf : list float) (pos : nat)
    (gr sg : float) : state :=
  {| enabled_ := enabled_ l; ceiling_ := ceiling_ l;
     releaseCoeff_ := releaseCoeff_ l;
     lookaheadSamples_ := lookaheadSamples_ l;
     lookaheadBuffer_ := buf; bufferPos_ := pos;
     gainReductionDb_ := gr; smoothedGain_ := sg;
     sampleRate_ := sampleRate_ l |}.

Definition reset (l : state) : state :=
  update l (map (fun _ => F32.zero) (lookaheadBuffer_ l)) 0
    F32.zero F32.one.

Definition getLatency (l : state) : nat := lookaheadSamples_ l.
Definition getGainReduction (l : state) : float := gainReductionDb_ l.

(** [static_cast<size_t>(lookaheadMs * sampleRate_ / 1000.0f)] of
    [setLookahead], after the clamp to [0, 10]. *)
Definition lookahead_samples (sampleRate ms : float) : option Z :=
  let lookaheadMs := F32.clamp ms F32.zero (F32.of_Z 10) in
  F32.to_size_t (lookaheadMs * sampleRate / F32.of_Z 1000)%f32.

(** [Limiter::setLookahead]; [None] when the cast is undefined (a NaN
    argument). *)
Definition setLookahead (ms : float) (l : state) : option state :=
  match lookahead_samples (sampleRate_ l) ms with
  | None => None
  | Some n =>
      let newLookahead := Z.to_nat n in
      if Nat.eqb newLookahead (lookaheadSamples_ l) then Some l
      else
        Some {| enabled_ := enabled_ l; ceiling_ := ceiling_ l;
                releaseCoeff_ := releaseCoeff_ l;
                lookaheadSamples_ := newLookahead;
                lookaheadBuffer_ := repeat F32.zero (newLookahead + 1);
                bufferPos_ := 0;
                gainReductionDb_ := gainReductionDb_ l;
                smoothedGain_ := smoothedGain_ l;
                sampleRate_ := sampleRate_ l |}
  end.

(** [peakLevel] of the lookahead path: the scan of the whole ring. *)
Definition peak_of (buf : list float) : float :=
  fold_left (fun peakLevel x => F32.max peakLevel (F32.abs x)) buf F32.zero.

(** [lookaheadBuffer_[pos] = input]. *)
Fixpoint store (buf : list float) (pos : nat) (input : float) : list float :=
  match buf, pos with
  | [], _ => []
  | _ :: rest, O => input :: rest
  | y :: rest, S k => y :: store rest k input
  end.

Section WithLibm.
Variable M : MathLib.

Definition setCeiling (dbCeiling : float) (l : state) : state :=
  {| enabled_ := enabled_ l;
     ceiling_ :=
       powf M (F32.of_Z 10)
         (F32.clamp dbCeiling (F32.of_Z (-6)) F32.zero / F32.of_Z 20)%f32;
     releaseCoeff_ := releaseCoeff_ l;
     lookaheadSamples_ := lookaheadSamples_ l;
     lookaheadBuffer_ := lookaheadBuffer_ l; bufferPos_ := bufferPos_ l;
     gainReductionDb_ := gainReductionDb_ l;
     smoothedGain_ := smoothedGain_ l; sampleRate_ := sampleRate_ l |}.

Definition setRelease (ms : float) (l : state) : state :=
  let releaseMs := F32.clamp ms (F32.of_Z 10) (F32.of_Z 500) in
  {| enabled_ := enabled_ l; ceiling_ := ceiling_ l;
     releaseCoeff_ :=
       expf M (F32.of_Z (-1) / (releaseMs * sampleRate_ l / F32.of_Z 1000))%f32;
     lookaheadSamples_ := lookaheadSamples_ l;
     lookaheadBuffer_ := lookaheadBuffer_ l; bufferPos_ := bufferPos_ l;
     gainReductionDb_ := gainReductionDb_ l;
     smoothedGain_ := smoothedGain_ l; sampleRate_ := sampleRate_ l |}.

(** [setCeiling], [setRelease] and [setLookahead] in this order, as the
    constructor and [Engine::setLimiterParams] call them. *)
Definition configure (ceilingDb releaseMs lookaheadMs : float) (l : state)
  : option state :=
  setLookahead lookaheadMs (setRelease releaseMs (setCeiling ceilingDb l)).

(** The constructor. *)
Definition create : option state :=
  configure (F32.of_Z (-1)) (F32.of_Z 50) (F32.of_Z 5) fresh.

Definition meter_of (smoothedGain : float) : float :=
  (F32.of_Z (-20) * log10f M (F32.max smoothedGain (F32.lit 1 10000)))%f32.

(** One iteration of the loop without lookahead. *)
Definition instant_sample (l : state) (input : float) : state * float :=
  let absInput := F32.abs input in
  let targetGain :=
    if (absInput >? ceiling_ l)%f32 then (ceiling_ l / absInput)%f32
    else F32.one in
  let smoothedGain :=
    if (targetGain <? smoothedGain_ l)%f32 then targetGain
    else (releaseCoeff_ l * smoothedGain_ l
          + (F32.one - releaseCoeff_ l) * targetGain)%f32 in
  (update l (lookaheadBuffer_ l) (bufferPos_ l)
     (meter_of smoothedGain) smoothedGain,
   (input * smoothedGain)%f32).

(** One iteration of the loop with lookahead. *)
Definition lookahead_sample (l : state) (input : float) : state * float :=
  let delayedSample := nth (bufferPos_ l) (lookaheadBuffer_ l) F32.zero in
  let buf := store (lookaheadBuffer_ l) (bufferPos_ l) input in
  let peakLevel := peak_of buf in
  let targetGain :=
    if (peakLevel >? ceiling_ l)%f32 then (ceiling_ l / peakLevel)%f32
    else F32.one in
  let smoothedGain :=
    if (targetGain <? smoothedGain_ l)%f32 then
      let attackCoeff :=
        expf M (F32.of_Z (-1)
                / F32.of_Z (Z.of_nat (lookaheadSamples_ l)))%f32 in
      (attackCoeff * smoothedGain_ l
       + (F32.one - attackCoeff) * targetGain)%f32
    else (releaseCoeff_ l * smoothedGain_ l
          + (F32.one - releaseCoeff_ l) * targetGain)%f32 in
  (update l buf (Nat.modulo (bufferPos_ l + 1) (length buf))
     (meter_of smoothedGain) smoothedGain,
   (delayedSample * smoothedGain)%f32).

Fixpoint run (step : state -> float -> state * float)
    (l : state) (buffer : list float) : state * list float :=
  match buffer with
  | [] => (l, [])
  | x :: rest =>
      let '(l1, y) := step l x in
      let '(l2, ys) := run step l1 rest in
      (l2, y :: ys)
  end.

Definition process (l : state) (buffer : list float) : state * list float :=
  if negb (enabled_ l) then (l, buffer)
  else if Nat.eqb (lookaheadSamples_ l) 0 then run instant_sample l buffer
  else run lookahead_sample l buffer.
End WithLibm.

End Limiter.

(** ** RNNoise processor (ai/rnnoise_processor.cpp) *)

(** The RNNoise C library ([rnnoise.h]) is external: [rnnoise_create]
    returns a state or a null pointer, [rnnoise_process_frame] denoises one
    frame in place and returns the voice-activity probability. *)
Record RNNoiseLib : Type := {
  DenoiseState : Type;
  rnnoise_create : option DenoiseState;
  rnnoise_process_frame :
    DenoiseState -> list float -> DenoiseState * list float * float;
  rnnoise_frame_size : forall st frame,
    length (snd (fst (rnnoise_process_frame st frame))) = length frame
}.

(** [std::copy(src.begin(), src.end(), dst.begin() + off)]. *)
Definition copy_into (dst : list float) (off : nat) (src : list float)
  : list float :=
  firstn off dst ++ src ++ skipn (off + length src) dst.

(** [buffer[from .. from + n)]. *)
Definition slice (buffer : list float) (from n : nat) : list float :=
  firstn n (skipn from buffer).

Module RNNoise.

Definition FRAME_SIZE : nat := 480.

Section WithLib.
Variable L : RNNoiseLib.

Record state : Type := {
  state_ : option (DenoiseState L);
  frameBuffer_ : list float;
  bufferPos_ : nat;
  outputBuffer_ : list float;
  outputPos_ : nat;
  attenuation_ : float;
  lastVAD_ : float
}.

(** The constructor. *)
Definition create : state := {|
  state_ := None;
  frameBuffer_ := repeat F32.zero FRAME_SIZE;
  bufferPos_ := 0;
  outputBuffer_ := repeat F32.zero (FRAME_SIZE * 4);
  outputPos_ := 0;
  attenuation_ := F32.one;
  lastVAD_ := F32.zero
|}.

(** [RNNoiseProcessor::initialize]: the new state and the result. *)
Definition initialize (p : state) : state * bool :=
  match rnnoise_create L with
  | None =>
      ({| state_ := None; frameBuffer_ := frameBuffer_ p;
          bufferPos_ := bufferPos_ p; outputBuffer_ := outputBuffer_ p;
          outputPos_ := outputPos_ p; attenuation_ := attenuation_ p;
          lastVAD_ := lastVAD_ p |}, false)
  | Some st =>
      ({| state_ := Some st; frameBuffer_ := frameBuffer_ p;
          bufferPos_ := 0; outputBuffer_ := outputBuffer_ p;
          outputPos_ := 0; attenuation_ := attenuation_ p;
          lastVAD_ := lastVAD_ p |}, true)
  end.

Definition isInitialized (p : state) : bool :=
  match state_ p with Some _ => true | None => false end.

Definition reset (p : state) : state :=
  {| state_ := match state_ p with
               | Some _ => rnnoise_create L
               | None => None
               end;
     frameBuffer_ := map (fun _ => F32.zero) (frameBuffer_ p);
     bufferPos_ := 0;
     outputBuffer_ := map (fun _ => F32.zero) (outputBuffer_ p);
     outputPos_ := 0; attenuation_ := attenuation_ p;
     lastVAD_ := lastVAD_ p |}.

Definition setAttenuation (M : MathLib) (db : float) (p : state) : state :=
  let clampedDb := F32.clamp db (F32.of_Z (-60)) F32.zero in
  {| state_ := state_ p; frameBuffer_ := frameBuffer_ p;
     bufferPos_ := bufferPos_ p; outputBuffer_ := outputBuffer_ p;
     outputPos_ := outputPos_ p;
     attenuation_ := powf M (F32.of_Z 10) (clampedDb / F32.of_Z 20)%f32;
     lastVAD_ := lastVAD_ p |}.

(** The second loop of [processFrame]: each sample is first set to the
    blend and then overwritten by the processed sample. *)
Definition blend_sample (attenuation : float)
    (scaled original : float) : float :=
  let processed := (scaled / F32.of_Z 32767)%f32 in
  let blended :=
    (processed * (F32.one - attenuation) + original * attenuation)%f32 in
  let frame_i := blended in
  let frame_i := processed in
  frame_i.

(** [RNNoiseProcessor::processFrame] on a frame, with the library state:
    the new library state, the frame as left in place and the VAD. *)
Definition processFrame (attenuation : float) (st : DenoiseState L)
    (frame : list float) : DenoiseState L * list float * float :=
  let scaledFrame := map (fun x => (x * F32.of_Z 32767)%f32) frame in
  let '(st1, scaledOut, vad) := rnnoise_process_frame L st scaledFrame in
  (st1,
   map (fun so => blend_sample attenuation (fst so) (snd so))
     (combine scaledOut frame),
   vad).

(** "Copy to output buffer (with wrapping)". *)
Definition push_output (outputBuffer : list float) (outputPos : nat)
    (frame : list float) : list float :=
  let outputSpace := (length outputBuffer - outputPos)%nat in
  if Nat.leb FRAME_SIZE outputSpace then
    copy_into outputBuffer outputPos frame
  else
    copy_into
      (copy_into outputBuffer outputPos (firstn outputSpace frame))
      0 (skipn outputSpace frame).

(** The [while (inputPos < frames)] loop.  Every iteration moves
    [inputPos] forward or empties the frame buffer, so [fuel] bounds
    the iterations; the result carries the frames handed to
    [processFrame], oldest first. *)
Fixpoint process_loop (fuel : nat) (p : state) (st : DenoiseState L)
    (buffer : list float) (inputPos : nat)
  : option (state * list (list float)) :=
  if Nat.ltb inputPos (length buffer) then
    match fuel with
    | O => None
    | S fuel' =>
        let samplesToBuffer :=
          Nat.min (length buffer - inputPos) (FRAME_SIZE - bufferPos_ p) in
        let frameBuffer :=
          copy_into (frameBuffer_ p) (bufferPos_ p)
            (slice buffer inputPos samplesToBuffer) in
        let bufferPos := (bufferPos_ p + samplesToBuffer)%nat in
        let inputPos' := (inputPos + samplesToBuffer)%nat in
        if Nat.eqb bufferPos FRAME_SIZE then
          let '(st1, frame, vad) :=
            processFrame (attenuation_ p) st frameBuffer in
          let p1 :=
            {| state_ := Some st1; frameBuffer_ := frame;
               bufferPos_ := 0;
               outputBuffer_ :=
                 push_output (outputBuffer_ p) (outputPos_ p) frame;
               outputPos_ :=
                 Nat.modulo (outputPos_ p + FRAME_SIZE)
                   (length (outputBuffer_ p));
               attenuation_ := attenuation_ p; lastVAD_ := vad |} in
          match process_loop fuel' p1 st1 buffer inputPos' with
          | Some (p2, calls) => Some (p2, frameBuffer :: calls)
          | None => None
          end
        else
          process_loop fuel'
            {| state_ := state_ p; frameBuffer_ := frameBuffer;
               bufferPos_ := bufferPos;
               outputBuffer_ := outputBuffer_ p;
               outputPos_ := outputPos_ p;
               attenuation_ := attenuation_ p; lastVAD_ := lastVAD_ p |}
            st buffer inputPos'
    end
  else Some (p, []).

(** "Copy processed output back to input buffer": [startPos] is
    computed in [size_t], so the subtraction wraps modulo 2^64. *)
Definition drain (p : state) (frames : nat) : list float :=
  let size := Z.of_nat (length (outputBuffer_ p)) in
  let startPos :=
    ((Z.of_nat (outputPos_ p) + size - Z.of_nat frames) mod 2 ^ 64)
    mod size in
  map (fun i =>
         nth (Z.to_nat ((startPos + Z.of_nat i) mod size))
           (outputBuffer_ p) F32.zero)
      (seq 0 frames).

(** [RNNoiseProcessor::process]: the new state, the caller's buffer
    afterwards and the frames handed to [processFrame]. *)
Definition process (p : state) (buffer : list float)
  : option (state * list float * list (list float)) :=
  match state_ p with
  | None => Some (p, buffer, [])
  | Some st =>
      match process_loop (S (length buffer)) p st buffer 0 with
      | None => None
      | Some (p1, calls) => Some (p1, drain p1 (length buffer), calls)
      end
  end.

(** A sequence of calls, block after block. *)
Fixpoint process_blocks (p : state) (blocks : list (list float))
  : option (state * list (list float) * list (list float)) :=
  match blocks with
  | [] => Some (p, [], [])
  | b :: rest =>
      match process p b with
      | None => None
      | Some (p1, out, calls) =>
          match process_blocks p1 rest with
          | None => None
          | Some (p2, outs, calls') => Some (p2, out :: outs, calls ++ calls')
          end
      end
  end.

(** What the member functions maintain. *)
Definition wf (p : state) : Prop :=
  length (frameBuffer_ p) = FRAME_SIZE /\ (bufferPos_ p < FRAME_SIZE)%nat.

(** The samples buffered and not yet processed. *)
Definition pending (p : state) : list float :=
  firstn (bufferPos_ p) (frameBuffer_ p).

End WithLib.

End RNNoise.

(** ** Resampler (audio/resampler.cpp) *)

Module Resampler.

(** The polyphase filter bank and the history buffer that [initialize]
    fills are never read by [process]; the state keeps the members that
    [process] uses. *)
Record state : Type := {
  ratio_ : double;
  srcRate_ : Z;
  dstRate_ : Z;
  channels_ : Z;
  position_ : double;
  lastSample_ : float
}.

Definition initialize (srcRate dstRate channels : Z) : state * bool :=
  ({| ratio_ := F64.div (F64.of_Z srcRate) (F64.of_Z dstRate);
      srcRate_ := srcRate; dstRate_ := dstRate; channels_ := channels;
      position_ := F64.zero; lastSample_ := F32.zero |}, true).

Definition getRatio (r : state) : double := ratio_ r.

Definition reset (r : state) : state :=
  {| ratio_ := ratio_ r; srcRate_ := srcRate_ r; dstRate_ := dstRate_ r;
     channels_ := channels_ r; position_ := F64.zero;
     lastSample_ := F32.zero |}.

(** [input[i]]; reading outside the caller's array is undefined. *)
Definition input_at (input : list float) (i : Z) : option float :=
  if Z.ltb i 0 then None else nth_error input (Z.to_nat i).

(** The [for (ch ...)] loop of one output frame. *)
Fixpoint interpolate_channels (input : list float) (channels idx0 idx1 : Z)
    (frac : double) (ch : Z) (n : nat) : option (list float) :=
  match n with
  | O => Some []
  | S n' =>
      match input_at input (idx0 * channels + ch),
            input_at input (idx1 * channels + ch) with
      | Some sample0, Some sample1 =>
          let interpolated :=
            F64.to_float
              (F64.add
                 (F64.mul (F64.of_float sample0) (F64.sub F64.one frac))
                 (F64.mul (F64.of_float sample1) frac)) in
          match interpolate_channels input channels idx0 idx1 frac
                  (ch + 1) n' with
          | Some rest => Some (interpolated :: rest)
          | None => None
          end
      | _, _ => None
      end
  end.

(** The [while (position_ < frames - 1)] loop; [frames - 1] is computed
    in [size_t] and then converted to [double]. *)
Fixpoint interpolate_loop (fuel : nat) (r : state) (input : list float)
    (frames : Z) (position : double) : option (double * list float) :=
  if F64.ltb position (F64.of_Z ((frames - 1) mod 2 ^ 64)) then
    match fuel with
    | O => None
    | S fuel' =>
        match F64.to_size_t position with
        | None => None
        | Some idx0 =>
            let idx1 := idx0 + 1 in
            let frac := F64.sub position (F64.of_Z idx0) in
            match interpolate_channels input (channels_ r) idx0 idx1 frac 0
                    (Z.to_nat (channels_ r)) with
            | None => None
            | Some frame =>
                match interpolate_loop fuel' r input frames
                        (F64.add position (ratio_ r)) with
                | Some (position', out) => Some (position', frame ++ out)
                | None => None
                end
            end
        end
    end
  else Some (position, []).

(** [Resampler::process(input, frames)]: the new state and the output
    vector.  [None] is undefined behaviour or a loop that does not end
    within the [outputFrames] the code reserves (plus one). *)
Definition process (r : state) (input : list float) (frames : Z)
  : option (state * list float) :=
  if Z.eqb (srcRate_ r) (dstRate_ r) then
    Some (r, firstn (Z.to_nat (frames * channels_ r)) input)
  else
    match F64.to_size_t
            (F64.add (F64.div (F64.of_Z frames) (ratio_ r)) F64.one) with
    | None => None
    | Some outputFrames =>
        match interpolate_loop (S (Z.to_nat outputFrames)) r input frames
                (position_ r) with
        | None => None
        | Some (position, output) =>
            let position1 := F64.sub position (F64.of_Z frames) in
            let position2 :=
              if F64.ltb position1 F64.zero then F64.zero else position1 in
            if Z.ltb 0 frames then
              match input_at input ((frames - 1) * channels_ r) with
              | None => None
              | Some last =>
                  Some ({| ratio_ := ratio_ r; srcRate_ := srcRate_ r;
                           dstRate_ := dstRate_ r; channels_ := channels_ r;
                           position_ := position2; lastSample_ := last |},
                        output)
              end
            else
              Some ({| ratio_ := ratio_ r; srcRate_ := srcRate_ r;
                       dstRate_ := dstRate_ r; channels_ := channels_ r;
                       position_ := position2;
                       lastSample_ := lastSample_ r |},
                    output)
        end
    end.

(** Two consecutive calls, and their outputs in order. *)
Definition process_two (r : state) (block1 block2 : list float)
  : option (state * list float) :=
  match process r block1 (Z.of_nat (length block1)) with
  | None => None
  | Some (r1, out1) =>
      match process r1 block2 (Z.of_nat (length block2)) with
      | None => None
      | Some (r2, out2) => Some (r2, out1 ++ out2)
      end
  end.

End Resampler.

(** ** Lock-free ring buffer (audio/audio_buffer.cpp)

    The two positions are atomics in the source; here one call runs at a
    time, so they are plain fields. *)

Module Ring.

Record state : Type := {
  buffer_ : list float;
  capacity_ : nat;
  writePos_ : nat;
  readPos_ : nat
}.

Definition create (capacity : nat) : state := {|
  buffer_ := repeat F32.zero (capacity + 1);
  capacity_ := capacity;
  writePos_ := 0;
  readPos_ := 0
|}.

Definition availableRead (rb : state) : nat :=
  if Nat.leb (readPos_ rb) (writePos_ rb) then
    (writePos_ rb - readPos_ rb)%nat
  else (length (buffer_ rb) - readPos_ rb + writePos_ rb)%nat.

Definition availableWrite (rb : state) : nat :=
  if Nat.leb (readPos_ rb) (writePos_ rb) then
    (capacity_ rb - (writePos_ rb - readPos_ rb))%nat
  else (readPos_ rb - writePos_ rb - 1)%nat.

(** [LockFreeRingBuffer::write(data, count)] with [count] the length of
    [data]: the new state and the number of samples written. *)
Definition write (rb : state) (data : list float) : state * nat :=
  let currentWrite := writePos_ rb in
  let currentRead := readPos_ rb in
  let available :=
    if Nat.leb currentRead currentWrite then
      (capacity_ rb - (currentWrite - currentRead))%nat
    else (currentRead - currentWrite - 1)%nat in
  let toWrite := Nat.min (length data) available in
  if Nat.eqb toWrite 0 then (rb, 0%nat)
  else
    let bufferSize := length (buffer_ rb) in
    let firstPart := Nat.min toWrite (bufferSize - currentWrite) in
    let buffer1 :=
      copy_into (buffer_ rb) currentWrite (slice data 0 firstPart) in
    let buffer2 :=
      if Nat.ltb firstPart toWrite then
        copy_into buffer1 0 (slice data firstPart (toWrite - firstPart))
      else buffer1 in
    ({| buffer_ := buffer2; capacity_ := capacity_ rb;
        writePos_ := Nat.modulo (currentWrite + toWrite) bufferSize;
        readPos_ := currentRead |},
     toWrite).

(** [LockFreeRingBuffer::read(data, count)]: the new state and the
    samples copied out (their number is the return value). *)
Definition read (rb : state) (count : nat) : state * list float :=
  let currentRead := readPos_ rb in
  let currentWrite := writePos_ rb in
  let available :=
    if Nat.leb currentRead currentWrite then
      (currentWrite - currentRead)%nat
    else (length (buffer_ rb) - currentRead + currentWrite)%nat in
  let toRead := Nat.min count available in
  if Nat.eqb toRead 0 then (rb, [])
  else
    let bufferSize := length (buffer_ rb) in
    let firstPart := Nat.min toRead (bufferSize - currentRead) in
    let data1 := slice (buffer_ rb) currentRead firstPart in
    let data2 :=
      if Nat.ltb firstPart toRead then
        slice (buffer_ rb) 0 (toRead - firstPart)
      else [] in
    ({| buffer_ := buffer_ rb; capacity_ := capacity_ rb;
        writePos_ := currentWrite;
        readPos_ := Nat.modulo (currentRead + toRead) bufferSize |},
     data1 ++ data2).

Definition clear (rb : state) : state :=
  {| buffer_ := buffer_ rb; capacity_ := capacity_ rb;
     writePos_ := 0; readPos_ := 0 |}.

(** The representation invariant of the class. *)
Definition wf (rb : state) : Prop :=
  length (buffer_ rb) = (capacity_ rb + 1)%nat /\
  (writePos_ rb < length (buffer_ rb))%nat /\
  (readPos_ rb < length (buffer_ rb))%nat.

(** The queued samples, oldest first: what successive reads return. *)
Definition contents (rb : state) : list float :=
  map (fun k =>
         nth (Nat.modulo (readPos_ rb + k) (length (buffer_ rb)))
           (buffer_ rb) F32.zero)
      (seq 0 (availableRead rb)).

End Ring.

(** ** Biquad filter (dsp/biquad_filter.cpp) *)

Module Biquad.

Record state : Type := {
  b0_ : float; b1_ : float; b2_ : float;
  a1_ : float; a2_ : float;
  z1_ : float; z2_ : float
}.

Definition create : state := {|
  b0_ := F32.one; b1_ := F32.zero; b2_ := F32.zero;
  a1_ := F32.zero; a2_ := F32.zero;
  z1_ := F32.zero; z2_ := F32.zero
|}.

Definition setCoefficients (b0 b1 b2 a1 a2 : float) (q : state) : state :=
  {| b0_ := b0; b1_ := b1; b2_ := b2; a1_ := a1; a2_ := a2;
     z1_ := z1_ q; z2_ := z2_ q |}.

Definition reset (q : state) : state :=
  {| b0_ := b0_ q; b1_ := b1_ q; b2_ := b2_ q; a1_ := a1_ q; a2_ := a2_ q;
     z1_ := F32.zero; z2_ := F32.zero |}.

(** [3.14159265358979323846f]. *)
Definition PI : float := F32.of_bits 0x40490fdb.
Definition two : float := F32.of_Z 2.

Section WithLibm.
Variable M : MathLib.

Definition setHighPass (sampleRate frequency q : float) (f : state)
  : state :=
  let omega := (two * PI * frequency / sampleRate)%f32 in
  let sinOmega := sinf M omega in
  let cosOmega := cosf M omega in
  let alpha := (sinOmega / (two * q))%f32 in
  let a0 := (F32.one + alpha)%f32 in
  setCoefficients
    (((F32.one + cosOmega) / two) / a0)%f32
    ((- (F32.one + cosOmega)) / a0)%f32
    (((F32.one + cosOmega) / two) / a0)%f32
    ((F32.of_Z (-2) * cosOmega) / a0)%f32
    ((F32.one - alpha) / a0)%f32 f.

Definition setBandPass (sampleRate frequency q : float) (f : state)
  : state :=
  let omega := (two * PI * frequency / sampleRate)%f32 in
  let sinOmega := sinf M omega in
  let cosOmega := cosf M omega in
  let alpha := (sinOmega / (two * q))%f32 in
  let a0 := (F32.one + alpha)%f32 in
  setCoefficients
    (alpha / a0)%f32
    F32.zero
    ((- alpha) / a0)%f32
    ((F32.of_Z (-2) * cosOmega) / a0)%f32
    ((F32.one - alpha) / a0)%f32 f.

Definition setPeak (sampleRate frequency q gainDb : float) (f : state)
  : state :=
  let A := powf M (F32.of_Z 10) (gainDb / F32.of_Z 40)%f32 in
  let omega := (two * PI * frequency / sampleRate)%f32 in
  let sinOmega := sinf M omega in
  let cosOmega := cosf M omega in
  let alpha := (sinOmega / (two * q))%f32 in
  let a0 := (F32.one + alpha / A)%f32 in
  setCoefficients
    ((F32.one + alpha * A) / a0)%f32
    ((F32.of_Z (-2) * cosOmega) / a0)%f32
    ((F32.one - alpha * A) / a0)%f32
    ((F32.of_Z (-2) * cosOmega) / a0)%f32
    ((F32.one - alpha / A) / a0)%f32 f.

Definition setLowShelf (sampleRate frequency gainDb q : float) (f : state)
  : state :=
  let A := powf M (F32.of_Z 10) (gainDb / F32.of_Z 40)%f32 in
  let omega := (two * PI * frequency / sampleRate)%f32 in
  let sinOmega := sinf M omega in
  let cosOmega := cosf M omega in
  let alpha := (sinOmega / (two * q))%f32 in
  let sqrtA := F32.sqrt A in
  let a0 :=
    ((A + F32.one) + (A - F32.one) * cosOmega + two * sqrtA * alpha)%f32 in
  setCoefficients
    ((A * ((A + F32.one) - (A - F32.one) * cosOmega
           + two * sqrtA * alpha)) / a0)%f32
    ((two * A * ((A - F32.one) - (A + F32.one) * cosOmega)) / a0)%f32
    ((A * ((A + F32.one) - (A - F32.one) * cosOmega
           - two * sqrtA * alpha)) / a0)%f32
    ((F32.of_Z (-2) * ((A - F32.one) + (A + F32.one) * cosOmega)) / a0)%f32
    (((A + F32.one) + (A - F32.one) * cosOmega
      - two * sqrtA * alpha) / a0)%f32 f.

Definition setHighShelf (sampleRate frequency gainDb q : float) (f : state)
  : state :=
  let A := powf M (F32.of_Z 10) (gainDb / F32.of_Z 40)%f32 in
  let omega := (two * PI * frequency / sampleRate)%f32 in
  let sinOmega := sinf M omega in
  let cosOmega := cosf M omega in
  let alpha := (sinOmega / (two * q))%f32 in
  let sqrtA := F32.sqrt A in
  let a0 :=
    ((A + F32.one) - (A - F32.one) * cosOmega + two * sqrtA * alpha)%f32 in
  setCoefficients
    ((A * ((A + F32.one) + (A - F32.one) * cosOmega
           + two * sqrtA * alpha)) / a0)%f32
    ((F32.of_Z (-2) * A * ((A - F32.one) + (A + F32.one) * cosOmega))
     / a0)%f32
    ((A * ((A + F32.one) + (A - F32.one) * cosOmega
           - two * sqrtA * alpha)) / a0)%f32
    ((two * ((A - F32.one) - (A + F32.one) * cosOmega)) / a0)%f32
    (((A + F32.one) - (A - F32.one) * cosOmega
      - two * sqrtA * alpha) / a0)%f32 f.
End WithLibm.

(** [BiquadFilter::process(float)]: transposed direct form II. *)
Definition process (f : state) (input : float) : state * float :=
  let output := (b0_ f * input + z1_ f)%f32 in
  ({| b0_ := b0_ f; b1_ := b1_ f; b2_ := b2_ f;
      a1_ := a1_ f; a2_ := a2_ f;
      z1_ := (b1_ f * input - a1_ f * output + z2_ f)%f32;
      z2_ := (b2_ f * input - a2_ f * output)%f32 |},
   output).

End Biquad.

(** ** Equalizer (dsp/equalizer.cpp) *)

Module Equalizer.

Record state : Type := {
  enabled_ : bool;
  deEsserEnabled_ : bool;
  highPass_ : Biquad.state;
  lowShelf_ : Biquad.state;
  presence_ : Biquad.state;
  highShelf_ : Biquad.state;
  deEsserDetect_ : Biquad.state;
  deEsserThreshold_ : float;
  deEsserEnvelope_ : float;
  sampleRate_ : float
}.

Definition fresh : state := {|
  enabled_ := true;
  deEsserEnabled_ := false;
  highPass_ := Biquad.create;
  lowShelf_ := Biquad.create;
  presence_ := Biquad.create;
  highShelf_ := Biquad.create;
  deEsserDetect_ := Biquad.create;
  deEsserThreshold_ := F32.lit 1 10;
  deEsserEnvelope_ := F32.zero;
  sampleRate_ := F32.of_Z 48000
|}.

(** The filters and the de-esser state, the rest kept. *)
Definition update (e : state) (hp ls pr hs de : Biquad.state)
    (thr env : float) : state :=
  {| enabled_ := enabled_ e; deEsserEnabled_ := deEsserEnabled_ e;
     highPass_ := hp; lowShelf_ := ls; presence_ := pr; highShelf_ := hs;
     deEsserDetect_ := de; deEsserThreshold_ := thr;
     deEsserEnvelope_ := env; sampleRate_ := sampleRate_ e |}.

Definition setEnabled (b : bool) (e : state) : state :=
  {| enabled_ := b; deEsserEnabled_ := deEsserEnabled_ e;
     highPass_ := highPass_ e; lowShelf_ := lowShelf_ e;
     presence_ := presence_ e; highShelf_ := highShelf_ e;
     deEsserDetect_ := deEsserDetect_ e;
     deEsserThreshold_ := deEsserThreshold_ e;
     deEsserEnvelope_ := deEsserEnvelope_ e;
     sampleRate_ := sampleRate_ e |}.

(** The default [q = 0.707f] of the shelving setters. *)
Definition shelf_q : float := F32.lit 707 1000.

Section WithLibm.
Variable M : MathLib.

Definition setHighPass (freq q : float) (e : state) : state :=
  let freq := F32.clamp freq (F32.of_Z 20) (F32.of_Z 500) in
  let q := F32.clamp q (F32.lit 1 2) (F32.of_Z 2) in
  update e (Biquad.setHighPass M (sampleRate_ e) freq q (highPass_ e))
    (lowShelf_ e) (presence_ e) (highShelf_ e) (deEsserDetect_ e)
    (deEsserThreshold_ e) (deEsserEnvelope_ e).

Definition setLowShelf (freq gain : float) (e : state) : state :=
  let freq := F32.clamp freq (F32.of_Z 80) (F32.of_Z 300) in
  let gain := F32.clamp gain (F32.of_Z (-12)) (F32.of_Z 12) in
  update e (highPass_ e)
    (Biquad.setLowShelf M (sampleRate_ e) freq gain shelf_q (lowShelf_ e))
    (presence_ e) (highShelf_ e) (deEsserDetect_ e)
    (deEsserThreshold_ e) (deEsserEnvelope_ e).

Definition setPresence (freq gain q : float) (e : state) : state :=
  let freq := F32.clamp freq (F32.of_Z 2000) (F32.of_Z 6000) in
  let gain := F32.clamp gain (F32.of_Z (-12)) (F32.of_Z 12) in
  let q := F32.clamp q (F32.lit 1 2) (F32.of_Z 4) in
  update e (highPass_ e) (lowShelf_ e)
    (Biquad.setPeak M (sampleRate_ e) freq q gain (presence_ e))
    (highShelf_ e) (deEsserDetect_ e)
    (deEsserThreshold_ e) (deEsserEnvelope_ e).

Definition setHighShelf (freq gain : float) (e : state) : state :=
  let freq := F32.clamp freq (F32.of_Z 6000) (F32.of_Z 16000) in
  let gain := F32.clamp gain (F32.of_Z (-12)) (F32.of_Z 12) in
  update e (highPass_ e) (lowShelf_ e) (presence_ e)
    (Biquad.setHighShelf M (sampleRate_ e) freq gain shelf_q (highShelf_ e))
    (deEsserDetect_ e) (deEsserThreshold_ e) (deEsserEnvelope_ e).

Definition setDeEsser (freq threshold : float) (e : state) : state :=
  let freq := F32.clamp freq (F32.of_Z 4000) (F32.of_Z 10000) in
  let threshold := F32.clamp threshold (F32.of_Z (-40)) F32.zero in
  update e (highPass_ e) (lowShelf_ e) (presence_ e) (highShelf_ e)
    (Biquad.setBandPass M (sampleRate_ e) freq (F32.of_Z 4)
       (deEsserDetect_ e))
    (powf M (F32.of_Z 10) (threshold / F32.of_Z 20)%f32)
    (deEsserEnvelope_ e).

Definition create : state :=
  setDeEsser (F32.of_Z 6000) (F32.of_Z (-20))
    (setHighShelf (F32.of_Z 8000) F32.zero
      (setPresence (F32.of_Z 3000) F32.zero F32.one
        (setLowShelf (F32.of_Z 200) F32.zero
          (setHighPass (F32.of_Z 80) (F32.lit 7 10) fresh)))).
End WithLibm.

Definition reset (e : state) : state :=
  update e (Biquad.reset (highPass_ e)) (Biquad.reset (lowShelf_ e))
    (Biquad.reset (presence_ e)) (Biquad.reset (highShelf_ e))
    (Biquad.reset (deEsserDetect_ e)) (deEsserThreshold_ e) F32.zero.

(** One iteration of the loop of [Equalizer::process]. *)
Definition process_sample (e : state) (sample : float) : state * float :=
  let '(hp, sample) := Biquad.process (highPass_ e) sample in
  let '(ls, sample) := Biquad.process (lowShelf_ e) sample in
  let '(pr, sample) := Biquad.process (presence_ e) sample in
  let '(hs, sample) := Biquad.process (highShelf_ e) sample in
  if deEsserEnabled_ e then
    let '(de, sibilance) := Biquad.process (deEsserDetect_ e) sample in
    let sibilanceLevel := F32.abs sibilance in
    let coeff :=
      if (sibilanceLevel >? deEsserEnvelope_ e)%f32 then F32.lit 1 10
      else F32.lit 995 1000 in
    let envelope :=
      (coeff * deEsserEnvelope_ e + (F32.one - coeff) * sibilanceLevel)%f32 in
    let sample :=
      if (envelope >? deEsserThreshold_ e)%f32 then
        let reduction := (deEsserThreshold_ e / envelope)%f32 in
        (sample - sibilance * (F32.one - reduction))%f32
      else sample in
    (update e hp ls pr hs de (deEsserThreshold_ e) envelope, sample)
  else
    (update e hp ls pr hs (deEsserDetect_ e) (deEsserThreshold_ e)
       (deEsserEnvelope_ e), sample).

Fixpoint process_loop (e : state) (buffer : list float)
  : state * list float :=
  match buffer with
  | [] => (e, [])
  | x :: rest =>
      let '(e1, y) := process_sample e x in
      let '(e2, ys) := process_loop e1 rest in
      (e2, y :: ys)
  end.

Definition process (e : state) (buffer : list float) : state * list float :=
  if negb (enabled_ e) then (e, buffer) else process_loop e buffer.

End Equalizer.

(** ** Metering (dsp/metering.cpp) *)

Module Metering.

Definition RMS_WINDOW_SAMPLES : nat := Z.to_nat (48000 * 300 / 1000).
Definition LUFS_WINDOW_SAMPLES : nat := Z.to_nat (48000 * 3).

Record state : Type := {
  sampleRate_ : float;
  peak_ : float;
  peakDb_ : float;
  peakDecayCoeff_ : float;
  rms_ : float;
  rmsDb_ : float;
  rmsSum_ : float;
  rmsCount_ : nat;
  lufs_ : float;
  lufsBuffer_ : list float;
  lufsPos_ : nat
}.

Definition fresh : state := {|
  sampleRate_ := F32.of_Z 48000;
  peak_ := F32.zero;
  peakDb_ := F32.of_Z (-96);
  peakDecayCoeff_ := F32.zero;
  rms_ := F32.zero;
  rmsDb_ := F32.of_Z (-96);
  rmsSum_ := F32.zero;
  rmsCount_ := 0;
  lufs_ := F32.of_Z (-70);
  lufsBuffer_ := repeat F32.zero LUFS_WINDOW_SAMPLES;
  lufsPos_ := 0
|}.

Definition getPeak (m : state) : float := peakDb_ m.
Definition getRMS (m : state) : float := rmsDb_ m.

(** [lufsBuffer_[pos] = x]. *)
Fixpoint store (buf : list float) (pos : nat) (x : float) : list float :=
  match buf, pos with
  | [], _ => []
  | _ :: rest, O => x :: rest
  | y :: rest, S k => y :: store rest k x
  end.

(** The sample loop of [Metering::process]: block peak, block sum of
    squares, and the window of squares. *)
Fixpoint scan (buffer : list float) (blockPeak blockSum : float)
    (lufsBuffer : list float) (lufsPos : nat)
  : float * float * list float * nat :=
  match buffer with
  | [] => (blockPeak, blockSum, lufsBuffer, lufsPos)
  | sample :: rest =>
      let absSample := F32.abs sample in
      let squared := (sample * sample)%f32 in
      scan rest (F32.max blockPeak absSample) (blockSum + squared)%f32
        (store lufsBuffer lufsPos squared)
        (Nat.modulo (lufsPos + 1) (length lufsBuffer))
  end.

Section WithLibm.
Variable M : MathLib.

Definition setPeakDecay (ms : float) (m : state) : state :=
  let decayMs := F32.clamp ms (F32.of_Z 100) (F32.of_Z 5000) in
  {| sampleRate_ := sampleRate_ m; peak_ := peak_ m; peakDb_ := peakDb_ m;
     peakDecayCoeff_ :=
       expf M (F32.of_Z (-1) / (decayMs * sampleRate_ m / F32.of_Z 1000))%f32;
     rms_ := rms_ m; rmsDb_ := rmsDb_ m; rmsSum_ := rmsSum_ m;
     rmsCount_ := rmsCount_ m; lufs_ := lufs_ m;
     lufsBuffer_ := lufsBuffer_ m; lufsPos_ := lufsPos_ m |}.

Definition create : state := setPeakDecay (F32.of_Z 1500) fresh.

Definition to_db (x : float) : float :=
  if (x >? F32.lit 1 10000000000)%f32 then
    (F32.of_Z 20 * log10f M x)%f32
  else F32.of_Z (-96).

(** [Metering::process]: the buffer is [const], only the meter moves. *)
Definition process (m : state) (buffer : list float) : state :=
  let frames := length buffer in
  let '(blockPeak, blockSum, lufsBuffer, lufsPos) :=
    scan buffer F32.zero F32.zero (lufsBuffer_ m) (lufsPos_ m) in
  let peak :=
    if (blockPeak >? peak_ m)%f32 then blockPeak
    else (peak_ m
          * powf M (peakDecayCoeff_ m) (F32.of_Z (Z.of_nat frames)))%f32 in
  let rmsSum := (rmsSum_ m + blockSum)%f32 in
  let rmsCount := (rmsCount_ m + frames)%nat in
  let window_full := Nat.leb RMS_WINDOW_SAMPLES rmsCount in
  let rms :=
    if window_full then
      F32.sqrt (rmsSum / F32.of_Z (Z.of_nat rmsCount))%f32
    else rms_ m in
  let lufsSum := fold_left F32.add lufsBuffer F32.zero in
  let meanSquare :=
    (lufsSum / F32.of_Z (Z.of_nat (length lufsBuffer)))%f32 in
  {| sampleRate_ := sampleRate_ m;
     peak_ := peak;
     peakDb_ := to_db peak;
     peakDecayCoeff_ := peakDecayCoeff_ m;
     rms_ := rms;
     rmsDb_ := if window_full then to_db rms else rmsDb_ m;
     rmsSum_ := if window_full then blockSum else rmsSum;
     rmsCount_ := if window_full then frames else rmsCount;
     lufs_ :=
       if (meanSquare >? F32.lit 1 10000000000)%f32 then
         (F32.lit (-691) 1000 + F32.of_Z 10 * log10f M meanSquare)%f32
       else F32.of_Z (-70);
     lufsBuffer_ := lufsBuffer;
     lufsPos_ := lufsPos |}.
End WithLibm.

End Metering.

(** ** Configuration (config/config_types.h) *)

Record HighPassConfig : Type := { hp_freq : float; hp_q : float }.
Record ShelfConfig : Type := { shelf_freq : float; shelf_gain : float }.
Record PresenceConfig : Type :=
  { pr_freq : float; pr_gain : float; pr_q : float }.

Record ExpanderConfig : Type := {
  exp_enabled : bool; exp_threshold : float; exp_ratio : float;
  exp_attack : float; exp_release : float; exp_hysteresis : float
}.

Record CompressorConfig : Type := {
  comp_enabled : bool; comp_threshold : float; comp_ratio : float;
  comp_knee : float; comp_attack : float; comp_release : float;
  comp_makeupGain : float
}.

Record LimiterConfig : Type := {
  lim_enabled : bool; lim_ceiling : float; lim_release : float;
  lim_lookahead : float
}.

Record EqualizerConfig : Type := {
  eq_enabled : bool;
  eq_highPass : HighPassConfig;
  eq_lowShelf : ShelfConfig;
  eq_presence : PresenceConfig;
  eq_highShelf : ShelfConfig
}.

Record Config : Type := {
  inputDevice : string;
  outputDevice : string;
  aiModel : string;
  rnnoise_attenuation : float;
  expander : ExpanderConfig;
  compressor : CompressorConfig;
  limiter : LimiterConfig;
  equalizer : EqualizerConfig;
  activePreset : string
}.

(** The default member initialisers of [Config]. *)
Definition default_config : Config := {|
  inputDevice := EmptyString;
  outputDevice := EmptyString;
  aiModel := "rnnoise";
  rnnoise_attenuation := F32.of_Z (-30);
  expander := {| exp_enabled := true; exp_threshold := F32.of_Z (-40);
                 exp_ratio := F32.of_Z 2; exp_attack := F32.of_Z 5;
                 exp_release := F32.of_Z 100; exp_hysteresis := F32.of_Z 3 |};
  compressor := {| comp_enabled := true; comp_threshold := F32.of_Z (-18);
                   comp_ratio := F32.of_Z 4; comp_knee := F32.of_Z 6;
                   comp_attack := F32.of_Z 10; comp_release := F32.of_Z 100;
                   comp_makeupGain := F32.of_Z 6 |};
  limiter := {| lim_enabled := true; lim_ceiling := F32.of_Z (-1);
                lim_release := F32.of_Z 50; lim_lookahead := F32.of_Z 5 |};
  equalizer := {| eq_enabled := true;
                  eq_highPass := {| hp_freq := F32.of_Z 80;
                                    hp_q := F32.lit 7 10 |};
                  eq_lowShelf := {| shelf_freq := F32.of_Z 200;
                                    shelf_gain := F32.zero |};
                  eq_presence := {| pr_freq := F32.of_Z 3000;
                                    pr_gain := F32.zero; pr_q := F32.one |};
                  eq_highShelf := {| shelf_freq := F32.of_Z 8000;
                                     shelf_gain := F32.zero |} |};
  activePreset := "podcast"
|}.

(** ** Engine (engine.cpp) *)

(** The WASAPI adapters and the pipe server are outside the pipeline: what
    their calls answer during [initialize] is the platform's. *)
Record Platform : Type := {
  capture_initialize : string -> bool;
  capture_sample_rate : Z;
  render_devices : list (string * string);
  render_initialize : string -> bool;
  render_sample_rate : Z;
  pipe_start : bool
}.

(** [hay.find(needle) != std::string::npos]. *)
Fixpoint contains (needle hay : string) : bool :=
  if String.prefix needle hay then true
  else match hay with
       | EmptyString => false
       | String _ rest => contains needle rest
       end.

Module Engine.

Definition INTERNAL_SAMPLE_RATE : Z := 48000.
Definition INTERNAL_CHANNELS : Z := 1.
Definition PROCESSING_BLOCK_SIZE : nat := 480.
Definition BUFFER_SIZE : nat := PROCESSING_BLOCK_SIZE * 16.

Record Status : Type := {
  capturing : bool;
  rendering : bool;
  inputLevel : float;
  outputLevel : float;
  gainReduction : float;
  cpuUsage : float;
  bufferUnderruns : Z
}.

Section WithLibs.
Variable M : MathLib.
Variable L : RNNoiseLib.

Record state : Type := {
  config_ : Config;
  capture_ready_ : bool;
  render_ready_ : bool;
  inputResampler_ : option Resampler.state;
  outputResampler_ : option Resampler.state;
  rnnoise_ : option (RNNoise.state L);
  expander_ : option Expander.state;
  compressor_ : option Compressor.state;
  limiter_ : option Limiter.state;
  equalizer_ : option Equalizer.state;
  inputMetering_ : option Metering.state;
  outputMetering_ : option Metering.state;
  pipeServer_ : bool;
  inputBuffer_ : Ring.state;
  outputBuffer_ : Ring.state;
  running_ : bool;
  bypass_ : bool;
  meterCallback_ : bool;
  status_ : Status
}.

(** The constructor. *)
Definition create (cfg : Config) : state := {|
  config_ := cfg;
  capture_ready_ := false;
  render_ready_ := false;
  inputResampler_ := None;
  outputResampler_ := None;
  rnnoise_ := None;
  expander_ := None;
  compressor_ := None;
  limiter_ := None;
  equalizer_ := None;
  inputMetering_ := None;
  outputMetering_ := None;
  pipeServer_ := false;
  inputBuffer_ := Ring.create BUFFER_SIZE;
  outputBuffer_ := Ring.create BUFFER_SIZE;
  running_ := false;
  bypass_ := false;
  meterCallback_ := false;
  status_ := {| capturing := false; rendering := false;
                inputLevel := F32.zero; outputLevel := F32.zero;
                gainReduction := F32.zero; cpuUsage := F32.zero;
                bufferUnderruns := 0 |}
|}.

(** The members a call may write; every function below rebuilds the
    state through it. *)
Definition with_io (e : state) (cap ren : bool)
    (ir orr : option Resampler.state) : state :=
  {| config_ := config_ e; capture_ready_ := cap; render_ready_ := ren;
     inputResampler_ := ir; outputResampler_ := orr;
     rnnoise_ := rnnoise_ e; expander_ := expander_ e;
     compressor_ := compressor_ e; limiter_ := limiter_ e;
     equalizer_ := equalizer_ e; inputMetering_ := inputMetering_ e;
     outputMetering_ := outputMetering_ e; pipeServer_ := pipeServer_ e;
     inputBuffer_ := inputBuffer_ e; outputBuffer_ := outputBuffer_ e;
     running_ := running_ e; bypass_ := bypass_ e;
     meterCallback_ := meterCallback_ e; status_ := status_ e |}.

Definition with_chain (e : state)
    (rn : option (RNNoise.state L)) (ex : option Expander.state)
    (co : option Compressor.state) (li : option Limiter.state)
    (eq : option Equalizer.state) (im om : option Metering.state)
    (st : Status) : state :=
  {| config_ := config_ e; capture_ready_ := capture_ready_ e;
     render_ready_ := render_ready_ e;
     inputResampler_ := inputResampler_ e;
     outputResampler_ := outputResampler_ e;
     rnnoise_ := rn; expander_ := ex; compressor_ := co; limiter_ := li;
     equalizer_ := eq; inputMetering_ := im; outputMetering_ := om;
     pipeServer_ := pipeServer_ e;
     inputBuffer_ := inputBuffer_ e; outputBuffer_ := outputBuffer_ e;
     running_ := running_ e; bypass_ := bypass_ e;
     meterCallback_ := meterCallback_ e; status_ := st |}.

Definition with_rings (e : state) (ir orr : option Resampler.state)
    (ib ob : Ring.state) : state :=
  {| config_ := config_ e; capture_ready_ := capture_ready_ e;
     render_ready_ := render_ready_ e;
     inputResampler_ := ir; outputResampler_ := orr;
     rnnoise_ := rnnoise_ e; expander_ := expander_ e;
     compressor_ := compressor_ e; limiter_ := limiter_ e;
     equalizer_ := equalizer_ e; inputMetering_ := inputMetering_ e;
     outputMetering_ := outputMetering_ e; pipeServer_ := pipeServer_ e;
     inputBuffer_ := ib; outputBuffer_ := ob;
     running_ := running_ e; bypass_ := bypass_ e;
     meterCallback_ := meterCallback_ e; status_ := status_ e |}.

Definition setBypass (b : bool) (e : state) : state :=
  {| config_ := config_ e; capture_ready_ := capture_ready_ e;
     render_ready_ := render_ready_ e;
     inputResampler_ := inputResampler_ e;
     outputResampler_ := outputResampler_ e;
     rnnoise_ := rnnoise_ e; expander_ := expander_ e;
     compressor_ := compressor_ e; limiter_ := limiter_ e;
     equalizer_ := equalizer_ e; inputMetering_ := inputMetering_ e;
     outputMetering_ := outputMetering_ e; pipeServer_ := pipeServer_ e;
     inputBuffer_ := inputBuffer_ e; outputBuffer_ := outputBuffer_ e;
     running_ := running_ e; bypass_ := b;
     meterCallback_ := meterCallback_ e; status_ := status_ e |}.

Definition setMeterCallback (e : state) : state :=
  {| config_ := config_ e; capture_ready_ := capture_ready_ e;
     render_ready_ := render_ready_ e;
     inputResampler_ := inputResampler_ e;
     outputResampler_ := outputResampler_ e;
     rnnoise_ := rnnoise_ e; expander_ := expander_ e;
     compressor_ := compressor_ e; limiter_ := limiter_ e;
     equalizer_ := equalizer_ e; inputMetering_ := inputMetering_ e;
     outputMetering_ := outputMetering_ e; pipeServer_ := pipeServer_ e;
     inputBuffer_ := inputBuffer_ e; outputBuffer_ := outputBuffer_ e;
     running_ := running_ e; bypass_ := bypass_ e;
     meterCallback_ := true; status_ := status_ e |}.

(** *** Initialisation.  Each helper returns the new state, its
    [bool] result and the lines it writes to [std::cerr]; the lines the
    WASAPI adapters and the pipe server write on their own failures are
    not part of it.  [initializeCapture] and [initializeRender] begin by
    replacing the adapter with a new one ([std::make_unique]), which is
    not ready until its [initialize] succeeds: [capture_ready_] and
    [render_ready_] are false on every path on which it did not. *)

Definition initializeCapture (P : Platform) (e : state)
  : state * bool * list string :=
  if negb (capture_initialize P (inputDevice (config_ e))) then
    (with_io e false (render_ready_ e) (inputResampler_ e)
       (outputResampler_ e), false, [])
  else
    let captureSampleRate := capture_sample_rate P in
    if negb (Z.eqb captureSampleRate INTERNAL_SAMPLE_RATE) then
      let '(r, ok) :=
        Resampler.initialize captureSampleRate INTERNAL_SAMPLE_RATE
          INTERNAL_CHANNELS in
      if negb ok then
        (with_io e true (render_ready_ e) (Some r) (outputResampler_ e),
         false, ["Failed to initialize input resampler"%string])
      else
        (with_io e true (render_ready_ e) (Some r) (outputResampler_ e),
         true, [])
    else
      (with_io e true (render_ready_ e) (inputResampler_ e)
         (outputResampler_ e), true, []).

(** The auto-detection loop of [initializeRender]. *)
Fixpoint find_virtual_device (devices : list (string * string)) : string :=
  match devices with
  | [] => EmptyString
  | device :: rest =>
      if contains "CABLE Input" (fst device)
         || contains "VB-Audio" (fst device) then snd device
      else if contains "Virtual Speaker" (fst device)
              || contains "WindowsAiMic" (fst device) then snd device
      else find_virtual_device rest
  end.

Definition is_empty (s : string) : bool :=
  match s with EmptyString => true | _ => false end.

Definition initializeRender (P : Platform) (e : state)
  : state * bool * list string :=
  let configured := outputDevice (config_ e) in
  let outputDevice :=
    if is_empty configured then find_virtual_device (render_devices P)
    else configured in
  if is_empty outputDevice then
    (with_io e (capture_ready_ e) false (inputResampler_ e)
       (outputResampler_ e), false,
     ["No virtual audio device found!"%string;
      "Please install VB-Cable from: https://vb-audio.com/Cable/"%string])
  else if negb (render_initialize P outputDevice) then
    (with_io e (capture_ready_ e) false (inputResampler_ e)
       (outputResampler_ e), false, [])
  else
    let renderSampleRate := render_sample_rate P in
    if negb (Z.eqb renderSampleRate INTERNAL_SAMPLE_RATE) then
      let '(r, ok) :=
        Resampler.initialize INTERNAL_SAMPLE_RATE renderSampleRate
          INTERNAL_CHANNELS in
      if negb ok then
        (with_io e (capture_ready_ e) true (inputResampler_ e) (Some r),
         false, ["Failed to initialize output resampler"%string])
      else
        (with_io e (capture_ready_ e) true (inputResampler_ e) (Some r),
         true, [])
    else
      (with_io e (capture_ready_ e) true (inputResampler_ e)
         (outputResampler_ e), true, []).

Definition make_expander (c : ExpanderConfig) : Expander.state :=
  Expander.setHysteresis M (exp_hysteresis c)
    (Expander.setRelease M (exp_release c)
      (Expander.setAttack M (exp_attack c)
        (Expander.setRatio (exp_ratio c)
          (Expander.setThreshold M (exp_threshold c)
            (Expander.setEnabled (exp_enabled c) (Expander.create M)))))).

Definition make_compressor (c : CompressorConfig) : Compressor.state :=
  Compressor.setMakeupGain M (comp_makeupGain c)
    (Compressor.setRelease M (comp_release c)
      (Compressor.setAttack M (comp_attack c)
        (Compressor.setKnee (comp_knee c)
          (Compressor.setRatio (comp_ratio c)
            (Compressor.setThreshold (comp_threshold c)
              (Compressor.setEnabled (comp_enabled c)
                (Compressor.create M))))))).

(** [None]: the cast of [Limiter::setLookahead] is undefined. *)
Definition make_limiter (c : LimiterConfig) : option Limiter.state :=
  match Limiter.create M with
  | None => None
  | Some l =>
      Limiter.configure M (lim_ceiling c) (lim_release c) (lim_lookahead c)
        (Limiter.setEnabled (lim_enabled c) l)
  end.

Definition make_equalizer (c : EqualizerConfig) : Equalizer.state :=
  Equalizer.setHighShelf M (shelf_freq (eq_highShelf c))
      (shelf_gain (eq_highShelf c))
    (Equalizer.setPresence M (pr_freq (eq_presence c))
        (pr_gain (eq_presence c)) (pr_q (eq_presence c))
      (Equalizer.setLowShelf M (shelf_freq (eq_lowShelf c))
          (shelf_gain (eq_lowShelf c))
        (Equalizer.setHighPass M (hp_freq (eq_highPass c))
            (hp_q (eq_highPass c))
          (Equalizer.setEnabled (eq_enabled c) (Equalizer.create M))))).

(** [Engine::initializeProcessors].  The first line of the log on
    failure is the one [RNNoiseProcessor::initialize] writes. *)
Definition initializeProcessors (e : state)
  : option (state * bool * list string) :=
  let config := config_ e in
  let '(rn, ok) := RNNoise.initialize (RNNoise.create L) in
  if negb ok then
    Some (with_chain e (Some rn) (expander_ e) (compressor_ e)
            (limiter_ e) (equalizer_ e) (inputMetering_ e)
            (outputMetering_ e) (status_ e),
          false,
          ["Failed to create RNNoise state"%string;
           "Failed to initialize RNNoise"%string])
  else
    let rn := RNNoise.setAttenuation M (rnnoise_attenuation config) rn in
    match make_limiter (limiter config) with
    | None => None
    | Some li =>
        Some (with_chain e (Some rn)
                (Some (make_expander (expander config)))
                (Some (make_compressor (compressor config)))
                (Some li)
                (Some (make_equalizer (equalizer config)))
                (Some (Metering.create M)) (Some (Metering.create M))
                (status_ e),
              true, [])
    end.

Definition initializeIPC (P : Platform) (e : state) : state * bool :=
  ({| config_ := config_ e; capture_ready_ := capture_ready_ e;
      render_ready_ := render_ready_ e;
      inputResampler_ := inputResampler_ e;
      outputResampler_ := outputResampler_ e;
      rnnoise_ := rnnoise_ e; expander_ := expander_ e;
      compressor_ := compressor_ e; limiter_ := limiter_ e;
      equalizer_ := equalizer_ e; inputMetering_ := inputMetering_ e;
      outputMetering_ := outputMetering_ e; pipeServer_ := true;
      inputBuffer_ := inputBuffer_ e; outputBuffer_ := outputBuffer_ e;
      running_ := running_ e; bypass_ := bypass_ e;
      meterCallback_ := meterCallback_ e; status_ := status_ e |},
   pipe_start P).

(** [Engine::initialize]. *)
Definition initialize (P : Platform) (e : state)
  : option (state * bool * list string) :=
  let '(e1, ok1, log1) := initializeCapture P e in
  if negb ok1 then
    Some (e1, false,
          log1 ++ ["Failed to initialize audio capture"%string])
  else
    let '(e2, ok2, log2) := initializeRender P e1 in
    if negb ok2 then
      Some (e2, false,
            log1 ++ log2 ++ ["Failed to initialize audio render"%string])
    else
      match initializeProcessors e2 with
      | None => None
      | Some (e3, ok3, log3) =>
          if negb ok3 then
            Some (e3, false,
                  log1 ++ log2 ++ log3
                  ++ ["Failed to initialize audio processors"%string])
          else
            let '(e4, ok4) := initializeIPC P e3 in
            Some (e4, true,
                  log1 ++ log2 ++ log3
                  ++ (if negb ok4 then
                        ["Warning: Failed to initialize IPC server"%string]
                      else []))
      end.

(** *** The capture callback *)

(** "Convert to mono if stereo". *)
Fixpoint downmix_stereo (buffer : list float) (frames : nat)
  : list float :=
  match frames, buffer with
  | S n, l :: r :: rest =>
      ((l + r) * F32.lit 1 2)%f32 :: downmix_stereo rest n
  | _, _ => []
  end.

(** The first half of [Engine::onAudioCaptured(buffer, frames,
    sampleRate, channels)]: the mono block, resampled when an input
    resampler exists; the resampler's new state comes with it.  [None]
    is undefined behaviour inside the resampler. *)
Definition capture_block (e : state) (buffer : list float)
    (frames : nat) (channels : Z)
  : option (option Resampler.state * list float) :=
  let monoBuffer :=
    if Z.eqb channels 2 then downmix_stereo buffer frames
    else firstn frames buffer in
  match inputResampler_ e with
  | Some r =>
      match Resampler.process r monoBuffer (Z.of_nat frames) with
      | None => None
      | Some (r1, resampledBuffer) => Some (Some r1, resampledBuffer)
      end
  | None => Some (None, monoBuffer)
  end.

(** [Engine::onAudioCaptured]: the block is pushed to the input ring;
    the count [write] returns is not looked at. *)
Definition onAudioCaptured (e : state) (buffer : list float)
    (frames : nat) (channels : Z) : option state :=
  match capture_block e buffer frames channels with
  | None => None
  | Some (r, audioData) =>
      Some (with_rings e r (outputResampler_ e)
              (fst (Ring.write (inputBuffer_ e) audioData))
              (outputBuffer_ e))
  end.

(** *** The processing block *)

Definition meter (m : option Metering.state) (buffer : list float)
  : option Metering.state :=
  match m with
  | Some s => Some (Metering.process M s buffer)
  | None => None
  end.

Definition level_of (m : option Metering.state) : float :=
  match m with
  | Some s => Metering.getRMS s
  | None => F32.zero
  end.

(** What the meter callback receives. *)
Definition MeterEvent : Type := (float * float * float)%type.

(** [Engine::processAudioBlock]: the new state, the buffer afterwards
    and the call of the meter callback, if one is made.  [None] is
    undefined behaviour (a null meter dereferenced by the callback, or
    the denoiser's). *)
Definition processAudioBlock (e : state) (buffer : list float)
  : option (state * list float * option MeterEvent) :=
  let im := meter (inputMetering_ e) buffer in
  if bypass_ e then
    Some (with_chain e (rnnoise_ e) (expander_ e) (compressor_ e)
            (limiter_ e) (equalizer_ e) im
            (meter (outputMetering_ e) buffer) (status_ e),
          buffer, None)
  else
    let ai :=
      match rnnoise_ e with
      | Some rn =>
          if String.eqb (aiModel (config_ e)) "rnnoise" then
            match RNNoise.process rn buffer with
            | Some (rn1, out, _) => Some (Some rn1, out)
            | None => None
            end
          else Some (Some rn, buffer)
      | None => Some (None, buffer)
      end in
    match ai with
    | None => None
    | Some (rn, buffer) =>
        let '(ex, buffer) :=
          match expander_ e with
          | Some x =>
              if Expander.enabled_ x then
                let '(x1, out) := Expander.process M x buffer in
                (Some x1, out)
              else (Some x, buffer)
          | None => (None, buffer)
          end in
        let '(eq, buffer) :=
          match equalizer_ e with
          | Some x =>
              if Equalizer.enabled_ x then
                let '(x1, out) := Equalizer.process x buffer in
                (Some x1, out)
              else (Some x, buffer)
          | None => (None, buffer)
          end in
        let '(co, buffer) :=
          match compressor_ e with
          | Some x =>
              if Compressor.enabled_ x then
                let '(x1, out) := Compressor.process M x buffer in
                (Some x1, out)
              else (Some x, buffer)
          | None => (None, buffer)
          end in
        let '(li, buffer) :=
          match limiter_ e with
          | Some x =>
              if Limiter.enabled_ x then
                let '(x1, out) := Limiter.process M x buffer in
                (Some x1, out)
              else (Some x, buffer)
          | None => (None, buffer)
          end in
        let om := meter (outputMetering_ e) buffer in
        let gainReduction :=
          match co with
          | Some x => Compressor.gainReductionDb_ x
          | None => F32.zero
          end in
        let status :=
          {| capturing := capturing (status_ e);
             rendering := rendering (status_ e);
             inputLevel := level_of im;
             outputLevel := level_of om;
             gainReduction := gainReduction;
             cpuUsage := cpuUsage (status_ e);
             bufferUnderruns := bufferUnderruns (status_ e) |} in
        let e1 := with_chain e rn ex co li eq im om status in
        if meterCallback_ e then
          match om with
          | Some m =>
              Some (e1, buffer,
                    Some (Metering.getPeak m, Metering.getRMS m,
                          gainReduction))
          | None => None
          end
        else Some (e1, buffer, None)
    end.

(** One iteration of the inner loop of [Engine::processingThread], for
    with its guard [availableRead() >= PROCESSING_BLOCK_SIZE]: the new
    state and the samples handed to [render_->write], if the renderer
    is ready. *)
Definition processBlock (e : state)
  : option (state * option (list float)) :=
  if Nat.ltb (Ring.availableRead (inputBuffer_ e)) PROCESSING_BLOCK_SIZE
  then Some (e, None)
  else
  let '(ib, block) := Ring.read (inputBuffer_ e) PROCESSING_BLOCK_SIZE in
  match processAudioBlock
          (with_rings e (inputResampler_ e) (outputResampler_ e) ib
             (outputBuffer_ e)) block with
  | None => None
  | Some (e1, processed, _) =>
      let ob := fst (Ring.write (outputBuffer_ e1) processed) in
      if render_ready_ e1 then
        match outputResampler_ e1 with
        | Some r =>
            match Resampler.process r processed
                    (Z.of_nat PROCESSING_BLOCK_SIZE) with
            | None => None
            | Some (r1, renderBuffer) =>
                Some (with_rings e1 (inputResampler_ e1) (Some r1)
                        (inputBuffer_ e1) ob,
                      Some renderBuffer)
            end
        | None =>
            Some (with_rings e1 (inputResampler_ e1) None
                    (inputBuffer_ e1) ob,
                  Some processed)
        end
      else
        Some (with_rings e1 (inputResampler_ e1) (outputResampler_ e1)
                (inputBuffer_ e1) ob, None)
  end.

End WithLibs.

End Engine.

(** A libm for the concrete evaluations below.  At the arguments they
    reach it answers the correctly rounded value: 10^-2 = 0.01,
    10^(-1/20) = 0.89125..., exp(-1/240) = 0.99584..., exp(-1/2400) =
    0.99958..., log10(0.001) = -3, log10(0.01) = -2.  Elsewhere its answers
    are placeholders, which no statement depends on. *)
Definition libm_table : MathLib := {|
  powf := fun x y =>
    if F32.eqb y (F32.of_Z (-2)) then F32.lit 1 100
    else if F32.eqb y (F32.lit (-1) 20) then F32.of_bits 0x3f642905
    else F32.one;
  expf := fun x =>
    if F32.eqb x (F32.of_Z (-1) / F32.of_Z 240)%f32 then F32.of_bits 0x3f7eef80
    else if F32.eqb x (F32.of_Z (-1) / F32.of_Z 2400)%f32
    then F32.of_bits 0x3f7fe4b3
    else F32.one;
  log10f := fun x =>
    if F32.eqb x (F32.lit 1 1000) then F32.of_Z (-3)
    else if F32.eqb x (F32.lit 1 100) then F32.of_Z (-2)
    else F32.zero;
  sinf := fun x => x;
  cosf := fun _ => F32.one
|}.

(** ** Auxiliary definitions for the statements *)

(** [k] zeros, one sample of amplitude [a], [n] zeros. *)
Definition impulse_at (k n : nat) (a : float) : list float :=
  repeat F32.zero k ++ a :: repeat F32.zero n.

(** Truncation toward zero of a rational. *)
Definition Qtrunc (q : Q) : Z :=
  if Qle_bool 0 q then Qfloor q else Qceiling q.

(** The spec's lookahead length: [N_la = round(lookahead_ms * R_int / 1000)]
    with [R_int = 48000]. *)
Definition N_la_spec (lookahead_ms : Q) : Z :=
  Qfloor (lookahead_ms * (48000 # 1) / (1000 # 1) + (1 # 2)).

(** The spec's latency: output [i] carries input [i - N], zero before the
    start. *)
Definition delayed_input (N : nat) (input : list float) (i : nat) : float :=
  if Nat.ltb i N then F32.zero else nth (i - N) input F32.zero.

(** A denoiser that answers silence for every frame. *)
Definition rnnoise_mute : RNNoiseLib := {|
  DenoiseState := unit;
  rnnoise_create := Some tt;
  rnnoise_process_frame :=
    fun _ frame => (tt, map (fun _ => F32.zero) frame, F32.zero);
  rnnoise_frame_size := fun _ frame => length_map (fun _ => F32.zero) frame
|}.

(** A denoiser that returns every frame as it came. *)
Definition rnnoise_identity : RNNoiseLib := {|
  DenoiseState := unit;
  rnnoise_create := Some tt;
  rnnoise_process_frame := fun _ frame => (tt, frame, F32.one);
  rnnoise_frame_size := fun _ frame => eq_refl
|}.

(** A platform on which [rnnoise_create] returns a null pointer. *)
Definition rnnoise_unavailable : RNNoiseLib := {|
  DenoiseState := unit;
  rnnoise_create := None;
  rnnoise_process_frame := fun _ frame => (tt, frame, F32.zero);
  rnnoise_frame_size := fun _ frame => eq_refl
|}.

(** The integers [from, from + 1, ...] as samples. *)
Definition ramp (from : Z) (n : nat) : list float :=
  map (fun k => F32.of_Z (from + Z.of_nat k)) (seq 0 n).

(** A frame of exactly [FRAME_SIZE] samples. *)
Definition frame_sized (frame : list float) : Prop :=
  length frame = RNNoise.FRAME_SIZE.

(** The spec's overflow policy for the input ring: the newest [capacity]
    samples of what was queued followed by the new block are kept. *)
Definition drop_oldest (capacity : nat) (queued block : list float)
  : list float :=
  skipn (length (queued ++ block) - capacity) (queued ++ block).

(** A platform whose devices open at the internal rate. *)
Definition platform_48k : Platform := {|
  capture_initialize := fun _ => true;
  capture_sample_rate := 48000;
  render_devices := [("CABLE Input (VB-Audio Virtual Cable)"%string,
                      "{0.0.0.00000000}.{cable}"%string)];
  render_initialize := fun _ => true;
  render_sample_rate := 48000;
  pipe_start := true
|}.

Module LimiterFacts.

(** Two limiters that differ at most in the meter value. *)
Definition same_audio (a b : Limiter.state) : Prop :=
  Limiter.enabled_ a = Limiter.enabled_ b /\
  Limiter.ceiling_ a = Limiter.ceiling_ b /\
  Limiter.releaseCoeff_ a = Limiter.releaseCoeff_ b /\
  Limiter.lookaheadSamples_ a = Limiter.lookaheadSamples_ b /\
  Limiter.lookaheadBuffer_ a = Limiter.lookaheadBuffer_ b /\
  Limiter.bufferPos_ a = Limiter.bufferPos_ b /\
  Limiter.smoothedGain_ a = Limiter.smoothedGain_ b.

(** The argument of [std::exp] in the attack branch. *)
Definition attack_arg (l : Limiter.state) : float :=
  (F32.of_Z (-1) / F32.of_Z (Z.of_nat (Limiter.lookaheadSamples_ l)))%f32.

(** The limiter the constructor builds (ceiling -1 dB, release 50 ms,
    lookahead 5 ms) under [libm_table]. *)
Definition reference : Limiter.state :=
  Eval vm_compute in
    match Limiter.create libm_table with
    | Some l => l
    | None => Limiter.fresh
    end.

End LimiterFacts.

(** ** Definitions for the denoiser's inferences and for the pipeline *)

(** The library state after the inference ran on each of [frames] in
    turn, every frame scaled by 32767 as [processFrame] scales it. *)
Definition rnnoise_infer (L : RNNoiseLib) (st : DenoiseState L)
    (frames : list (list float)) : DenoiseState L :=
  fold_left
    (fun s frame =>
       fst (fst (rnnoise_process_frame L s
                   (map (fun x => (x * F32.of_Z 32767)%f32) frame))))
    frames st.

(** A denoiser that returns every frame as it came and whose state
    counts the inferences it ran. *)
Definition rnnoise_counting : RNNoiseLib := {|
  DenoiseState := nat;
  rnnoise_create := Some 0%nat;
  rnnoise_process_frame := fun n frame => (S n, frame, F32.one);
  rnnoise_frame_size := fun _ frame => eq_refl
|}.

Module Pipeline.

(** What the two threads of the engine do to it.  The capture thread
    calls [onAudioCaptured]; the processing thread runs an iteration of
    the inner loop of [processingThread], which does nothing while fewer
    than [PROCESSING_BLOCK_SIZE] samples are queued.  The ring buffer is
    what the threads share, and its calls take effect one after the
    other, so a run of the engine is a sequence of these events. *)
Inductive event : Type :=
| Captured (buffer : list float) (frames : nat) (channels : Z)
| Iteration.

Section WithLibs.
Variable M : MathLib.
Variable L : RNNoiseLib.

(** The engine after the events, and the samples handed to
    [render_->write], in order. *)
Fixpoint run (e : Engine.state L) (events : list event)
  : option (Engine.state L * list float) :=
  match events with
  | [] => Some (e, [])
  | Captured buffer frames channels :: rest =>
      match Engine.onAudioCaptured e buffer frames channels with
      | None => None
      | Some e1 => run e1 rest
      end
  | Iteration :: rest =>
      match Engine.processBlock M e with
      | None => None
      | Some (e1, written) =>
          match run e1 rest with
          | None => None
          | Some (e2, rendered) =>
              Some (e2,
                    match written with
                    | Some block => block
                    | None => []
                    end ++ rendered)
          end
      end
  end.

End WithLibs.

(** The mono block of a captured block: the block itself when the device
    is mono, the average of each pair when it is stereo. *)
Definition mono_input (buffer : list float) (frames : nat) (channels : Z)
  : list float :=
  if Z.eqb channels 2 then
    map (fun i =>
           ((nth (i * 2) buffer F32.zero + nth (i * 2 + 1) buffer F32.zero)
            * F32.lit 1 2)%f32)
      (seq 0 frames)
  else firstn frames buffer.

(** The mono input stream of a run. *)
Fixpoint stream (events : list event) : list float :=
  match events with
  | [] => []
  | Captured buffer frames channels :: rest =>
      mono_input buffer frames channels ++ stream rest
  | Iteration :: rest => stream rest
  end.

(** The number of samples queued in the input ring after the events,
    from [q] queued samples, when no capture overflows the ring. *)
Fixpoint queued (q : nat) (events : list event) : nat :=
  match events with
  | [] => q
  | Captured _ frames _ :: rest => queued (q + frames) rest
  | Iteration :: rest =>
      queued (if Nat.leb Engine.PROCESSING_BLOCK_SIZE q
              then q - Engine.PROCESSING_BLOCK_SIZE else q)%nat rest
  end.

(** The runs in which the device is mono or stereo, every captured
    buffer holds the frames it announces and no capture overflows the
    input ring, from [q] queued samples. *)
Fixpoint fits (q : nat) (events : list event) : bool :=
  match events with
  | [] => true
  | Captured buffer frames channels :: rest =>
      (Z.eqb channels 1 || Z.eqb channels 2)
      && Nat.leb (Z.to_nat channels * frames) (length buffer)
      && Nat.leb (q + frames) Engine.BUFFER_SIZE
      && fits (q + frames) rest
  | Iteration :: rest =>
      fits (if Nat.leb Engine.PROCESSING_BLOCK_SIZE q
            then q - Engine.PROCESSING_BLOCK_SIZE else q)%nat rest
  end.

End Pipeline.

(** The engine [initialize] leaves on [platform_48k] with the default
    configuration, under [libm_table] and [rnnoise_identity]. *)
Definition engine_started : Engine.state rnnoise_identity :=
  match Engine.initialize libm_table platform_48k
          (@Engine.create rnnoise_identity default_config) with
  | Some (e, _, _) => e
  | None => @Engine.create rnnoise_identity default_config
  end.

(** An engine whose input ring has room for two samples more: the fresh
    engine after a mono capture of 7678 samples. *)
Definition engine_nearly_full : Engine.state rnnoise_mute :=
  match Engine.onAudioCaptured (@Engine.create rnnoise_mute default_config)
          (ramp 0 7678) 7678 1 with
  | Some e => e
  | None => @Engine.create rnnoise_mute default_config
  end.

(** ** Definitions for the further properties *)

(** The relation between the delay ring of the limiter and its lookahead
    that [setLookahead] establishes: without lookahead nothing is asked of
    the ring, with it the ring has one slot more than the lookahead and
    the position lies inside it. *)
Definition limiter_ring_ok (l : Limiter.state) : bool :=
  Nat.eqb (Limiter.lookaheadSamples_ l) 0
  || (Nat.eqb (length (Limiter.lookaheadBuffer_ l))
        (Limiter.lookaheadSamples_ l + 1)
      && Nat.ltb (Limiter.bufferPos_ l)
           (length (Limiter.lookaheadBuffer_ l))).

(** The sample that leaves the delay ring of limiter [l] at step [i] of a
    block [input]: during the first turn of the ring what the ring held,
    afterwards the input of as many steps earlier as the ring has slots. *)
Definition limiter_delayed (l : Limiter.state) (input : list float)
    (i : nat) : float :=
  let size := length (Limiter.lookaheadBuffer_ l) in
  if Nat.ltb i size then
    nth (Nat.modulo (Limiter.bufferPos_ l + i) size)
      (Limiter.lookaheadBuffer_ l) F32.zero
  else nth (i - size) input F32.zero.

(** Two expander states that agree on every member except the gate flag
    [gateOpen_] and the hysteresis factor. *)
Definition expander_same_but_gate (a b : Expander.state) : Prop :=
  Expander.enabled_ a = Expander.enabled_ b /\
  Expander.threshold_ a = Expander.threshold_ b /\
  Expander.ratio_ a = Expander.ratio_ b /\
  Expander.attackCoeff_ a = Expander.attackCoeff_ b /\
  Expander.releaseCoeff_ a = Expander.releaseCoeff_ b /\
  Expander.envelope_ a = Expander.envelope_ b /\
  Expander.gainReductionDb_ a = Expander.gainReductionDb_ b /\
  Expander.sampleRate_ a = Expander.sampleRate_ b.

(** An expander with the gate flag and the hysteresis factor replaced. *)
Definition expander_with_gate (gate : bool) (hysteresis : float)
    (e : Expander.state) : Expander.state :=
  {| Expander.enabled_ := Expander.enabled_ e;
     Expander.threshold_ := Expander.threshold_ e;
     Expander.ratio_ := Expander.ratio_ e;
     Expander.attackCoeff_ := Expander.attackCoeff_ e;
     Expander.releaseCoeff_ := Expander.releaseCoeff_ e;
     Expander.hysteresis_ := hysteresis;
     Expander.envelope_ := Expander.envelope_ e;
     Expander.gainReductionDb_ := Expander.gainReductionDb_ e;
     Expander.gateOpen_ := gate;
     Expander.sampleRate_ := Expander.sampleRate_ e |}.

(** The state of the denoiser between calls that hand it whole frames:
    nothing pending, and the output position on a frame boundary of the
    output ring of four frames. *)
Definition rnnoise_frame_aligned (L : RNNoiseLib) (p : RNNoise.state L)
  : Prop :=
  length (RNNoise.frameBuffer_ p) = RNNoise.FRAME_SIZE /\
  RNNoise.bufferPos_ p = 0%nat /\
  length (RNNoise.outputBuffer_ p) = (RNNoise.FRAME_SIZE * 4)%nat /\
  (exists k : nat, (k < 4)%nat /\
                   RNNoise.outputPos_ p = (k * RNNoise.FRAME_SIZE)%nat).

(** The names the auto-detection of [Engine::initializeRender] accepts:
    those that contain one of its four substrings. *)
Definition is_virtual_name (name : string) : bool :=
  contains "CABLE Input" name || contains "VB-Audio" name
  || contains "Virtual Speaker" name || contains "WindowsAiMic" name.

(** A platform with ordinary render devices only, and whose pipe server
    does not start. *)
Definition platform_plain : Platform := {|
  capture_initialize := fun _ => true;
  capture_sample_rate := 48000;
  render_devices := [("Speakers (Realtek Audio)"%string,
                      "{0.0.0.00000000}.{speakers}"%string);
                     ("Headphones"%string,
                      "{0.0.0.00000000}.{phones}"%string)];
  render_initialize := fun _ => true;
  render_sample_rate := 48000;
  pipe_start := false
|}.

(** [platform_48k] with a pipe server that does not start. *)
Definition platform_no_pipe : Platform := {|
  capture_initialize := capture_initialize platform_48k;
  capture_sample_rate := capture_sample_rate platform_48k;
  render_devices := render_devices platform_48k;
  render_initialize := render_initialize platform_48k;
  render_sample_rate := render_sample_rate platform_48k;
  pipe_start := false
|}.

(** The meter after a sequence of blocks. *)
Definition metering_run (M : MathLib) (m : Metering.state)
    (blocks : list (list float)) : Metering.state :=
  fold_left (Metering.process M) blocks m.

(** * Properties *)

(** ** Compressor: the knee *)

(** C10.  With the hard knee the setter admits ([knee_dB = 0]) and an
    input level equal to the threshold, [computeGainDb] takes the knee
    branch and divides by [2 * kneeWidth = 0]: the gain it returns is not a
    finite number (it is NaN).  The claim that the gain is always finite
    fails at this input. *)
Theorem compressor_hard_knee_gain_not_finite :
  forall M : MathLib,
    let c := Compressor.setKnee F32.zero (Compressor.create M) in
    Compressor.kneeDb_ c = F32.zero /\
    Compressor.thresholdDb_ c = F32.of_Z (-18) /\
    Compressor.computeGainDb c (F32.of_Z (-18)) = S754_nan /\
    F32.is_finite (Compressor.computeGainDb c (F32.of_Z (-18))) = false.
Proof.
  intro M. repeat split; vm_compute; reflexivity.
Qed.

(** ** Expander: the meter value *)

(** Below the threshold [computeGain] stores the negated expansion. *)
Lemma expander_computeGain_below :
  forall (M : MathLib) (e : Expander.state) (envelope : float),
    (envelope <? F32.lit 1 10000000000)%f32 = false ->
    let envelopeDb := (F32.of_Z 20 * log10f M envelope)%f32 in
    let thresholdDb := (F32.of_Z 20 * log10f M (Expander.threshold_ e))%f32 in
    (envelopeDb <? thresholdDb)%f32 = true ->
    Expander.getGainReduction (fst (Expander.computeGain M e envelope))
    = (- ((thresholdDb - envelopeDb) * (Expander.ratio_ e - F32.one)))%f32.
Proof.
  intros M e envelope Hfloor envelopeDb thresholdDb Hbelow.
  unfold Expander.computeGain.
  rewrite Hfloor.
  fold envelopeDb. fold thresholdDb.
  rewrite Hbelow. reflexivity.
Qed.

(** Every sample of [process] ends in [computeGain] at the new envelope:
    the meter value exposed after [process] is the one [computeGain]
    stored. *)
Lemma expander_process_sample_meter :
  forall (M : MathLib) (e : Expander.state) (input : float),
    exists (envelope : float) (gate : bool),
      let r := Expander.computeGain M
                 (Expander.update e envelope (Expander.gainReductionDb_ e) gate)
                 envelope in
      Expander.process_sample M e input = (fst r, (input * snd r)%f32).
Proof.
  intros M e input. unfold Expander.process_sample. cbv zeta.
  match goal with
  | |- context [let '(_, _) :=
                  Expander.computeGain M
                    (Expander.update e ?envelope _ ?gate) _ in _] =>
      exists envelope, gate
  end.
  destruct (Expander.computeGain M _ _) as [e1 gain]. reflexivity.
Qed.

(** C8.  The default expander (threshold -40 dB, ratio 2) at an envelope of
    0.001 (-60 dB): the envelope is 20 dB below the threshold and the
    exposed gain reduction is -20 dB, a negative value, where the claim
    promises the non-negative [(threshold_dB - env_dB) * (ratio - 1) = 20]. *)
Theorem expander_gain_reduction_is_negative :
  forall M : MathLib,
    Expander.threshold_ (Expander.create M) = F32.lit 1 100 ->
    log10f M (F32.lit 1 100) = F32.of_Z (-2) ->
    log10f M (F32.lit 1 1000) = F32.of_Z (-3) ->
    let e := fst (Expander.computeGain M (Expander.create M) (F32.lit 1 1000)) in
    Expander.getGainReduction e = F32.of_Z (-20) /\
    (Expander.getGainReduction e <? F32.zero)%f32 = true.
Proof.
  intros M Hthr Hlog_thr Hlog_env e.
  assert (Hgr : Expander.getGainReduction e = F32.of_Z (-20)).
  { unfold e. rewrite expander_computeGain_below.
    - rewrite Hthr, Hlog_thr, Hlog_env. vm_compute. reflexivity.
    - vm_compute. reflexivity.
    - rewrite Hthr, Hlog_thr, Hlog_env. vm_compute. reflexivity. }
  split; [exact Hgr | rewrite Hgr; vm_compute; reflexivity].
Qed.

Lemma expander_gain_reduction_is_negative_witness :
  let e :=
    fst (Expander.computeGain libm_table (Expander.create libm_table)
           (F32.lit 1 1000)) in
  Expander.getGainReduction e = F32.of_Z (-20) /\
  (Expander.getGainReduction e <? F32.zero)%f32 = true.
Proof.
  apply (expander_gain_reduction_is_negative libm_table);
    vm_compute; reflexivity.
Defined.

(** ** Limiter *)

Section LimiterExt.
Import LimiterFacts.

Variables M1 M2 : MathLib.

Lemma limiter_lookahead_sample_ext :
  forall (a b : Limiter.state) (x : float),
    same_audio a b ->
    expf M1 (attack_arg a) = expf M2 (attack_arg a) ->
    same_audio (fst (Limiter.lookahead_sample M1 a x))
               (fst (Limiter.lookahead_sample M2 b x)) /\
    snd (Limiter.lookahead_sample M1 a x)
    = snd (Limiter.lookahead_sample M2 b x).
Proof.
  intros [ea ca ra na ba pa ga sa fa] [eb cb rb nb bb pb gb sb fb] x.
  unfold same_audio, attack_arg; simpl.
  intros (He & Hc & Hr & Hn & Hb & Hp & Hs) Hexp; subst.
  unfold Limiter.lookahead_sample; simpl.
  rewrite Hexp. repeat split; reflexivity.
Qed.

Lemma limiter_lookahead_sample_samples :
  forall (M : MathLib) (a : Limiter.state) (x : float),
    Limiter.lookaheadSamples_ (fst (Limiter.lookahead_sample M a x))
    = Limiter.lookaheadSamples_ a.
Proof. intros; reflexivity. Qed.

Lemma limiter_run_lookahead_ext :
  forall (buffer : list float) (a b : Limiter.state),
    same_audio a b ->
    expf M1 (attack_arg a) = expf M2 (attack_arg a) ->
    snd (Limiter.run (Limiter.lookahead_sample M1) a buffer)
    = snd (Limiter.run (Limiter.lookahead_sample M2) b buffer).
Proof.
  induction buffer as [|x rest IH]; intros a b Hab Hexp; cbn [Limiter.run].
  - reflexivity.
  - destruct (limiter_lookahead_sample_ext x Hab Hexp) as [Hst Hy].
    destruct (Limiter.lookahead_sample M1 a x) as [a1 y1] eqn:E1.
    destruct (Limiter.lookahead_sample M2 b x) as [b1 y2] eqn:E2.
    cbn [fst snd] in Hst, Hy. subst y2.
    assert (Harg : attack_arg a1 = attack_arg a).
    { unfold attack_arg.
      replace a1 with (fst (Limiter.lookahead_sample M1 a x))
        by (rewrite E1; reflexivity).
      rewrite limiter_lookahead_sample_samples. reflexivity. }
    specialize (IH a1 b1 Hst). rewrite Harg in IH. specialize (IH Hexp).
    destruct (Limiter.run (Limiter.lookahead_sample M1) a1 rest).
    destruct (Limiter.run (Limiter.lookahead_sample M2) b1 rest).
    cbn [fst snd] in *. congruence.
Qed.
End LimiterExt.

Lemma limiter_process_lookahead :
  forall (M : MathLib) (l : Limiter.state) (buffer : list float),
    Limiter.enabled_ l = true ->
    Limiter.lookaheadSamples_ l <> 0%nat ->
    Limiter.process M l buffer
    = Limiter.run (Limiter.lookahead_sample M) l buffer.
Proof.
  intros M l buffer He Hn. unfold Limiter.process. rewrite He.
  destruct (Nat.eqb_spec (Limiter.lookaheadSamples_ l) 0) as [E|E];
    [contradiction | reflexivity].
Qed.

Lemma limiter_process_instant :
  forall (M : MathLib) (l : Limiter.state) (buffer : list float),
    Limiter.enabled_ l = true ->
    Limiter.lookaheadSamples_ l = 0%nat ->
    Limiter.process M l buffer
    = Limiter.run (Limiter.instant_sample M) l buffer.
Proof.
  intros M l buffer He Hn. unfold Limiter.process. rewrite He, Hn.
  reflexivity.
Qed.

(** The constructor's limiter has 240 lookahead samples, a zeroed ring of
    241 slots, unity gain, and is enabled, whatever the libm. *)
Lemma limiter_create_shape :
  forall (M : MathLib) (l : Limiter.state),
    Limiter.create M = Some l ->
    Limiter.enabled_ l = true /\
    Limiter.lookaheadSamples_ l = 240%nat /\
    Limiter.lookaheadBuffer_ l = repeat F32.zero 241 /\
    Limiter.bufferPos_ l = 0%nat /\
    Limiter.smoothedGain_ l = F32.one.
Proof.
  intros M l H.
  assert (E : Limiter.create M
              = Some (Limiter.update
                        {| Limiter.enabled_ := true;
                           Limiter.ceiling_ := Limiter.ceiling_
                             (Limiter.setCeiling M (F32.of_Z (-1)) Limiter.fresh);
                           Limiter.releaseCoeff_ := Limiter.releaseCoeff_
                             (Limiter.setRelease M (F32.of_Z 50) Limiter.fresh);
                           Limiter.lookaheadSamples_ := 240;
                           Limiter.lookaheadBuffer_ := [];
                           Limiter.bufferPos_ := 0;
                           Limiter.gainReductionDb_ := F32.zero;
                           Limiter.smoothedGain_ := F32.one;
                           Limiter.sampleRate_ := F32.of_Z 48000 |}
                        (repeat F32.zero 241) 0 F32.zero F32.one))
    by (vm_compute; reflexivity).
  rewrite E in H. injection H as <-. repeat split; reflexivity.
Qed.

(** C2.  The constructor's limiter (ceiling -1 dB, release 50 ms, lookahead
    5 ms, so [N_la = 240]) fed the spec's impulse of amplitude 2.0 at
    sample 4800: the output at index 4800 + 240 is zero, the impulse comes
    out at index 4800 + 241 with magnitude 1.2977..., above the ceiling
    0.8912... although more than [N_la] samples have passed.  The libm
    values assumed are the correctly rounded ones. *)
Theorem limiter_impulse_exceeds_ceiling :
  forall (M : MathLib) (l : Limiter.state),
    Limiter.create M = Some l ->
    Limiter.ceiling_ l = F32.of_bits 0x3f642905 ->
    Limiter.releaseCoeff_ l = F32.of_bits 0x3f7fe4b3 ->
    expf M (F32.of_Z (-1) / F32.of_Z 240)%f32 = F32.of_bits 0x3f7eef80 ->
    let out := snd (Limiter.process M l (impulse_at 4800 245 (F32.of_Z 2))) in
    Limiter.getLatency l = 240%nat /\
    nth (4800 + 240) out F32.zero = F32.zero /\
    nth (4800 + 241) out F32.zero = S754_finite false 10886187 (-23) /\
    (Limiter.ceiling_ l <? F32.abs (nth (4800 + 241) out F32.zero))%f32 = true.
Proof.
  intros M l Hcreate Hceil Hrel Hexp out.
  destruct (limiter_create_shape Hcreate) as (He & Hn & Hb & Hp & Hs).
  assert (Hsame : LimiterFacts.same_audio l LimiterFacts.reference).
  { unfold LimiterFacts.same_audio.
    rewrite He, Hceil, Hrel, Hn, Hb, Hp, Hs.
    repeat split; vm_compute; reflexivity. }
  assert (Hout : out = snd (Limiter.process libm_table LimiterFacts.reference
                              (impulse_at 4800 245 (F32.of_Z 2)))).
  { unfold out.
    rewrite (limiter_process_lookahead M l _ He) by (rewrite Hn; discriminate).
    rewrite (limiter_process_lookahead libm_table LimiterFacts.reference _
               eq_refl) by discriminate.
    apply limiter_run_lookahead_ext; [exact Hsame|].
    unfold LimiterFacts.attack_arg. rewrite Hn.
    change (Z.of_nat 240) with 240%Z.
    rewrite Hexp. vm_compute. reflexivity. }
  split; [unfold Limiter.getLatency; exact Hn|].
  rewrite Hout, Hceil.
  split; [|split]; vm_compute; reflexivity.
Qed.

Lemma limiter_impulse_exceeds_ceiling_witness :
  let out :=
    snd (Limiter.process libm_table LimiterFacts.reference
           (impulse_at 4800 245 (F32.of_Z 2))) in
  Limiter.getLatency LimiterFacts.reference = 240%nat /\
  nth (4800 + 240) out F32.zero = F32.zero /\
  nth (4800 + 241) out F32.zero = S754_finite false 10886187 (-23) /\
  (Limiter.ceiling_ LimiterFacts.reference
   <? F32.abs (nth (4800 + 241) out F32.zero))%f32 = true.
Proof.
  apply (@limiter_impulse_exceeds_ceiling libm_table LimiterFacts.reference);
    vm_compute; reflexivity.
Defined.

Lemma Qtrunc_nonneg_num :
  forall (a : Z) (b : positive), 0 <= a -> Qtrunc (a # b) = a / Z.pos b.
Proof.
  intros a b Ha. unfold Qtrunc, Qle_bool. cbn [Qnum Qden].
  replace (0 * Z.pos b <=? a * 1) with true
    by (symmetry; apply Z.leb_le; lia).
  reflexivity.
Qed.

Lemma Qtrunc_small_negative :
  forall (a b : positive), Z.pos a / Z.pos b = 0 ->
    Qtrunc (Qopp (Z.pos a # b)) = 0.
Proof.
  intros a b H. unfold Qtrunc, Qle_bool. cbn [Qopp Qnum Qden].
  replace (0 * Z.pos b <=? - Z.pos a * 1) with false
    by (symmetry; apply Z.leb_gt; lia).
  unfold Qceiling, Qfloor. cbn [Qopp Qnum Qden].
  rewrite Z.opp_involutive, H. reflexivity.
Qed.

(** [static_cast<size_t>] truncates toward zero. *)
Lemma f32_to_size_t_truncates :
  forall (x : float) (n : Z),
    F32.to_size_t x = Some n -> n = Qtrunc (F32.to_Q x).
Proof.
  intros x n H. destruct x as [s| s | |s m e]; try discriminate.
  - injection H as <-. reflexivity.
  - destruct s.
    + destruct e as [|e|k]; try discriminate. cbn [F32.to_size_t] in H.
      destruct (Z.eqb_spec (Z.shiftr (Z.pos m) (Z.pos k)) 0) as [E|E];
        [|discriminate].
      injection H as <-. cbn [F32.to_Q].
      rewrite Z.shiftr_div_pow2 in E by lia.
      rewrite <- Pos2Z.inj_pow in E.
      symmetry. apply Qtrunc_small_negative. exact E.
    + cbn [F32.to_size_t] in H.
      destruct e as [|e|k]; cbn [F32.to_Q].
      * rewrite Z.shiftl_mul_pow2 in H by lia.
        destruct (Z.ltb _ _); [|discriminate]. injection H as <-.
        rewrite Qtrunc_nonneg_num by lia. rewrite Z.div_1_r. reflexivity.
      * rewrite Z.shiftl_mul_pow2 in H by lia.
        destruct (Z.ltb _ _); [|discriminate]. injection H as <-.
        rewrite Qtrunc_nonneg_num by (apply Z.mul_nonneg_nonneg; lia).
        rewrite Z.div_1_r. reflexivity.
      * rewrite Z.shiftr_div_pow2 in H by lia.
        destruct (Z.ltb _ _); [|discriminate]. injection H as <-.
        rewrite Qtrunc_nonneg_num by lia.
        rewrite Pos2Z.inj_pow. reflexivity.
Qed.

Lemma limiter_instant_nth :
  forall (M : MathLib) (buffer : list float) (l : Limiter.state) (i : nat),
    (i < length buffer)%nat ->
    nth i (snd (Limiter.run (Limiter.instant_sample M) l buffer)) F32.zero
    = (nth i buffer F32.zero
       * Limiter.smoothedGain_
           (fst (Limiter.run (Limiter.instant_sample M) l
                   (firstn (S i) buffer))))%f32.
Proof.
  intros M. induction buffer as [|x rest IH]; intros l i Hi.
  - cbn [length] in Hi. lia.
  - cbn [Limiter.run firstn].
    destruct (Limiter.instant_sample M l x) as [l1 y] eqn:E1.
    destruct i as [|j].
    + cbn [firstn Limiter.run].
      destruct (Limiter.run (Limiter.instant_sample M) l1 rest) as [l2 ys].
      cbn [fst snd nth].
      unfold Limiter.instant_sample in E1. injection E1 as <- <-.
      reflexivity.
    + specialize (IH l1 j). cbn [length] in Hi.
      destruct (Limiter.run (Limiter.instant_sample M) l1 rest) as [l2 ys].
      destruct (Limiter.run (Limiter.instant_sample M) l1 (firstn (S j) rest))
        as [l3 zs].
      cbn [fst snd nth] in *. apply IH. lia.
Qed.

Lemma limiter_run_length :
  forall (step : Limiter.state -> float -> Limiter.state * float)
         (buffer : list float) (l : Limiter.state),
    length (snd (Limiter.run step l buffer)) = length buffer.
Proof.
  intros step. induction buffer as [|x rest IH]; intros l.
  - reflexivity.
  - cbn [Limiter.run]. destruct (step l x) as [l1 y].
    specialize (IH l1). destruct (Limiter.run step l1 rest) as [l2 ys].
    cbn [snd length] in *. congruence.
Qed.

(** The claim of C4 fails for a positive lookahead below one sample:
    [lookahead_ms = 1/64] gives [round(0.75) = 1] in the spec, so the first
    output would be the zero before the start; the code truncates to 0
    samples and limits instantaneously, the first output is the first
    input (0.5) at unity gain. *)
Lemma limiter_latency_round_counterexample :
  let ms := F32.lit 1 64 in
  let input := [F32.lit 1 2] in
  exists l : Limiter.state,
    Limiter.configure libm_table (F32.of_Z (-1)) (F32.of_Z 50) ms Limiter.fresh
    = Some l /\
    (ms >? F32.zero)%f32 = true /\
    N_la_spec (F32.to_Q ms) = 1%Z /\
    let '(l', out) := Limiter.process libm_table l input in
    nth 0 out F32.zero = F32.lit 1 2 /\
    nth 0 out F32.zero
    <> (delayed_input (Z.to_nat (N_la_spec (F32.to_Q ms))) input 0
        * Limiter.smoothedGain_ l')%f32.
Proof.
  eexists. split; [vm_compute; reflexivity|].
  split; [vm_compute; reflexivity|].
  split; [vm_compute; reflexivity|].
  vm_compute. split; [reflexivity | discriminate].
Qed.

(** C4 (amended).  [setLookahead] stores the truncation toward zero of the
    float product [clamp(ms, 0, 10) * sampleRate / 1000], which is also
    what [getLatency] reports; and when that number is zero an enabled
    limiter works without any delay: output [i] is input [i] times the
    smoothed gain reached after sample [i]. *)
Theorem limiter_lookahead_truncates_and_zero_is_instant :
  forall (M : MathLib) (ms : float) (l l' : Limiter.state)
         (buffer : list float),
    Limiter.setLookahead ms l = Some l' ->
    (exists n : Z,
        n = Qtrunc (F32.to_Q (F32.clamp ms F32.zero (F32.of_Z 10)
                              * Limiter.sampleRate_ l / F32.of_Z 1000)%f32) /\
        Limiter.lookaheadSamples_ l' = Z.to_nat n /\
        Limiter.getLatency l' = Z.to_nat n) /\
    (Limiter.enabled_ l' = true ->
     Limiter.lookaheadSamples_ l' = 0%nat ->
     let out := snd (Limiter.process M l' buffer) in
     length out = length buffer /\
     forall i : nat, (i < length buffer)%nat ->
       nth i out F32.zero
       = (nth i buffer F32.zero
          * Limiter.smoothedGain_
              (fst (Limiter.process M l' (firstn (S i) buffer))))%f32).
Proof.
  intros M ms l l' buffer Hset. split.
  - unfold Limiter.setLookahead in Hset.
    destruct (Limiter.lookahead_samples (Limiter.sampleRate_ l) ms)
      as [n|] eqn:En; [|discriminate].
    exists n. unfold Limiter.lookahead_samples in En.
    apply f32_to_size_t_truncates in En. split; [exact En|].
    unfold Limiter.getLatency.
    destruct (Nat.eqb_spec (Z.to_nat n) (Limiter.lookaheadSamples_ l)) as [E|E];
      injection Hset as <-; cbn [Limiter.lookaheadSamples_]; auto.
  - intros He Hn out. unfold out.
    rewrite (limiter_process_instant M l' buffer He Hn).
    split; [apply limiter_run_length|].
    intros i Hi.
    rewrite (limiter_process_instant M l' (firstn (S i) buffer) He Hn).
    apply limiter_instant_nth. exact Hi.
Qed.

Lemma limiter_lookahead_truncates_and_zero_is_instant_witness :
  let ms := F32.lit 1 64 in
  let l := Limiter.setRelease libm_table (F32.of_Z 50)
             (Limiter.setCeiling libm_table (F32.of_Z (-1)) Limiter.fresh) in
  let buffer := [F32.lit 1 2; F32.of_Z 2; F32.lit 1 4] in
  (exists n : Z,
      n = Qtrunc (F32.to_Q (F32.clamp ms F32.zero (F32.of_Z 10)
                            * Limiter.sampleRate_ l / F32.of_Z 1000)%f32) /\
      Limiter.lookaheadSamples_ l = Z.to_nat n /\
      Limiter.getLatency l = Z.to_nat n) /\
  (Limiter.enabled_ l = true ->
   Limiter.lookaheadSamples_ l = 0%nat ->
   let out := snd (Limiter.process libm_table l buffer) in
   length out = length buffer /\
   forall i : nat, (i < length buffer)%nat ->
     nth i out F32.zero
     = (nth i buffer F32.zero
        * Limiter.smoothedGain_
            (fst (Limiter.process libm_table l (firstn (S i) buffer))))%f32).
Proof.
  intros ms l buffer.
  apply (@limiter_lookahead_truncates_and_zero_is_instant
           libm_table ms l l buffer).
  vm_compute. reflexivity.
Defined.

(** With a configured lookahead of [N_la = 240] the ring has 241 slots and
    is read before it is written: an impulse at sample 0 is still absent at
    index 240 and comes out at index 241. *)
Example limiter_ring_delay_241 :
  let out :=
    snd (Limiter.process libm_table LimiterFacts.reference
           (impulse_at 0 245 (F32.of_Z 2))) in
  Limiter.getLatency LimiterFacts.reference = 240%nat /\
  length (Limiter.lookaheadBuffer_ LimiterFacts.reference) = 241%nat /\
  nth 240 out F32.zero = F32.zero /\
  nth 241 out F32.zero <> F32.zero.
Proof.
  split; [reflexivity|]. split; [reflexivity|].
  split; [vm_compute; reflexivity | vm_compute; discriminate].
Qed.

(** ** Denoiser: the attenuation blend *)

Lemma map_fst_combine :
  forall (A B C : Type) (f : A -> C) (xs : list A) (ys : list B),
    length xs = length ys ->
    map (fun p => f (fst p)) (combine xs ys) = map f xs.
Proof.
  intros A B C f. induction xs as [|x xs IH]; intros [|y ys] H;
    cbn [combine map fst] in *; try discriminate; try reflexivity.
  f_equal. apply IH. injection H as H. exact H.
Qed.

(** C1.  Whatever the attenuation, [processFrame] leaves the processed
    samples in the frame: the blend with the dry sample is computed and
    then overwritten.  In particular with [attenuation_dB = 0]
    ([attenuation_ = 1], the value the constructor sets) and a denoiser
    that answers silence, a frame of samples 0.5 comes out as silence, not
    as the dry frame the claim promises. *)
Theorem rnnoise_processFrame_discards_blend :
  (forall (L : RNNoiseLib) (attenuation : float) (st : DenoiseState L)
          (frame : list float),
      snd (fst (RNNoise.processFrame L attenuation st frame))
      = map (fun s => (s / F32.of_Z 32767)%f32)
          (snd (fst (rnnoise_process_frame L st
                       (map (fun x => (x * F32.of_Z 32767)%f32) frame))))) /\
  (let dry := repeat (F32.lit 1 2) RNNoise.FRAME_SIZE in
   let p := RNNoise.create rnnoise_mute in
   RNNoise.attenuation_ p = F32.one /\
   snd (fst (RNNoise.processFrame rnnoise_mute (RNNoise.attenuation_ p) tt dry))
   = repeat F32.zero RNNoise.FRAME_SIZE /\
   snd (fst (RNNoise.processFrame rnnoise_mute (RNNoise.attenuation_ p) tt dry))
   <> dry).
Proof.
  split.
  - intros L attenuation st frame. unfold RNNoise.processFrame.
    pose proof (rnnoise_frame_size L st
                  (map (fun x => (x * F32.of_Z 32767)%f32) frame)) as Hlen.
    destruct (rnnoise_process_frame L st
                (map (fun x => (x * F32.of_Z 32767)%f32) frame))
      as [[st1 scaledOut] vad].
    cbn [fst snd] in *. rewrite length_map in Hlen.
    unfold RNNoise.blend_sample.
    apply (map_fst_combine (fun s => (s / F32.of_Z 32767)%f32)).
    exact Hlen.
  - cbv zeta. split; [reflexivity|].
    split; [vm_compute; reflexivity | vm_compute; discriminate].
Qed.

(** ** Resampler: block boundaries *)

(** C5.  From 24 kHz to 48 kHz (ratio 0.5), the input 1, 2, 3, 4 in one
    call gives 1, 1.5, 2, 2.5, 3, 3.5; the same input as the blocks 1, 2
    and 3, 4 gives 1, 1.5, 3, 3.5: the two outputs between the blocks are
    missing, the retained last sample is never read and the position is
    clamped to the start of the next block. *)
Theorem resampler_split_blocks_lose_samples :
  let r := fst (Resampler.initialize 24000 48000 1) in
  let whole := Resampler.process r (ramp 1 4) 4 in
  let split := Resampler.process_two r (ramp 1 2) (ramp 3 2) in
  option_map snd whole
  = Some [F32.of_Z 1; F32.lit 3 2; F32.of_Z 2; F32.lit 5 2; F32.of_Z 3;
          F32.lit 7 2] /\
  option_map snd split
  = Some [F32.of_Z 1; F32.lit 3 2; F32.of_Z 3; F32.lit 7 2] /\
  option_map snd whole <> option_map snd split.
Proof.
  cbv zeta. split; [vm_compute; reflexivity|].
  split; [vm_compute; reflexivity | vm_compute; discriminate].
Qed.

(** ** Denoiser: frame alignment *)

Lemma copy_into_length :
  forall (dst src : list float) (off : nat),
    (off + length src <= length dst)%nat ->
    length (copy_into dst off src) = length dst.
Proof.
  intros dst src off H. unfold copy_into.
  rewrite !length_app, length_firstn, length_skipn. lia.
Qed.

Lemma copy_into_prefix :
  forall (dst src : list float) (off : nat),
    (off <= length dst)%nat ->
    firstn (off + length src) (copy_into dst off src) = firstn off dst ++ src.
Proof.
  intros dst src off H. unfold copy_into.
  rewrite app_assoc.
  rewrite firstn_app.
  rewrite length_app, length_firstn.
  replace (off + length src - (Nat.min off (length dst) + length src))%nat
    with 0%nat by lia.
  cbn [firstn]. rewrite app_nil_r.
  apply firstn_all2. rewrite length_app, length_firstn. lia.
Qed.

Lemma slice_length :
  forall (buffer : list float) (from n : nat),
    (from + n <= length buffer)%nat -> length (slice buffer from n) = n.
Proof.
  intros buffer from n H. unfold slice.
  rewrite length_firstn, length_skipn. lia.
Qed.

Lemma slice_skipn :
  forall (buffer : list float) (from n : nat),
    slice buffer from n ++ skipn (from + n) buffer = skipn from buffer.
Proof.
  intros buffer from n. unfold slice.
  rewrite (Nat.add_comm from n), <- skipn_skipn.
  apply firstn_skipn.
Qed.

Section RNNoiseFraming.
Variable L : RNNoiseLib.

Lemma rnnoise_processFrame_length :
  forall (attenuation : float) (st : DenoiseState L) (frame : list float),
    length (snd (fst (RNNoise.processFrame L attenuation st frame)))
    = length frame.
Proof.
  intros attenuation st frame. unfold RNNoise.processFrame.
  pose proof (rnnoise_frame_size L st
                (map (fun x => (x * F32.of_Z 32767)%f32) frame)) as Hlen.
  destruct (rnnoise_process_frame L st _) as [[st1 scaledOut] vad].
  cbn [fst snd] in *. rewrite length_map in Hlen.
  rewrite length_map, length_combine, Hlen. apply Nat.min_id.
Qed.

(** The loop hands [processFrame] frames of exactly [FRAME_SIZE] samples
    and loses or repeats no sample: the frames handed over, followed by
    what stays buffered, are what was buffered before followed by the
    input from [inputPos] on. *)
Lemma rnnoise_process_loop_conserves :
  forall (fuel : nat) (p : RNNoise.state L) (st : DenoiseState L)
         (buffer : list float) (inputPos : nat),
    RNNoise.wf p ->
    (inputPos <= length buffer)%nat ->
    (length buffer - inputPos <= fuel)%nat ->
    exists (p' : RNNoise.state L) (calls : list (list float)),
      RNNoise.process_loop fuel p st buffer inputPos = Some (p', calls) /\
      RNNoise.wf p' /\
      (RNNoise.state_ p <> None -> RNNoise.state_ p' <> None) /\
      Forall frame_sized calls /\
      concat calls ++ RNNoise.pending p'
      = RNNoise.pending p ++ skipn inputPos buffer.
Proof.
  induction fuel as [|fuel IH]; intros p st buffer inputPos Hwf Hle Hfuel.
  - assert (inputPos = length buffer) by lia. subst inputPos.
    cbn [RNNoise.process_loop]. rewrite Nat.ltb_irrefl.
    exists p, []. repeat split; auto.
    + apply Hwf.
    + apply Hwf.
    + rewrite skipn_all. cbn [concat app]. rewrite app_nil_r. reflexivity.
  - cbn [RNNoise.process_loop].
    destruct (Nat.ltb_spec inputPos (length buffer)) as [Hlt|Hge].
    2:{ assert (inputPos = length buffer) by lia. subst inputPos.
        exists p, []. repeat split; auto; try apply Hwf.
        rewrite skipn_all. cbn [concat app]. rewrite app_nil_r.
        reflexivity. }
    destruct Hwf as [Hlen Hpos].
    unfold RNNoise.FRAME_SIZE in *.
    set (n := Nat.min (length buffer - inputPos) (480 - RNNoise.bufferPos_ p)).
    assert (Hn : (1 <= n)%nat) by (unfold n; lia).
    assert (Hsl : length (slice buffer inputPos n) = n)
      by (apply slice_length; unfold n; lia).
    set (fb := copy_into (RNNoise.frameBuffer_ p) (RNNoise.bufferPos_ p)
                 (slice buffer inputPos n)).
    assert (Hfb : length fb = 480%nat).
    { unfold fb. rewrite copy_into_length; [exact Hlen|].
      rewrite Hsl. unfold n. lia. }
    assert (Hpre : firstn (RNNoise.bufferPos_ p + n) fb
                   = RNNoise.pending p ++ slice buffer inputPos n).
    { unfold fb. rewrite <- Hsl at 1.
      apply copy_into_prefix. lia. }
    destruct (Nat.eqb_spec (RNNoise.bufferPos_ p + n) 480) as [Hfull|Hpart].
    + pose proof (@rnnoise_processFrame_length (RNNoise.attenuation_ p) st fb)
        as Hout.
      destruct (RNNoise.processFrame L (RNNoise.attenuation_ p) st fb)
        as [[st1 frame] vad].
      cbn [fst snd] in Hout.
      match goal with
      | |- context [RNNoise.process_loop fuel ?q st1 buffer ?ip] =>
          destruct (IH q st1 buffer ip) as (p' & calls & Hrun & Hwf' & Hst'
                                            & Hall & Hcat)
      end.
      * split; cbn [RNNoise.frameBuffer_ RNNoise.bufferPos_];
          unfold RNNoise.FRAME_SIZE; lia.
      * unfold n. lia.
      * unfold n. lia.
      * rewrite Hrun. exists p', (fb :: calls).
        split; [reflexivity|]. split; [exact Hwf'|].
        split; [intros _; apply Hst'; discriminate|].
        split; [constructor; [exact Hfb | exact Hall]|].
        cbn [concat]. rewrite <- app_assoc, Hcat.
        unfold RNNoise.pending at 1.
        cbn [RNNoise.frameBuffer_ RNNoise.bufferPos_ firstn app].
        rewrite <- (firstn_all2 (n := (RNNoise.bufferPos_ p + n)%nat) fb)
          by lia.
        rewrite Hpre, <- app_assoc. f_equal. apply slice_skipn.
    + match goal with
      | |- context [RNNoise.process_loop fuel ?q st buffer ?ip] =>
          destruct (IH q st buffer ip) as (p' & calls & Hrun & Hwf' & Hst'
                                           & Hall & Hcat)
      end.
      * split; cbn [RNNoise.frameBuffer_ RNNoise.bufferPos_];
          unfold RNNoise.FRAME_SIZE; [exact Hfb | unfold n in *; lia].
      * unfold n. lia.
      * unfold n. lia.
      * rewrite Hrun. exists p', calls.
        split; [reflexivity|]. split; [exact Hwf'|].
        split; [exact Hst'|]. split; [exact Hall|].
        rewrite Hcat. unfold RNNoise.pending at 1.
        cbn [RNNoise.frameBuffer_ RNNoise.bufferPos_].
        fold fb. rewrite Hpre, <- app_assoc. f_equal. apply slice_skipn.
Qed.

Lemma rnnoise_process_conserves :
  forall (p : RNNoise.state L) (buffer : list float),
    RNNoise.wf p ->
    RNNoise.isInitialized p = true ->
    exists (p' : RNNoise.state L) (out : list float)
           (calls : list (list float)),
      RNNoise.process p buffer = Some (p', out, calls) /\
      RNNoise.wf p' /\
      RNNoise.isInitialized p' = true /\
      length out = length buffer /\
      Forall frame_sized calls /\
      concat calls ++ RNNoise.pending p' = RNNoise.pending p ++ buffer.
Proof.
  intros p buffer Hwf Hinit. unfold RNNoise.process.
  unfold RNNoise.isInitialized in Hinit.
  destruct (RNNoise.state_ p) as [st|] eqn:Est; [|discriminate].
  destruct (@rnnoise_process_loop_conserves (S (length buffer)) p st buffer
              0%nat Hwf)
    as (p' & calls & Hrun & Hwf' & Hst' & Hall & Hcat); try lia.
  rewrite Hrun. exists p', (RNNoise.drain p' (length buffer)), calls.
  split; [reflexivity|]. split; [exact Hwf'|].
  split.
  { unfold RNNoise.isInitialized.
    destruct (RNNoise.state_ p'); [reflexivity|].
    exfalso. apply Hst'; [rewrite Est; discriminate | reflexivity]. }
  split; [unfold RNNoise.drain; rewrite length_map, length_seq; reflexivity|].
  split; [exact Hall | exact Hcat].
Qed.

Lemma rnnoise_process_blocks_conserves :
  forall (blocks : list (list float)) (p : RNNoise.state L),
    RNNoise.wf p ->
    RNNoise.isInitialized p = true ->
    exists (p' : RNNoise.state L) (outs calls : list (list float)),
      RNNoise.process_blocks p blocks = Some (p', outs, calls) /\
      RNNoise.wf p' /\
      RNNoise.isInitialized p' = true /\
      map (@length float) outs = map (@length float) blocks /\
      Forall frame_sized calls /\
      concat calls ++ RNNoise.pending p'
      = RNNoise.pending p ++ concat blocks.
Proof.
  induction blocks as [|b rest IH]; intros p Hwf Hinit.
  - exists p, [], []. cbn [RNNoise.process_blocks concat map app].
    rewrite app_nil_r. repeat split; auto; apply Hwf.
  - cbn [RNNoise.process_blocks].
    destruct (@rnnoise_process_conserves p b Hwf Hinit)
      as (p1 & out & calls & Hrun & Hwf1 & Hinit1 & Hlen & Hall & Hcat).
    rewrite Hrun.
    destruct (IH p1 Hwf1 Hinit1)
      as (p2 & outs & calls' & Hrun' & Hwf2 & Hinit2 & Hlens & Hall' & Hcat').
    rewrite Hrun'. exists p2, (out :: outs), (calls ++ calls').
    split; [reflexivity|]. split; [exact Hwf2|]. split; [exact Hinit2|].
    split; [cbn [map]; congruence|].
    split; [apply Forall_app; split; assumption|].
    rewrite concat_app, <- app_assoc, Hcat'.
    rewrite app_assoc, Hcat, <- app_assoc. reflexivity.
Qed.

Lemma frame_sized_concat_length :
  forall calls : list (list float),
    Forall frame_sized calls ->
    length (concat calls) = (RNNoise.FRAME_SIZE * length calls)%nat.
Proof.
  induction 1 as [|f fs Hf _ IH]; [reflexivity|].
  cbn [concat length]. rewrite length_app, IH, Hf. lia.
Qed.
End RNNoiseFraming.

(** *** The inferences the loop runs *)

Lemma rnnoise_processFrame_state :
  forall (L : RNNoiseLib) (attenuation : float) (st : DenoiseState L)
         (frame : list float),
    fst (fst (RNNoise.processFrame L attenuation st frame))
    = rnnoise_infer L st [frame].
Proof.
  intros L attenuation st frame.
  unfold RNNoise.processFrame, rnnoise_infer. cbn [fold_left].
  destruct (rnnoise_process_frame L st _) as [[st1 scaledOut] vad].
  reflexivity.
Qed.

(** Every frame the loop hands to [processFrame] goes through
    [rnnoise_process_frame], on the state the frame before left. *)
Lemma rnnoise_process_loop_infers :
  forall (L : RNNoiseLib) (fuel : nat) (p : RNNoise.state L)
         (st : DenoiseState L) (buffer : list float) (inputPos : nat)
         (p' : RNNoise.state L) (calls : list (list float)),
    RNNoise.process_loop fuel p st buffer inputPos = Some (p', calls) ->
    RNNoise.state_ p = Some st ->
    RNNoise.state_ p' = Some (rnnoise_infer L st calls).
Proof.
  intros L. induction fuel as [|fuel IH];
    intros p st buffer inputPos p' calls Hrun Hst;
    cbn [RNNoise.process_loop] in Hrun;
    destruct (Nat.ltb inputPos (length buffer));
    try discriminate Hrun;
    try (injection Hrun as <- <-; exact Hst).
  destruct (Nat.eqb _ RNNoise.FRAME_SIZE).
  - pose proof (@rnnoise_processFrame_state L (RNNoise.attenuation_ p) st
                  (copy_into (RNNoise.frameBuffer_ p) (RNNoise.bufferPos_ p)
                     (slice buffer inputPos
                        (Nat.min (length buffer - inputPos)
                           (RNNoise.FRAME_SIZE - RNNoise.bufferPos_ p)))))
      as Hframe.
    destruct (RNNoise.processFrame L (RNNoise.attenuation_ p) st _)
      as [[st1 frame] vad].
    cbn [fst] in Hframe.
    match type of Hrun with
    | context [RNNoise.process_loop fuel ?q st1 buffer ?ip] =>
        destruct (RNNoise.process_loop fuel q st1 buffer ip)
          as [[p2 calls2]|] eqn:Hrec; [|discriminate Hrun];
        pose proof (IH q st1 buffer ip p2 calls2 Hrec eq_refl) as Hst2
    end.
    injection Hrun as <- <-.
    rewrite Hst2, Hframe. reflexivity.
  - apply (IH _ st buffer _ p' calls Hrun). exact Hst.
Qed.

Lemma rnnoise_process_infers :
  forall (L : RNNoiseLib) (p : RNNoise.state L) (st : DenoiseState L)
         (buffer : list float) (p' : RNNoise.state L) (out : list float)
         (calls : list (list float)),
    RNNoise.process p buffer = Some (p', out, calls) ->
    RNNoise.state_ p = Some st ->
    RNNoise.state_ p' = Some (rnnoise_infer L st calls).
Proof.
  intros L p st buffer p' out calls Hrun Hst.
  unfold RNNoise.process in Hrun. rewrite Hst in Hrun.
  destruct (RNNoise.process_loop (S (length buffer)) p st buffer 0)
    as [[p1 calls1]|] eqn:Hloop; [|discriminate Hrun].
  injection Hrun as <- _ <-.
  apply (@rnnoise_process_loop_infers L _ p st buffer 0%nat p1 calls1 Hloop).
  exact Hst.
Qed.

Lemma rnnoise_process_blocks_infers :
  forall (L : RNNoiseLib) (blocks : list (list float)) (p : RNNoise.state L)
         (st : DenoiseState L) (p' : RNNoise.state L)
         (outs calls : list (list float)),
    RNNoise.process_blocks p blocks = Some (p', outs, calls) ->
    RNNoise.state_ p = Some st ->
    RNNoise.state_ p' = Some (rnnoise_infer L st calls).
Proof.
  intros L. induction blocks as [|b rest IH];
    intros p st p' outs calls Hrun Hst; cbn [RNNoise.process_blocks] in Hrun.
  - injection Hrun as <- _ <-. exact Hst.
  - destruct (RNNoise.process p b) as [[[p1 out] calls1]|] eqn:Hb;
      [|discriminate Hrun].
    destruct (RNNoise.process_blocks p1 rest) as [[[p2 outs2] calls2]|]
      eqn:Hrest; [|discriminate Hrun].
    injection Hrun as <- _ <-.
    pose proof (@rnnoise_process_infers L p st b p1 out calls1 Hb Hst) as H1.
    rewrite (IH p1 _ p2 outs2 calls2 Hrest H1).
    unfold rnnoise_infer. rewrite fold_left_app. reflexivity.
Qed.

(** C3.  Whatever the sizes of the blocks given to [process], an
    initialised denoiser hands [processFrame] only whole frames of 480
    samples taken from the start of its frame buffer, and these frames are
    exactly the successive 480-sample frames of the buffered input stream,
    each once and in order: with [stream] the samples pending before the
    calls followed by all the blocks, the frames are [stream / 480] in
    number, their concatenation is the matching prefix of [stream], and the
    rest stays pending.  The inference of the library runs on these frames
    and on nothing else: the library state the processor holds afterwards
    is the one [rnnoise_process_frame] produces when it is run on each of
    the frames once, in this order, from the state the processor held
    before. *)
Theorem rnnoise_inference_on_whole_frames_once :
  forall (L : RNNoiseLib) (p : RNNoise.state L) (blocks : list (list float)),
    RNNoise.wf p ->
    RNNoise.isInitialized p = true ->
    let stream := RNNoise.pending p ++ concat blocks in
    exists (p' : RNNoise.state L) (outs calls : list (list float)),
      RNNoise.process_blocks p blocks = Some (p', outs, calls) /\
      Forall (fun frame => length frame = 480%nat) calls /\
      length calls = (length stream / 480)%nat /\
      concat calls = firstn (480 * length calls) stream /\
      RNNoise.pending p' = skipn (480 * length calls) stream /\
      RNNoise.bufferPos_ p' = (length stream mod 480)%nat /\
      exists st : DenoiseState L,
        RNNoise.state_ p = Some st /\
        RNNoise.state_ p' = Some (rnnoise_infer L st calls).
Proof.
  intros L p blocks Hwf Hinit stream.
  destruct (@rnnoise_process_blocks_conserves L blocks p Hwf Hinit)
    as (p' & outs & calls & Hrun & Hwf' & _ & _ & Hall & Hcat).
  fold stream in Hcat.
  exists p', outs, calls.
  pose proof (@frame_sized_concat_length calls Hall) as Hlen.
  unfold RNNoise.FRAME_SIZE in Hlen.
  assert (Hpend : length (RNNoise.pending p') = RNNoise.bufferPos_ p').
  { unfold RNNoise.pending. rewrite length_firstn.
    destruct Hwf' as [Hfb Hpos]. unfold RNNoise.FRAME_SIZE in *. lia. }
  assert (Hpos : (RNNoise.bufferPos_ p' < 480)%nat) by apply Hwf'.
  assert (Htotal : length stream
                   = (480 * length calls + RNNoise.bufferPos_ p')%nat).
  { rewrite <- Hcat, length_app, Hlen, Hpend. reflexivity. }
  split; [exact Hrun|]. split; [exact Hall|].
  split.
  { rewrite Htotal.
    apply (Nat.div_unique _ 480 _ (RNNoise.bufferPos_ p')); [exact Hpos|].
    reflexivity. }
  split.
  { rewrite <- Hcat, <- Hlen. rewrite firstn_app, Nat.sub_diag, firstn_all.
    cbn [firstn]. rewrite app_nil_r. reflexivity. }
  split.
  { rewrite <- Hcat, <- Hlen. rewrite skipn_app, Nat.sub_diag, skipn_all.
    reflexivity. }
  split.
  { rewrite Htotal.
    apply (Nat.mod_unique _ 480 (length calls)); [exact Hpos | reflexivity]. }
  unfold RNNoise.isInitialized in Hinit.
  destruct (RNNoise.state_ p) as [st|] eqn:Hst; [|discriminate Hinit].
  exists st. split; [reflexivity|].
  apply (@rnnoise_process_blocks_infers L blocks p st p' outs calls Hrun Hst).
Qed.

(** Blocks of 1, 17, 480, 1024 and 4800 samples into a freshly initialised
    denoiser whose library counts its inferences. *)
Lemma rnnoise_inference_on_whole_frames_once_witness :
  let L := rnnoise_counting in
  let p := fst (RNNoise.initialize (RNNoise.create L)) in
  let blocks :=
    [ramp 0 1; ramp 1 17; ramp 18 480; ramp 498 1024; ramp 1522 4800] in
  let stream := RNNoise.pending p ++ concat blocks in
  exists (p' : RNNoise.state L) (outs calls : list (list float)),
    RNNoise.process_blocks p blocks = Some (p', outs, calls) /\
    Forall (fun frame => length frame = 480%nat) calls /\
    length calls = (length stream / 480)%nat /\
    concat calls = firstn (480 * length calls) stream /\
    RNNoise.pending p' = skipn (480 * length calls) stream /\
    RNNoise.bufferPos_ p' = (length stream mod 480)%nat /\
    exists st : DenoiseState L,
      RNNoise.state_ p = Some st /\
      RNNoise.state_ p' = Some (rnnoise_infer L st calls).
Proof.
  intros L p blocks.
  apply (@rnnoise_inference_on_whole_frames_once L p blocks).
  - split; vm_compute; [reflexivity | lia].
  - vm_compute. reflexivity.
Defined.

(** With the counting library the state reads as the number of
    inferences: one for each frame. *)
Lemma rnnoise_counting_counts_frames :
  forall (calls : list (list float)) (n : nat),
    rnnoise_infer rnnoise_counting n calls = (n + length calls)%nat.
Proof.
  unfold rnnoise_infer. induction calls as [|c rest IH]; intro n.
  - cbn [fold_left length]. lia.
  - cbn [fold_left length]. rewrite IH.
    cbn [rnnoise_counting rnnoise_process_frame fst]. lia.
Qed.


(** ** Ring buffer *)

Local Open Scope nat_scope.

(** Case analysis on the first comparison left in the goal. *)
Ltac case_leb :=
  match goal with
  | |- context [Nat.leb ?a ?b] => destruct (Nat.leb_spec a b)
  end.

Ltac case_ltb :=
  match goal with
  | |- context [Nat.ltb ?a ?b] => destruct (Nat.ltb_spec a b)
  end.

Lemma mod_below_twice :
  forall x s : nat, x < 2 * s ->
    x mod s = if x <? s then x else x - s.
Proof.
  intros x s H. destruct (Nat.ltb_spec x s) as [Hlt|Hge].
  - apply Nat.mod_small. exact Hlt.
  - symmetry. apply (Nat.mod_unique x s 1); lia.
Qed.

Lemma nth_firstn_below :
  forall (l : list float) (n i : nat) (d : float),
    i < n -> nth i (firstn n l) d = nth i l d.
Proof.
  intros l n i d H. rewrite nth_firstn.
  destruct (Nat.ltb_spec i n); [reflexivity | lia].
Qed.

Lemma nth_copy_into :
  forall (dst src : list float) (off i : nat) (d : float),
    off + length src <= length dst ->
    nth i (copy_into dst off src) d
    = if (off <=? i) && (i <? off + length src)
      then nth (i - off) src d else nth i dst d.
Proof.
  intros dst src off i d H. unfold copy_into.
  destruct (Nat.leb_spec off i) as [Hle|Hlt]; cbn [andb].
  - rewrite app_nth2 by (rewrite length_firstn; lia).
    rewrite length_firstn, Nat.min_l by lia.
    destruct (Nat.ltb_spec i (off + length src)) as [Hin|Hout].
    + apply app_nth1. lia.
    + rewrite app_nth2 by lia. rewrite nth_skipn. f_equal. lia.
  - rewrite app_nth1 by (rewrite length_firstn; lia).
    apply nth_firstn_below. exact Hlt.
Qed.

Lemma nth_slice :
  forall (l : list float) (from n j : nat) (d : float),
    j < n -> nth j (slice l from n) d = nth (from + j) l d.
Proof.
  intros l from n j d H. unfold slice.
  rewrite nth_firstn_below by exact H. apply nth_skipn.
Qed.

Lemma map_nth_seq_firstn :
  forall (l : list float) (n : nat) (d : float),
    n <= length l ->
    map (fun j => nth j l d) (seq 0 n) = firstn n l.
Proof.
  intros l n d H.
  apply (nth_ext _ _ d d).
  - rewrite length_map, length_seq, length_firstn. lia.
  - intros i Hi. rewrite length_map, length_seq in Hi.
    rewrite (nth_indep _ d (nth 0 l d))
      by (rewrite length_map, length_seq; exact Hi).
    rewrite (map_nth (fun j => nth j l d)).
    rewrite seq_nth by exact Hi.
    rewrite nth_firstn_below by exact Hi. reflexivity.
Qed.

Lemma seq_shift_by :
  forall a n : nat, map (fun j => a + j) (seq 0 n) = seq a n.
Proof.
  intros a n. revert a. induction n as [|n IH]; intro a; [reflexivity|].
  cbn [seq map]. rewrite Nat.add_0_r. f_equal.
  rewrite <- seq_shift, map_map, <- (IH (S a)).
  apply map_ext. intro j. lia.
Qed.

(** Where [write] puts sample [j] of the block, and that it touches no
    other slot. *)
Lemma ring_write_nth :
  forall (rb : Ring.state) (data : list float) (i : nat) (d : float),
    Ring.wf rb ->
    i < length (Ring.buffer_ rb) ->
    let size := length (Ring.buffer_ rb) in
    let n := Nat.min (length data) (Ring.availableWrite rb) in
    let j := (i + size - Ring.writePos_ rb) mod size in
    nth i (Ring.buffer_ (fst (Ring.write rb data))) d
    = if j <? n then nth j data d else nth i (Ring.buffer_ rb) d.
Proof.
  intros rb data i d (Hsize & Hw & Hr) Hi size n j.
  assert (Hn_data : n <= length data) by (unfold n; lia).
  assert (Hn_cap : n < size).
  { unfold n, Ring.availableWrite, size.
    destruct (Nat.leb_spec (Ring.readPos_ rb) (Ring.writePos_ rb)); lia. }
  assert (Hj : j = if Ring.writePos_ rb <=? i then i - Ring.writePos_ rb
                   else i + size - Ring.writePos_ rb).
  { unfold j. rewrite mod_below_twice by (unfold size; lia).
    destruct (Nat.leb_spec (Ring.writePos_ rb) i);
      destruct (Nat.ltb_spec (i + size - Ring.writePos_ rb) size);
      unfold size in *; lia. }
  unfold Ring.write. fold (Ring.availableWrite rb). fold n. fold size.
  destruct (Nat.eqb_spec n 0) as [Hz|Hnz].
  - cbn [fst]. rewrite Hz. reflexivity.
  - cbn [fst Ring.buffer_].
    set (fp := Nat.min n (size - Ring.writePos_ rb)).
    assert (Hlen1 : length (slice data 0 fp) = fp)
      by (apply slice_length; unfold fp; lia).
    set (b1 := copy_into (Ring.buffer_ rb) (Ring.writePos_ rb)
                 (slice data 0 fp)).
    assert (Hb1 : length b1 = size).
    { unfold b1. apply copy_into_length. rewrite Hlen1. unfold fp, size. lia. }
    assert (Hnth1 : forall k,
               nth k b1 d
               = if (Ring.writePos_ rb <=? k) && (k <? Ring.writePos_ rb + fp)
                 then nth (k - Ring.writePos_ rb) data d
                 else nth k (Ring.buffer_ rb) d).
    { intro k. unfold b1. rewrite nth_copy_into
        by (rewrite Hlen1; unfold fp, size; lia).
      rewrite Hlen1.
      destruct (Nat.leb_spec (Ring.writePos_ rb) k);
        destruct (Nat.ltb_spec k (Ring.writePos_ rb + fp)); cbn [andb];
        try reflexivity.
      rewrite nth_slice by lia. reflexivity. }
    destruct (Nat.ltb_spec fp n) as [Hwrap|Hflat].
    + assert (Hfp : fp = size - Ring.writePos_ rb) by (unfold fp; lia).
      assert (Hlen2 : length (slice data fp (n - fp)) = n - fp)
        by (apply slice_length; lia).
      rewrite nth_copy_into by (rewrite Hlen2, Hb1; lia).
      rewrite Hlen2. cbn [Nat.leb andb Nat.add].
      destruct (Nat.ltb_spec i (n - fp)) as [Hin|Hout].
      * rewrite Nat.sub_0_r. rewrite nth_slice by exact Hin.
        rewrite Hj.
        destruct (Nat.leb_spec (Ring.writePos_ rb) i); [lia|].
        destruct (Nat.ltb_spec (i + size - Ring.writePos_ rb) n); [|lia].
        f_equal. lia.
      * rewrite Hnth1. rewrite Hj.
        destruct (Nat.leb_spec (Ring.writePos_ rb) i);
          destruct (Nat.ltb_spec i (Ring.writePos_ rb + fp)); cbn [andb];
          try (unfold size in *; lia).
        -- destruct (Nat.ltb_spec (i - Ring.writePos_ rb) n);
             [reflexivity | unfold size in *; lia].
        -- destruct (Nat.ltb_spec (i + size - Ring.writePos_ rb) n);
             [lia | reflexivity].
    + assert (Hfp : fp = n) by (unfold fp in *; lia).
      rewrite Hnth1, Hj, Hfp.
      destruct (Nat.leb_spec (Ring.writePos_ rb) i);
        destruct (Nat.ltb_spec i (Ring.writePos_ rb + n)); cbn [andb].
      * destruct (Nat.ltb_spec (i - Ring.writePos_ rb) n);
          [reflexivity | lia].
      * destruct (Nat.ltb_spec (i - Ring.writePos_ rb) n);
          [lia | reflexivity].
      * destruct (Nat.ltb_spec (i + size - Ring.writePos_ rb) n);
          [unfold fp, size in *; lia | reflexivity].
      * destruct (Nat.ltb_spec (i + size - Ring.writePos_ rb) n);
          [unfold fp, size in *; lia | reflexivity].
Qed.

Lemma ring_availableRead_position :
  forall rb : Ring.state,
    Ring.wf rb ->
    Ring.availableRead rb < length (Ring.buffer_ rb) /\
    (Ring.readPos_ rb + Ring.availableRead rb) mod length (Ring.buffer_ rb)
    = Ring.writePos_ rb /\
    Ring.availableWrite rb + Ring.availableRead rb = Ring.capacity_ rb.
Proof.
  intros rb (Hsize & Hw & Hr). unfold Ring.availableRead, Ring.availableWrite.
  destruct (Nat.leb_spec (Ring.readPos_ rb) (Ring.writePos_ rb)).
  - repeat split; try lia.
    rewrite mod_below_twice by lia.
    destruct (Nat.ltb_spec (Ring.readPos_ rb
                            + (Ring.writePos_ rb - Ring.readPos_ rb))
                           (length (Ring.buffer_ rb))); lia.
  - repeat split; try lia.
    rewrite mod_below_twice by lia.
    destruct (Nat.ltb_spec
                (Ring.readPos_ rb
                 + (length (Ring.buffer_ rb) - Ring.readPos_ rb
                    + Ring.writePos_ rb))
                (length (Ring.buffer_ rb))); lia.
Qed.

(** [write] appends the first [availableWrite] samples of the block to the
    queue and nothing else: what was queued stays, the reader is not
    moved, the excess of the block is not stored. *)
Lemma ring_write_appends :
  forall (rb : Ring.state) (data : list float),
    Ring.wf rb ->
    let n := Nat.min (length data) (Ring.availableWrite rb) in
    snd (Ring.write rb data) = n /\
    Ring.wf (fst (Ring.write rb data)) /\
    Ring.readPos_ (fst (Ring.write rb data)) = Ring.readPos_ rb /\
    Ring.availableRead (fst (Ring.write rb data))
    = Ring.availableRead rb + n /\
    Ring.contents (fst (Ring.write rb data))
    = Ring.contents rb ++ firstn n data.
Proof.
  intros rb data Hwf n.
  destruct (ring_availableRead_position Hwf) as (Havail & Hwpos & Hsum).
  pose proof Hwf as (Hsize & Hw & Hr).
  set (size := length (Ring.buffer_ rb)) in *.
  assert (Hn : n <= Ring.availableWrite rb) by (unfold n; lia).
  assert (Hlen : length (Ring.buffer_ (fst (Ring.write rb data))) = size).
  { unfold Ring.write. fold (Ring.availableWrite rb). fold n. fold size.
    destruct (Nat.eqb n 0); [reflexivity|].
    cbn [fst Ring.buffer_].
    set (fp := Nat.min n (size - Ring.writePos_ rb)).
    assert (Hb1 : length (copy_into (Ring.buffer_ rb) (Ring.writePos_ rb)
                            (slice data 0 fp)) = size).
    { apply copy_into_length. rewrite slice_length; unfold fp, n, size; lia. }
    destruct (Nat.ltb_spec fp n); [|exact Hb1].
    rewrite copy_into_length; [exact Hb1|].
    rewrite Hb1, slice_length; unfold fp, n, size in *; lia. }
  assert (Hwp : Ring.writePos_ (fst (Ring.write rb data))
                = (Ring.writePos_ rb + n) mod size).
  { unfold Ring.write. fold (Ring.availableWrite rb). fold n. fold size.
    destruct (Nat.eqb_spec n 0) as [Hz|Hnz]; [|reflexivity].
    cbn [fst]. rewrite Hz, Nat.add_0_r. symmetry. apply Nat.mod_small.
    exact Hw. }
  assert (Hrp : Ring.readPos_ (fst (Ring.write rb data)) = Ring.readPos_ rb).
  { unfold Ring.write. destruct (Nat.eqb _ 0); reflexivity. }
  assert (Hcap : Ring.capacity_ (fst (Ring.write rb data)) = Ring.capacity_ rb).
  { unfold Ring.write. destruct (Nat.eqb _ 0); reflexivity. }
  assert (Hwlt : (Ring.writePos_ rb + n) mod size < size)
    by (apply Nat.mod_upper_bound; unfold size; lia).
  assert (Hav : Ring.availableRead (fst (Ring.write rb data))
                = Ring.availableRead rb + n).
  { unfold Ring.availableRead at 1. rewrite Hwp, Hrp, Hlen.
    rewrite mod_below_twice in * by (unfold size in *; lia).
    unfold Ring.availableRead in *. fold size in Havail, Hwpos, Hsum |- *.
    destruct (Nat.leb_spec (Ring.readPos_ rb) (Ring.writePos_ rb));
      destruct (Nat.ltb_spec (Ring.writePos_ rb + n) size);
      case_leb; lia. }
  split.
  { unfold Ring.write. fold (Ring.availableWrite rb). fold n.
    destruct (Nat.eqb_spec n 0); cbn [snd]; lia. }
  split.
  { unfold Ring.wf. rewrite Hlen, Hcap, Hwp, Hrp. fold size. lia. }
  split; [exact Hrp|]. split; [exact Hav|].
  unfold Ring.contents at 1. rewrite Hav, Hrp, Hlen.
  rewrite seq_app, map_app, Nat.add_0_l. f_equal.
  - unfold Ring.contents. fold size. apply map_ext_in.
    intros k Hk. apply in_seq in Hk.
    assert (Hpos : (Ring.readPos_ rb + k) mod size < size)
      by (apply Nat.mod_upper_bound; unfold size; lia).
    rewrite ring_write_nth by (try exact Hwf; exact Hpos).
    fold size. fold n.
    match goal with
    | |- (if ?j <? n then _ else _) = _ =>
        destruct (Nat.ltb_spec j n) as [Hbad|Hok]; [|reflexivity]
    end.
    exfalso. revert Hbad.
    rewrite (mod_below_twice (x := Ring.readPos_ rb + k)) in *
      by (unfold size in *; lia).
    rewrite (mod_below_twice (x := Ring.readPos_ rb + Ring.availableRead rb))
      in Hwpos by (unfold size in *; lia).
    rewrite mod_below_twice.
    + destruct (Nat.ltb_spec (Ring.readPos_ rb + k) size);
        destruct (Nat.ltb_spec (Ring.readPos_ rb + Ring.availableRead rb) size);
        case_ltb; lia.
    + destruct (Nat.ltb_spec (Ring.readPos_ rb + k) size); lia.
  - rewrite <- (map_nth_seq_firstn data F32.zero) by (unfold n; lia).
    rewrite <- seq_shift_by.
    rewrite map_map. apply map_ext_in. intros j Hj. apply in_seq in Hj.
    assert (Hpos : (Ring.readPos_ rb + (Ring.availableRead rb + j)) mod size
                   < size)
      by (apply Nat.mod_upper_bound; unfold size; lia).
    rewrite ring_write_nth by (try exact Hwf; exact Hpos).
    fold size. fold n.
    assert (Hidx : ((Ring.readPos_ rb + (Ring.availableRead rb + j)) mod size
                    + size - Ring.writePos_ rb) mod size = j).
    { rewrite (mod_below_twice
                 (x := Ring.readPos_ rb + Ring.availableRead rb))
        in Hwpos by (unfold size in *; lia).
      rewrite (mod_below_twice
                 (x := Ring.readPos_ rb + (Ring.availableRead rb + j)))
        by (unfold size in *; lia).
      rewrite mod_below_twice.
      - destruct (Nat.ltb_spec (Ring.readPos_ rb + Ring.availableRead rb) size);
          destruct (Nat.ltb_spec
                      (Ring.readPos_ rb + (Ring.availableRead rb + j)) size);
          case_ltb; lia.
      - destruct (Nat.ltb_spec
                    (Ring.readPos_ rb + (Ring.availableRead rb + j)) size);
          lia. }
    rewrite Hidx.
    destruct (Nat.ltb_spec j n); [reflexivity | lia].
Qed.

Lemma nth_map_seq :
  forall (f : nat -> float) (n k : nat) (d : float),
    k < n -> nth k (map f (seq 0 n)) d = f k.
Proof.
  intros f n k d H.
  rewrite (nth_indep (map f (seq 0 n)) d (f 0))
    by (rewrite length_map, length_seq; exact H).
  rewrite (map_nth f). rewrite seq_nth by exact H. reflexivity.
Qed.

Lemma firstn_seq_le :
  forall (start n m : nat), n <= m -> firstn n (seq start m) = seq start n.
Proof.
  intros start n m. revert start m.
  induction n as [|n IH]; intros start m H; [reflexivity|].
  destruct m as [|m]; [lia|].
  cbn [seq firstn]. f_equal. apply IH. lia.
Qed.

(** [read] takes the oldest [min(count, availableRead)] samples of the
    queue, in order, and leaves the rest queued. *)
Lemma ring_read_takes :
  forall (rb : Ring.state) (count : nat),
    Ring.wf rb ->
    let n := Nat.min count (Ring.availableRead rb) in
    snd (Ring.read rb count) = firstn n (Ring.contents rb) /\
    Ring.wf (fst (Ring.read rb count)) /\
    Ring.contents (fst (Ring.read rb count)) = skipn n (Ring.contents rb).
Proof.
  intros rb count Hwf n.
  destruct (ring_availableRead_position Hwf) as (Havail & Hwpos & Hsum).
  pose proof Hwf as (Hsize & Hw & Hr).
  set (size := length (Ring.buffer_ rb)) in *.
  assert (Hn : n <= Ring.availableRead rb) by (unfold n; lia).
  assert (Hfirst : firstn n (Ring.contents rb)
                   = map (fun k => nth ((Ring.readPos_ rb + k) mod size)
                                     (Ring.buffer_ rb) F32.zero) (seq 0 n)).
  { unfold Ring.contents. fold size. rewrite firstn_map, firstn_seq_le by lia.
    reflexivity. }
  unfold Ring.read. fold (Ring.availableRead rb). fold n. fold size.
  destruct (Nat.eqb_spec n 0) as [Hz|Hnz].
  - cbn [fst snd]. rewrite Hz. cbn [firstn skipn]. auto.
  - cbn [fst snd].
    set (fp := Nat.min n (size - Ring.readPos_ rb)).
    split; [|split].
    + rewrite Hfirst. apply (nth_ext _ _ F32.zero F32.zero).
      * rewrite length_app, length_map, length_seq.
        rewrite slice_length by (unfold fp, size in *; lia).
        destruct (Nat.ltb_spec fp n);
          [rewrite slice_length by (unfold fp, size in *; lia)
          | cbn [length]]; unfold fp in *; lia.
      * intros k Hk.
        assert (Hkn : k < n).
        { rewrite length_app in Hk.
          rewrite slice_length in Hk by (unfold fp, size in *; lia).
          destruct (Nat.ltb_spec fp n);
            [rewrite slice_length in Hk by (unfold fp, size in *; lia)
            | cbn [length] in Hk]; unfold fp in *; lia. }
        rewrite nth_map_seq by exact Hkn.
        rewrite mod_below_twice by (unfold size in *; lia).
        destruct (Nat.ltb_spec k fp) as [Hin|Hout].
        -- rewrite app_nth1
             by (rewrite slice_length; unfold fp, size in *; lia).
           rewrite nth_slice by exact Hin.
           destruct (Nat.ltb_spec (Ring.readPos_ rb + k) size);
             [reflexivity | unfold fp in *; lia].
        -- rewrite app_nth2
             by (rewrite slice_length; unfold fp, size in *; lia).
           rewrite slice_length by (unfold fp, size in *; lia).
           destruct (Nat.ltb_spec fp n); [|lia].
           rewrite nth_slice by lia. cbn [Nat.add].
           destruct (Nat.ltb_spec (Ring.readPos_ rb + k) size);
             [unfold fp in *; lia | f_equal; unfold fp in *; lia].
    + unfold Ring.wf. cbn [Ring.buffer_ Ring.capacity_ Ring.writePos_
                             Ring.readPos_].
      fold size. repeat split; try assumption.
      apply Nat.mod_upper_bound. unfold size in *. lia.
    + assert (Hav : Ring.availableRead
                      {| Ring.buffer_ := Ring.buffer_ rb;
                         Ring.capacity_ := Ring.capacity_ rb;
                         Ring.writePos_ := Ring.writePos_ rb;
                         Ring.readPos_ := (Ring.readPos_ rb + n) mod size |}
                    = Ring.availableRead rb - n).
      { unfold Ring.availableRead at 1.
        cbn [Ring.buffer_ Ring.writePos_ Ring.readPos_]. fold size.
        rewrite mod_below_twice in * by (unfold size in *; lia).
        unfold Ring.availableRead in *. fold size in Havail, Hwpos, Hsum |- *.
        destruct (Nat.leb_spec (Ring.readPos_ rb) (Ring.writePos_ rb));
          destruct (Nat.ltb_spec (Ring.readPos_ rb + n) size);
          case_leb; lia. }
      unfold Ring.contents at 1. rewrite Hav.
      cbn [Ring.buffer_ Ring.readPos_]. fold size.
      unfold Ring.contents. fold size.
      rewrite skipn_map, skipn_seq, Nat.add_0_l.
      rewrite <- (seq_shift_by n), map_map.
      apply map_ext. intro k.
      rewrite Nat.Div0.add_mod_idemp_l. f_equal. f_equal. lia.
Qed.

Lemma ring_create_empty :
  forall capacity : nat,
    Ring.wf (Ring.create capacity) /\
    Ring.contents (Ring.create capacity) = [] /\
    Ring.availableWrite (Ring.create capacity) = capacity.
Proof.
  intro capacity. unfold Ring.wf, Ring.contents, Ring.availableWrite,
    Ring.availableRead, Ring.create.
  cbn [Ring.buffer_ Ring.capacity_ Ring.writePos_ Ring.readPos_ Nat.leb].
  rewrite repeat_length. cbn [Nat.sub seq map]. repeat split; lia.
Qed.

Lemma firstn_min_length :
  forall (l : list float) (n : nat),
    firstn (Nat.min (length l) n) l = firstn n l.
Proof.
  intros l n. destruct (Nat.le_ge_cases n (length l)) as [H|H].
  - rewrite Nat.min_r by exact H. reflexivity.
  - rewrite Nat.min_l by exact H. rewrite firstn_all.
    symmetry. apply firstn_all2. exact H.
Qed.

(** ** Capture path: overflow of the input ring *)

Lemma ramp_length : forall (from : Z) (n : nat), length (ramp from n) = n.
Proof.
  intros from n. unfold ramp. rewrite length_map, length_seq. reflexivity.
Qed.

(** What one capture callback does to the input ring. *)
Lemma engine_capture_appends :
  forall (L : RNNoiseLib) (e : Engine.state L) (buffer : list float)
         (frames : nat) (channels : Z)
         (r : option Resampler.state) (samples : list float),
    Ring.wf (Engine.inputBuffer_ e) ->
    Engine.capture_block e buffer frames channels = Some (r, samples) ->
    exists e' : Engine.state L,
      Engine.onAudioCaptured e buffer frames channels = Some e' /\
      Ring.wf (Engine.inputBuffer_ e') /\
      Ring.contents (Engine.inputBuffer_ e')
      = Ring.contents (Engine.inputBuffer_ e)
        ++ firstn (Ring.availableWrite (Engine.inputBuffer_ e)) samples /\
      Ring.availableRead (Engine.inputBuffer_ e')
      = Ring.availableRead (Engine.inputBuffer_ e)
        + Nat.min (length samples)
            (Ring.availableWrite (Engine.inputBuffer_ e)) /\
      Ring.capacity_ (Engine.inputBuffer_ e')
      = Ring.capacity_ (Engine.inputBuffer_ e) /\
      Ring.readPos_ (Engine.inputBuffer_ e')
      = Ring.readPos_ (Engine.inputBuffer_ e) /\
      Engine.status_ e' = Engine.status_ e /\
      Engine.bypass_ e' = Engine.bypass_ e /\
      Engine.render_ready_ e' = Engine.render_ready_ e /\
      Engine.inputResampler_ e' = r /\
      Engine.outputResampler_ e' = Engine.outputResampler_ e.
Proof.
  intros L e buffer frames channels r samples Hwf Hblock.
  unfold Engine.onAudioCaptured. rewrite Hblock.
  eexists. split; [reflexivity|].
  destruct (@ring_write_appends (Engine.inputBuffer_ e) samples Hwf)
    as (_ & Hwf' & Hrp & Hav & Hcont).
  cbn [Engine.with_rings Engine.inputBuffer_ Engine.status_ Engine.bypass_
       Engine.render_ready_ Engine.outputResampler_ Engine.inputResampler_].
  split; [exact Hwf'|].
  split; [rewrite Hcont, firstn_min_length; reflexivity|].
  split; [exact Hav|].
  split; [unfold Ring.write; destruct (Nat.eqb _ 0); reflexivity|].
  split; [exact Hrp|]. repeat split.
Qed.

(** The claim of C6 fails on a full input ring: after 7680 samples
    0, 1, ..., 7679 have been captured and none consumed, a further block
    7680, ..., 8159 changes nothing: the ring still holds 0, ..., 7679 (the
    spec keeps 480, ..., 8159), the reader has not moved and the counter
    is still 0. *)
Lemma capture_overflow_counterexample :
  let e0 := @Engine.create rnnoise_mute default_config in
  exists e1 e2 : Engine.state rnnoise_mute,
    Engine.onAudioCaptured e0 (ramp 0 7680) 7680 1 = Some e1 /\
    Engine.onAudioCaptured e1 (ramp 7680 480) 480 1 = Some e2 /\
    Ring.availableWrite (Engine.inputBuffer_ e1) = 0 /\
    Ring.contents (Engine.inputBuffer_ e2) = ramp 0 7680 /\
    Ring.contents (Engine.inputBuffer_ e2)
    <> drop_oldest Engine.BUFFER_SIZE
         (Ring.contents (Engine.inputBuffer_ e1)) (ramp 7680 480) /\
    Ring.readPos_ (Engine.inputBuffer_ e2)
    = Ring.readPos_ (Engine.inputBuffer_ e1) /\
    Engine.bufferUnderruns (Engine.status_ e2) = 0%Z.
Proof.
  cbv zeta.
  set (e0 := @Engine.create rnnoise_mute default_config).
  destruct (ring_create_empty Engine.BUFFER_SIZE) as (Hwf0 & Hc0 & Hroom0).
  assert (Hav0 : Ring.availableRead (Engine.inputBuffer_ e0) = 0)
    by reflexivity.
  destruct (@engine_capture_appends rnnoise_mute e0 (ramp 0 7680) 7680 1
              None (firstn 7680 (ramp 0 7680)) Hwf0 eq_refl)
    as (e1 & Hrun1 & Hwf1 & Hc1 & Hav1 & Hcap1 & _ & _ & _ & _ & Hrs1 & _).
  destruct (@engine_capture_appends rnnoise_mute e1 (ramp 7680 480) 480 1
              None (firstn 480 (ramp 7680 480)) Hwf1)
    as (e2 & Hrun2 & Hwf2 & Hc2 & Hav2 & Hcap2 & Hrp2 & Hst2 & _).
  { unfold Engine.capture_block. rewrite Hrs1. reflexivity. }
  change (Engine.inputBuffer_ e0) with (Ring.create Engine.BUFFER_SIZE)
    in Hc1, Hav1, Hcap1.
  rewrite Hc0, Hroom0 in Hc1.
  rewrite Hroom0 in Hav1.
  rewrite (firstn_all2 (n := 7680) (ramp 0 7680)) in Hc1, Hav1
    by (rewrite ramp_length; apply Nat.le_refl).
  change (Ring.availableRead (Ring.create Engine.BUFFER_SIZE)) with 0 in Hav1.
  rewrite ramp_length in Hav1.
  assert (Hroom1 : Ring.availableWrite (Engine.inputBuffer_ e1) = 0).
  { destruct (ring_availableRead_position Hwf1) as (_ & _ & Hsum).
    rewrite Hcap1, Hav1 in Hsum.
    change (Ring.capacity_ (Ring.create Engine.BUFFER_SIZE)) with 7680 in Hsum.
    change Engine.BUFFER_SIZE with 7680 in Hsum.
    rewrite Nat.min_id in Hsum. cbn [Nat.add] in Hsum. lia. }
  exists e1, e2.
  split; [exact Hrun1|]. split; [exact Hrun2|]. split; [exact Hroom1|].
  rewrite Hroom1 in Hc2. cbn [firstn] in Hc2. rewrite app_nil_r in Hc2.
  rewrite Hc2, Hc1. cbn [app].
  split; [reflexivity|].
  split.
  { intro H. apply (f_equal (fun l => nth 0 l F32.zero)) in H.
    vm_compute in H. discriminate H. }
  split; [exact Hrp2|].
  rewrite Hst2.
  replace (Engine.status_ e1) with (Engine.status_ e0); [reflexivity|].
  unfold Engine.onAudioCaptured in Hrun1.
  destruct (Engine.capture_block e0 (ramp 0 7680) 7680 1) as [[r s]|];
    [|discriminate].
  injection Hrun1 as <-. reflexivity.
Qed.

(** C6 (amended).  When a capture callback delivers a block of resampled
    samples and the input ring has room for only part of it, the call
    still returns (nothing blocks), every sample already queued stays
    queued and the reader is not moved, the ring takes the first
    [availableWrite] samples of the block and the rest of the block, its
    newest samples, is not stored; the status, with its underrun counter,
    is unchanged. *)
Theorem capture_overflow_keeps_queue_drops_newest :
  forall (L : RNNoiseLib) (e : Engine.state L) (buffer : list float)
         (frames : nat) (channels : Z)
         (r : option Resampler.state) (samples : list float),
    Ring.wf (Engine.inputBuffer_ e) ->
    Engine.capture_block e buffer frames channels = Some (r, samples) ->
    let room := Ring.availableWrite (Engine.inputBuffer_ e) in
    exists e' : Engine.state L,
      Engine.onAudioCaptured e buffer frames channels = Some e' /\
      Ring.contents (Engine.inputBuffer_ e')
      = Ring.contents (Engine.inputBuffer_ e) ++ firstn room samples /\
      Ring.readPos_ (Engine.inputBuffer_ e')
      = Ring.readPos_ (Engine.inputBuffer_ e) /\
      Engine.bufferUnderruns (Engine.status_ e')
      = Engine.bufferUnderruns (Engine.status_ e) /\
      Engine.status_ e' = Engine.status_ e.
Proof.
  intros L e buffer frames channels r samples Hwf Hblock room.
  destruct (@engine_capture_appends L e buffer frames channels r samples
              Hwf Hblock)
    as (e' & Hrun & _ & Hcont & _ & _ & Hrp & Hst & _).
  exists e'. rewrite Hst. repeat split; assumption.
Qed.

Lemma capture_overflow_keeps_queue_drops_newest_witness :
  let e := engine_nearly_full in
  let room := Ring.availableWrite (Engine.inputBuffer_ e) in
  room = 2 /\
  exists e' : Engine.state rnnoise_mute,
    Engine.onAudioCaptured e (ramp 0 8) 4 2 = Some e' /\
    Ring.contents (Engine.inputBuffer_ e')
    = Ring.contents (Engine.inputBuffer_ e)
      ++ firstn room (Engine.downmix_stereo (ramp 0 8) 4) /\
    Ring.readPos_ (Engine.inputBuffer_ e')
    = Ring.readPos_ (Engine.inputBuffer_ e) /\
    Engine.bufferUnderruns (Engine.status_ e')
    = Engine.bufferUnderruns (Engine.status_ e) /\
    Engine.status_ e' = Engine.status_ e.
Proof.
  intros e room. split; [vm_compute; reflexivity|].
  apply (@capture_overflow_keeps_queue_drops_newest rnnoise_mute e (ramp 0 8)
           4 2%Z None (Engine.downmix_stereo (ramp 0 8) 4)).
  - unfold Ring.wf.
    split; [vm_compute; reflexivity|].
    split; apply Nat.ltb_lt; vm_compute; reflexivity.
  - vm_compute. reflexivity.
Defined.


(** ** Denoiser unavailable *)

Lemma rnnoise_uninitialized_passthrough :
  forall (L : RNNoiseLib) (p : RNNoise.state L) (buffer : list float),
    RNNoise.isInitialized p = false ->
    RNNoise.process p buffer = Some (p, buffer, []).
Proof.
  intros L p buffer H. unfold RNNoise.process.
  unfold RNNoise.isInitialized in H.
  destruct (RNNoise.state_ p); [discriminate | reflexivity].
Qed.

(** The claim of C7 fails on a platform where capture and render open and
    [rnnoise_create] returns null: [initialize] returns false, after three
    lines on [std::cerr]. *)
Lemma denoiser_unavailable_counterexample :
  exists e' : Engine.state rnnoise_unavailable,
    Engine.initialize libm_table platform_48k
      (@Engine.create rnnoise_unavailable default_config)
    = Some (e', false,
            ["Failed to create RNNoise state"%string;
             "Failed to initialize RNNoise"%string;
             "Failed to initialize audio processors"%string]).
Proof.
  eexists. vm_compute. reflexivity.
Qed.

(** C7 (amended).  If the denoiser backend cannot initialise
    ([rnnoise_create] returns null), then the processor reports failure
    and every later call of its [process] leaves the caller's buffer
    unchanged and runs no inference; [Engine::initialize] returns false
    (denoiser unavailability fails initialisation), and when capture and
    render did open the failure is reported on [std::cerr] by the
    processor, by [initializeProcessors] and by [initialize]. *)
Theorem denoiser_unavailable_fails_initialize :
  forall (M : MathLib) (L : RNNoiseLib) (P : Platform) (e : Engine.state L),
    rnnoise_create L = None ->
    (let p := fst (RNNoise.initialize (RNNoise.create L)) in
     snd (RNNoise.initialize (RNNoise.create L)) = false /\
     forall (blocks : list (list float)),
       RNNoise.process_blocks p blocks = Some (p, blocks, [])) /\
    (exists (e' : Engine.state L) (log : list string),
        Engine.initialize M P e = Some (e', false, log)) /\
    (snd (fst (Engine.initializeCapture P e)) = true ->
     snd (fst (Engine.initializeRender P
                 (fst (fst (Engine.initializeCapture P e))))) = true ->
     exists e' : Engine.state L,
       Engine.initialize M P e
       = Some (e', false,
               snd (Engine.initializeCapture P e)
               ++ snd (Engine.initializeRender P
                         (fst (fst (Engine.initializeCapture P e))))
               ++ ["Failed to create RNNoise state"%string;
                   "Failed to initialize RNNoise"%string]
               ++ ["Failed to initialize audio processors"%string])).
Proof.
  intros M L P e Hnull.
  assert (Hinit : RNNoise.initialize (RNNoise.create L)
                  = ({| RNNoise.state_ := None;
                        RNNoise.frameBuffer_ :=
                          RNNoise.frameBuffer_ (RNNoise.create L);
                        RNNoise.bufferPos_ := 0;
                        RNNoise.outputBuffer_ :=
                          RNNoise.outputBuffer_ (RNNoise.create L);
                        RNNoise.outputPos_ := 0;
                        RNNoise.attenuation_ := F32.one;
                        RNNoise.lastVAD_ := F32.zero |}, false)).
  { unfold RNNoise.initialize. rewrite Hnull. reflexivity. }
  assert (Hproc : forall e2 : Engine.state L,
             exists e3 : Engine.state L,
               Engine.initializeProcessors M e2
               = Some (e3, false,
                       ["Failed to create RNNoise state"%string;
                        "Failed to initialize RNNoise"%string])).
  { intro e2. unfold Engine.initializeProcessors. rewrite Hinit.
    cbn [negb]. eexists. reflexivity. }
  split; [|split].
  - rewrite Hinit. cbn [fst snd]. split; [reflexivity|].
    induction blocks as [|b rest IH]; [reflexivity|].
    cbn [RNNoise.process_blocks].
    rewrite rnnoise_uninitialized_passthrough by reflexivity.
    rewrite IH. reflexivity.
  - unfold Engine.initialize.
    destruct (Engine.initializeCapture P e) as [[e1 ok1] log1].
    destruct ok1; cbn [negb]; [|eexists; eexists; reflexivity].
    destruct (Engine.initializeRender P e1) as [[e2 ok2] log2].
    destruct ok2; cbn [negb]; [|eexists; eexists; reflexivity].
    destruct (Hproc e2) as [e3 ->]. cbn [negb].
    eexists; eexists; reflexivity.
  - unfold Engine.initialize.
    destruct (Engine.initializeCapture P e) as [[e1 ok1] log1].
    cbn [fst snd]. intros -> . cbn [negb].
    destruct (Engine.initializeRender P e1) as [[e2 ok2] log2].
    cbn [fst snd]. intros ->. cbn [negb].
    destruct (Hproc e2) as [e3 ->]. cbn [negb].
    eexists. reflexivity.
Qed.

Lemma denoiser_unavailable_fails_initialize_witness :
  let L := rnnoise_unavailable in
  let e := @Engine.create L default_config in
  (let p := fst (RNNoise.initialize (RNNoise.create L)) in
   snd (RNNoise.initialize (RNNoise.create L)) = false /\
   forall (blocks : list (list float)),
     RNNoise.process_blocks p blocks = Some (p, blocks, [])) /\
  (exists (e' : Engine.state L) (log : list string),
      Engine.initialize libm_table platform_48k e = Some (e', false, log)) /\
  (snd (fst (Engine.initializeCapture platform_48k e)) = true ->
   snd (fst (Engine.initializeRender platform_48k
               (fst (fst (Engine.initializeCapture platform_48k e))))) = true ->
   exists e' : Engine.state L,
     Engine.initialize libm_table platform_48k e
     = Some (e', false,
             snd (Engine.initializeCapture platform_48k e)
             ++ snd (Engine.initializeRender platform_48k
                       (fst (fst (Engine.initializeCapture platform_48k e))))
             ++ ["Failed to create RNNoise state"%string;
                 "Failed to initialize RNNoise"%string]
             ++ ["Failed to initialize audio processors"%string])).
Proof.
  intros L e.
  apply (@denoiser_unavailable_fails_initialize libm_table L platform_48k e).
  reflexivity.
Defined.

(** ** Bypass *)

Lemma engine_bypass_block :
  forall (M : MathLib) (L : RNNoiseLib) (e : Engine.state L)
         (buffer : list float),
    Engine.bypass_ e = true ->
    Engine.processAudioBlock M e buffer
    = Some (Engine.with_chain e (Engine.rnnoise_ e) (Engine.expander_ e)
              (Engine.compressor_ e) (Engine.limiter_ e) (Engine.equalizer_ e)
              (Engine.meter M (Engine.inputMetering_ e) buffer)
              (Engine.meter M (Engine.outputMetering_ e) buffer)
              (Engine.status_ e),
            buffer, None).
Proof.
  intros M L e buffer Hbypass. unfold Engine.processAudioBlock.
  rewrite Hbypass. reflexivity.
Qed.

(** Devices that run at the internal rate get no resampler. *)
Lemma engine_matched_rates_no_resampler :
  forall (L : RNNoiseLib) (P : Platform) (e : Engine.state L),
    capture_sample_rate P = Engine.INTERNAL_SAMPLE_RATE ->
    render_sample_rate P = Engine.INTERNAL_SAMPLE_RATE ->
    Engine.inputResampler_ (fst (fst (Engine.initializeCapture P e)))
    = Engine.inputResampler_ e /\
    Engine.outputResampler_ (fst (fst (Engine.initializeRender P e)))
    = Engine.outputResampler_ e.
Proof.
  intros L P e Hc Hr. split.
  - unfold Engine.initializeCapture. rewrite Hc, Z.eqb_refl.
    destruct (capture_initialize P _); reflexivity.
  - unfold Engine.initializeRender. rewrite Hr, Z.eqb_refl.
    destruct (Engine.is_empty _); [reflexivity|].
    destruct (render_initialize P _); reflexivity.
Qed.

Lemma ring_contents_length :
  forall rb : Ring.state, length (Ring.contents rb) = Ring.availableRead rb.
Proof.
  intro rb. unfold Ring.contents. rewrite length_map, length_seq. reflexivity.
Qed.

Lemma engine_downmix_length :
  forall (frames : nat) (buffer : list float),
    2 * frames <= length buffer ->
    length (Engine.downmix_stereo buffer frames) = frames.
Proof.
  induction frames as [|n IH]; intros buffer H.
  - destruct buffer; reflexivity.
  - destruct buffer as [|l [|r rest]]; cbn [length] in H; try lia.
    cbn [Engine.downmix_stereo length]. rewrite IH; [reflexivity|lia].
Qed.

Lemma engine_downmix_nth :
  forall (frames : nat) (buffer : list float) (i : nat),
    2 * frames <= length buffer ->
    i < frames ->
    nth i (Engine.downmix_stereo buffer frames) F32.zero
    = ((nth (i * 2) buffer F32.zero + nth (i * 2 + 1) buffer F32.zero)
       * F32.lit 1 2)%f32.
Proof.
  induction frames as [|n IH]; intros buffer i H Hi; [lia|].
  destruct buffer as [|l [|r rest]]; cbn [length] in H; try lia.
  cbn [Engine.downmix_stereo].
  destruct i as [|j]; [reflexivity|].
  cbn [nth]. rewrite IH by lia.
  replace (S j * 2) with (S (S (j * 2))) by lia.
  replace (S (S (j * 2)) + 1) with (S (S (j * 2 + 1))) by lia.
  reflexivity.
Qed.

Lemma engine_downmix_pointwise :
  forall (frames : nat) (buffer : list float),
    2 * frames <= length buffer ->
    Engine.downmix_stereo buffer frames = Pipeline.mono_input buffer frames 2.
Proof.
  intros frames buffer H. unfold Pipeline.mono_input.
  change (Z.eqb 2 2) with true. cbv iota.
  apply (nth_ext _ _ F32.zero F32.zero).
  - rewrite length_map, length_seq. apply engine_downmix_length. exact H.
  - intros i Hi. rewrite engine_downmix_length in Hi by exact H.
    refine (eq_trans (@engine_downmix_nth frames buffer i H Hi) _).
    symmetry.
    exact (@nth_map_seq
             (fun i => ((nth (i * 2) buffer F32.zero
                         + nth (i * 2 + 1) buffer F32.zero)
                        * F32.lit 1 2)%f32) frames i F32.zero Hi).
Qed.

(** What [initialize] leaves when both devices run at the internal rate
    and it succeeds: no resampler on either side, a renderer that is
    ready, and the input ring as the constructor made it. *)
Lemma engine_initialize_matched_rates :
  forall (M : MathLib) (L : RNNoiseLib) (P : Platform) (cfg : Config)
         (e1 : Engine.state L) (log : list string),
    capture_sample_rate P = Engine.INTERNAL_SAMPLE_RATE ->
    render_sample_rate P = Engine.INTERNAL_SAMPLE_RATE ->
    Engine.initialize M P (@Engine.create L cfg) = Some (e1, true, log) ->
    Engine.inputResampler_ e1 = None /\
    Engine.outputResampler_ e1 = None /\
    Engine.render_ready_ e1 = true /\
    Engine.inputBuffer_ e1 = Ring.create Engine.BUFFER_SIZE.
Proof.
  intros M L P cfg e1 log Hcap Hren Hinit.
  unfold Engine.initialize, Engine.initializeCapture in Hinit.
  rewrite Hcap, Z.eqb_refl in Hinit. cbn [negb] in Hinit.
  destruct (capture_initialize P _); cbn [negb] in Hinit;
    [|discriminate Hinit].
  unfold Engine.initializeRender in Hinit.
  rewrite Hren, Z.eqb_refl in Hinit. cbn [negb] in Hinit.
  destruct (Engine.is_empty
              (if Engine.is_empty _ then _ else _));
    [discriminate Hinit|].
  destruct (render_initialize P _); cbn [negb] in Hinit;
    [|discriminate Hinit].
  unfold Engine.initializeProcessors in Hinit.
  destruct (RNNoise.initialize (RNNoise.create L)) as [rn ok].
  destruct ok; cbn [negb] in Hinit; [|discriminate Hinit].
  destruct (Engine.make_limiter M _) as [li|]; [|discriminate Hinit].
  cbn [negb] in Hinit. unfold Engine.initializeIPC in Hinit.
  injection Hinit as <- _.
  cbn [Engine.inputResampler_ Engine.outputResampler_ Engine.render_ready_
       Engine.inputBuffer_ Engine.with_chain Engine.with_io Engine.create].
  repeat split; reflexivity.
Qed.

(** An iteration of the processing loop of a bypassed engine without
    output resampler and with a ready renderer: below a block nothing
    happens, otherwise the oldest block is handed to the renderer as it
    is. *)
Lemma engine_bypass_iteration :
  forall (M : MathLib) (L : RNNoiseLib) (e : Engine.state L),
    Engine.bypass_ e = true ->
    Engine.outputResampler_ e = None ->
    Engine.render_ready_ e = true ->
    Ring.wf (Engine.inputBuffer_ e) ->
    let q := Ring.availableRead (Engine.inputBuffer_ e) in
    let n := if Nat.leb Engine.PROCESSING_BLOCK_SIZE q
             then Engine.PROCESSING_BLOCK_SIZE else 0 in
    exists (e2 : Engine.state L) (written : option (list float)),
      Engine.processBlock M e = Some (e2, written) /\
      match written with
      | Some block => block
      | None => []
      end = firstn n (Ring.contents (Engine.inputBuffer_ e)) /\
      Ring.contents (Engine.inputBuffer_ e2)
      = skipn n (Ring.contents (Engine.inputBuffer_ e)) /\
      Ring.wf (Engine.inputBuffer_ e2) /\
      Ring.capacity_ (Engine.inputBuffer_ e2)
      = Ring.capacity_ (Engine.inputBuffer_ e) /\
      Engine.bypass_ e2 = true /\
      Engine.inputResampler_ e2 = Engine.inputResampler_ e /\
      Engine.outputResampler_ e2 = None /\
      Engine.render_ready_ e2 = true.
Proof.
  intros M L e Hbypass Hor Hready Hwf q n.
  unfold Engine.processBlock. fold q.
  destruct (Nat.ltb_spec q Engine.PROCESSING_BLOCK_SIZE) as [Hlt|Hge].
  - assert (Hn : n = 0).
    { unfold n. destruct (Nat.leb_spec Engine.PROCESSING_BLOCK_SIZE q);
        [lia | reflexivity]. }
    rewrite Hn. exists e, None. cbn [firstn skipn].
    repeat split; auto; apply Hwf.
  - assert (Hn : n = Engine.PROCESSING_BLOCK_SIZE).
    { unfold n. destruct (Nat.leb_spec Engine.PROCESSING_BLOCK_SIZE q);
        [reflexivity | lia]. }
    rewrite Hn.
    destruct (@ring_read_takes (Engine.inputBuffer_ e)
                Engine.PROCESSING_BLOCK_SIZE Hwf) as (Hdata & Hwf2 & Hrest).
    rewrite Nat.min_l in Hdata, Hrest by exact Hge.
    assert (Hcap : Ring.capacity_
                     (fst (Ring.read (Engine.inputBuffer_ e)
                             Engine.PROCESSING_BLOCK_SIZE))
                   = Ring.capacity_ (Engine.inputBuffer_ e)).
    { unfold Ring.read. destruct (Nat.eqb _ 0); reflexivity. }
    destruct (Ring.read (Engine.inputBuffer_ e) Engine.PROCESSING_BLOCK_SIZE)
      as [ib block] eqn:Eread.
    cbn [fst snd] in Hdata, Hrest, Hwf2, Hcap. subst block.
    rewrite engine_bypass_block
      by (cbn [Engine.with_rings Engine.bypass_]; exact Hbypass).
    cbn [Engine.with_chain Engine.with_rings Engine.render_ready_
         Engine.outputResampler_ Engine.outputBuffer_ Engine.inputResampler_
         Engine.inputBuffer_].
    rewrite Hready, Hor.
    eexists. eexists. split; [reflexivity|].
    cbn [Engine.with_rings Engine.inputBuffer_ Engine.bypass_
         Engine.inputResampler_ Engine.outputResampler_
         Engine.render_ready_].
    repeat split; auto; apply Hwf2.
Qed.

(** The run of a bypassed engine without resamplers: what is handed to
    the renderer, followed by what stays queued, is what was queued
    followed by the mono input stream. *)
Lemma pipeline_bypass_run :
  forall (M : MathLib) (L : RNNoiseLib) (events : list Pipeline.event)
         (e : Engine.state L),
    Engine.bypass_ e = true ->
    Engine.inputResampler_ e = None ->
    Engine.outputResampler_ e = None ->
    Engine.render_ready_ e = true ->
    Ring.wf (Engine.inputBuffer_ e) ->
    Ring.capacity_ (Engine.inputBuffer_ e) = Engine.BUFFER_SIZE ->
    Pipeline.fits (Ring.availableRead (Engine.inputBuffer_ e)) events
    = true ->
    exists (e' : Engine.state L) (rendered : list float),
      Pipeline.run M e events = Some (e', rendered) /\
      Engine.bypass_ e' = true /\
      rendered ++ Ring.contents (Engine.inputBuffer_ e')
      = Ring.contents (Engine.inputBuffer_ e) ++ Pipeline.stream events /\
      Ring.availableRead (Engine.inputBuffer_ e')
      = Pipeline.queued (Ring.availableRead (Engine.inputBuffer_ e)) events.
Proof.
  intros M L. induction events as [|ev rest IH];
    intros e Hby Hir Hor Hready Hwf Hcap Hfits.
  - exists e, []. cbn [Pipeline.run Pipeline.stream Pipeline.queued app].
    rewrite app_nil_r. split; [reflexivity|]. split; [exact Hby|].
    split; reflexivity.
  - destruct ev as [buffer frames channels|].
    + cbn [Pipeline.fits] in Hfits.
      apply andb_true_iff in Hfits. destruct Hfits as [Hfits Hrest].
      apply andb_true_iff in Hfits. destruct Hfits as [Hfits Hroom].
      apply andb_true_iff in Hfits. destruct Hfits as [Hch Hlen].
      apply Nat.leb_le in Hroom. apply Nat.leb_le in Hlen.
      set (mono := Pipeline.mono_input buffer frames channels).
      assert (Hblock : Engine.capture_block e buffer frames channels
                       = Some (None, mono) /\ length mono = frames).
      { unfold Engine.capture_block, mono. rewrite Hir.
        apply orb_true_iff in Hch. destruct Hch as [Hch|Hch];
          apply Z.eqb_eq in Hch; subst channels.
        - change (Z.to_nat 1) with 1 in Hlen.
          unfold Pipeline.mono_input. change (Z.eqb 1 2) with false.
          cbv iota. split; [reflexivity|].
          rewrite length_firstn. lia.
        - change (Z.to_nat 2) with 2 in Hlen.
          change (Z.eqb 2 2) with true. cbv iota.
          rewrite (@engine_downmix_pointwise frames buffer Hlen).
          split; [reflexivity|].
          rewrite <- (@engine_downmix_pointwise frames buffer Hlen).
          apply engine_downmix_length. exact Hlen. }
      destruct Hblock as [Hblock Hmono].
      destruct (@engine_capture_appends L e buffer frames channels None mono
                  Hwf Hblock)
        as (e1 & Hrun1 & Hwf1 & Hc1 & Hav1 & Hcap1 & _ & _ & Hby1 & Hready1
            & Hir1 & Hor1).
      destruct (@ring_availableRead_position (Engine.inputBuffer_ e) Hwf)
        as (_ & _ & Hsum).
      rewrite Hcap in Hsum.
      rewrite Hmono, Nat.min_l in Hav1 by lia.
      rewrite firstn_all2 in Hc1 by lia.
      assert (Hfits1 : Pipeline.fits
                         (Ring.availableRead (Engine.inputBuffer_ e1)) rest
                       = true) by (rewrite Hav1; exact Hrest).
      destruct (IH e1 (eq_trans Hby1 Hby) Hir1 (eq_trans Hor1 Hor)
                  (eq_trans Hready1 Hready) Hwf1 (eq_trans Hcap1 Hcap)
                  Hfits1)
        as (e' & rendered & Hrun & Hby' & Hcont & Hq).
      exists e', rendered. cbn [Pipeline.run Pipeline.stream Pipeline.queued].
      rewrite Hrun1. split; [exact Hrun|]. split; [exact Hby'|].
      split.
      * rewrite Hcont, Hc1, <- app_assoc. reflexivity.
      * rewrite Hq, Hav1. reflexivity.
    + cbn [Pipeline.fits] in Hfits.
      destruct (@engine_bypass_iteration M L e Hby Hor Hready Hwf)
        as (e2 & written & Hrun2 & Hout & Hc2 & Hwf2 & Hcap2 & Hby2 & Hir2
            & Hor2 & Hready2).
      assert (Hav2 : Ring.availableRead (Engine.inputBuffer_ e2)
                     = if Nat.leb Engine.PROCESSING_BLOCK_SIZE
                            (Ring.availableRead (Engine.inputBuffer_ e))
                       then Ring.availableRead (Engine.inputBuffer_ e)
                            - Engine.PROCESSING_BLOCK_SIZE
                       else Ring.availableRead (Engine.inputBuffer_ e)).
      { pose proof (ring_contents_length (Engine.inputBuffer_ e2)) as Hl2.
        pose proof (ring_contents_length (Engine.inputBuffer_ e)) as Hl.
        rewrite Hc2, length_skipn in Hl2.
        destruct (Nat.leb Engine.PROCESSING_BLOCK_SIZE _); lia. }
      assert (Hfits2 : Pipeline.fits
                         (Ring.availableRead (Engine.inputBuffer_ e2)) rest
                       = true) by (rewrite Hav2; exact Hfits).
      destruct (IH e2 Hby2 (eq_trans Hir2 Hir) Hor2 Hready2 Hwf2
                  (eq_trans Hcap2 Hcap) Hfits2)
        as (e' & rendered & Hrun & Hby' & Hcont & Hq).
      exists e', (match written with Some block => block | None => [] end
                  ++ rendered).
      cbn [Pipeline.run Pipeline.stream Pipeline.queued].
      rewrite Hrun2, Hrun. split; [reflexivity|]. split; [exact Hby'|].
      split.
      * rewrite <- app_assoc, Hcont, Hc2, Hout, app_assoc, firstn_skipn.
        reflexivity.
      * rewrite Hq, Hav2. reflexivity.
Qed.

(** C9.  With bypass on, [processAudioBlock] returns the buffer it was
    given, sample for sample; the denoiser, the expander, the equalizer,
    the compressor and the limiter keep their state (they are not run) and
    only the two meters read the block.  Through the pipeline: when both
    devices run at the internal rate, [initialize] has succeeded on a new
    engine and bypass is then switched on, then over every run of capture
    callbacks and processing iterations, in any order, in which the device
    is mono or stereo and no capture overflows the input ring, the run is
    defined, and the samples handed to the renderer followed by the
    samples still queued are exactly the mono input stream (each captured
    block as it is, or the average of its pairs for a stereo device):
    what the pipeline puts out is its input, sample for sample, in blocks
    of 480. *)
Theorem bypass_leaves_block_unchanged :
  forall (M : MathLib) (L : RNNoiseLib) (e : Engine.state L),
    Engine.bypass_ e = true ->
    (forall buffer : list float,
        exists e' : Engine.state L,
          Engine.processAudioBlock M e buffer = Some (e', buffer, None) /\
          Engine.rnnoise_ e' = Engine.rnnoise_ e /\
          Engine.expander_ e' = Engine.expander_ e /\
          Engine.equalizer_ e' = Engine.equalizer_ e /\
          Engine.compressor_ e' = Engine.compressor_ e /\
          Engine.limiter_ e' = Engine.limiter_ e /\
          Engine.inputMetering_ e'
          = Engine.meter M (Engine.inputMetering_ e) buffer /\
          Engine.outputMetering_ e'
          = Engine.meter M (Engine.outputMetering_ e) buffer) /\
    (forall (P : Platform) (cfg : Config) (e1 : Engine.state L)
            (log : list string) (events : list Pipeline.event),
        capture_sample_rate P = Engine.INTERNAL_SAMPLE_RATE ->
        render_sample_rate P = Engine.INTERNAL_SAMPLE_RATE ->
        Engine.initialize M P (@Engine.create L cfg) = Some (e1, true, log) ->
        e = Engine.setBypass true e1 ->
        Pipeline.fits 0 events = true ->
        exists (e' : Engine.state L) (rendered : list float),
          Pipeline.run M e events = Some (e', rendered) /\
          Engine.bypass_ e' = true /\
          rendered ++ Ring.contents (Engine.inputBuffer_ e')
          = Pipeline.stream events /\
          length (Ring.contents (Engine.inputBuffer_ e'))
          = Pipeline.queued 0 events /\
          rendered
          = firstn (length (Pipeline.stream events)
                    - Pipeline.queued 0 events)
              (Pipeline.stream events)).
Proof.
  intros M L e Hbypass. split.
  - intro buffer. eexists. split; [apply engine_bypass_block; exact Hbypass|].
    cbn [Engine.with_chain Engine.rnnoise_ Engine.expander_ Engine.equalizer_
         Engine.compressor_ Engine.limiter_ Engine.inputMetering_
         Engine.outputMetering_].
    repeat split.
  - intros P cfg e1 log events Hcap Hren Hinit He Hfits.
    destruct (@engine_initialize_matched_rates M L P cfg e1 log Hcap Hren
                Hinit) as (Hir & Hor & Hready & Hring).
    destruct (ring_create_empty Engine.BUFFER_SIZE) as (Hwf0 & Hc0 & _).
    assert (Hring' : Engine.inputBuffer_ e = Ring.create Engine.BUFFER_SIZE)
      by (subst e; exact Hring).
    assert (Hav0 : Ring.availableRead (Engine.inputBuffer_ e) = 0)
      by (rewrite Hring'; reflexivity).
    destruct (@pipeline_bypass_run M L events e Hbypass) as
      (e' & rendered & Hrun & Hby' & Hcont & Hq).
    + subst e. exact Hir.
    + subst e. exact Hor.
    + subst e. exact Hready.
    + rewrite Hring'. exact Hwf0.
    + rewrite Hring'. reflexivity.
    + rewrite Hav0. exact Hfits.
    + rewrite Hring', Hc0 in Hcont. cbn [app] in Hcont.
      rewrite Hav0 in Hq.
      exists e', rendered.
      split; [exact Hrun|]. split; [exact Hby'|]. split; [exact Hcont|].
      split; [rewrite ring_contents_length; exact Hq|].
      rewrite <- Hq, <- ring_contents_length, <- Hcont.
      rewrite length_app, Nat.add_sub, firstn_app, Nat.sub_diag, firstn_all.
      cbn [firstn]. rewrite app_nil_r. reflexivity.
Qed.

(** A stereo capture of 480 frames, a mono capture of 100, an iteration,
    a mono capture of 400 and two iterations, on the engine started on
    [platform_48k]: two blocks are rendered and 20 samples stay queued. *)
Lemma bypass_leaves_block_unchanged_witness :
  let M := libm_table in
  let L := rnnoise_identity in
  let e := Engine.setBypass true engine_started in
  let events :=
    [Pipeline.Captured (ramp 0 960) 480 2;
     Pipeline.Captured (ramp 0 100) 100 1;
     Pipeline.Iteration;
     Pipeline.Captured (ramp 100 400) 400 1;
     Pipeline.Iteration;
     Pipeline.Iteration] in
  (forall buffer : list float,
      exists e' : Engine.state L,
        Engine.processAudioBlock M e buffer = Some (e', buffer, None) /\
        Engine.rnnoise_ e' = Engine.rnnoise_ e /\
        Engine.expander_ e' = Engine.expander_ e /\
        Engine.equalizer_ e' = Engine.equalizer_ e /\
        Engine.compressor_ e' = Engine.compressor_ e /\
        Engine.limiter_ e' = Engine.limiter_ e /\
        Engine.inputMetering_ e'
        = Engine.meter M (Engine.inputMetering_ e) buffer /\
        Engine.outputMetering_ e'
        = Engine.meter M (Engine.outputMetering_ e) buffer) /\
  Pipeline.queued 0 events = 20 /\
  length (Pipeline.stream events) = 980 /\
  exists (e' : Engine.state L) (rendered : list float),
    Pipeline.run M e events = Some (e', rendered) /\
    Engine.bypass_ e' = true /\
    rendered ++ Ring.contents (Engine.inputBuffer_ e')
    = Pipeline.stream events /\
    length (Ring.contents (Engine.inputBuffer_ e'))
    = Pipeline.queued 0 events /\
    rendered
    = firstn (length (Pipeline.stream events) - Pipeline.queued 0 events)
        (Pipeline.stream events).
Proof.
  intros M L e events.
  destruct (@bypass_leaves_block_unchanged M L e eq_refl) as [Hblock Hrun].
  split; [exact Hblock|].
  split; [vm_compute; reflexivity|].
  split; [vm_compute; reflexivity|].
  apply (Hrun platform_48k default_config engine_started [] events).
  - reflexivity.
  - reflexivity.
  - subst M L. unfold engine_started.
    destruct (Engine.initialize libm_table platform_48k
                (@Engine.create rnnoise_identity default_config))
      as [[[e1 ok] log]|] eqn:Hinit;
      apply (f_equal (option_map (fun r => (snd (fst r), snd r)))) in Hinit;
      vm_compute in Hinit;
      [injection Hinit as <- <-; reflexivity | discriminate Hinit].
  - reflexivity.
  - vm_compute. reflexivity.
Defined.


(** * Further properties of the units *)

(** ** Comparisons of floats *)

Lemma sfcompare_antisym :
  forall (x y : float) (c : comparison),
    SFcompare x y = Some c -> SFcompare y x = Some (CompOpp c).
Proof.
  intros x y c H.
  destruct x as [sx|sx| |sx mx ex], y as [sy|sy| |sy my ey];
    cbn [SFcompare] in *; try discriminate;
    try (destruct sx; injection H as <-; reflexivity);
    try (destruct sy; injection H as <-; reflexivity);
    try (injection H as <-; reflexivity).
  - destruct sx, sy; injection H as <-; reflexivity.
  - assert (Hm : Pos.compare_cont Eq my mx
                 = CompOpp (Pos.compare_cont Eq mx my))
      by (rewrite Pos.compare_cont_antisym; reflexivity).
    rewrite (Z.compare_antisym ex ey), Hm.
    destruct sx, sy; injection H as <-; try reflexivity;
      destruct (Z.compare ex ey); cbn [CompOpp]; try reflexivity;
      destruct (Pos.compare_cont Eq mx my); reflexivity.
Qed.

Lemma sfcompare_refl :
  forall x : float, F32.is_nan x = false -> SFcompare x x = Some Eq.
Proof.
  intros [s|s| |s m e] H; try discriminate; cbn [SFcompare].
  - reflexivity.
  - destruct s; reflexivity.
  - rewrite Z.compare_refl.
    assert (Pos.compare_cont Eq m m = Eq) by apply Pos.compare_refl.
    destruct s; rewrite H0; reflexivity.
Qed.

Lemma f32_leb_not_nan :
  forall x y : float, F32.leb x y = true ->
    F32.is_nan x = false /\ F32.is_nan y = false.
Proof.
  intros x y H. unfold F32.leb, SFleb in H.
  destruct x, y; cbn [SFcompare] in H; try discriminate; split; reflexivity.
Qed.

Lemma f32_not_ltb_leb :
  forall x y : float,
    F32.is_nan x = false -> F32.is_nan y = false ->
    F32.ltb x y = false -> F32.leb y x = true.
Proof.
  intros x y Hx Hy H. unfold F32.ltb, SFltb in H. unfold F32.leb, SFleb.
  destruct (SFcompare x y) as [c|] eqn:E.
  - rewrite (@sfcompare_antisym x y _ E).
    destruct c; cbn [CompOpp]; try reflexivity. discriminate.
  - destruct x, y; cbn [SFcompare] in E; discriminate.
Qed.

(** [std::clamp] keeps any number inside [[lo, hi]] and lets NaN through. *)
Lemma f32_clamp_range :
  forall v lo hi : float,
    F32.leb lo hi = true ->
    (F32.is_nan v = false ->
     F32.leb lo (F32.clamp v lo hi) = true /\
     F32.leb (F32.clamp v lo hi) hi = true) /\
    (F32.is_nan v = true -> F32.clamp v lo hi = v).
Proof.
  intros v lo hi Hle.
  destruct (@f32_leb_not_nan lo hi Hle) as [Hlo Hhi].
  split.
  - intro Hv. unfold F32.clamp.
    destruct (F32.ltb v lo) eqn:E1.
    + split; [|exact Hle]. unfold F32.leb, SFleb.
      rewrite sfcompare_refl by exact Hlo. reflexivity.
    + destruct (F32.ltb hi v) eqn:E2.
      * split; [exact Hle|]. unfold F32.leb, SFleb.
        rewrite sfcompare_refl by exact Hhi. reflexivity.
      * split; apply f32_not_ltb_leb; assumption.
  - intro Hv. destruct v; try discriminate.
    unfold F32.clamp, F32.ltb, SFltb.
    destruct lo, hi; reflexivity.
Qed.

(** ** Compressor: parameter ranges and the region below the knee *)

(** X1.  [setThreshold], [setRatio] and [setKnee] store a value inside
    their range ([-40, 0] dB, [1, 20], [0, 12] dB) for every argument that
    is a number, infinities included; an argument that is not a number
    passes [std::clamp] and is stored as it is. *)
Theorem compressor_setters_clamp_numbers_and_keep_nan :
  forall (c : Compressor.state) (v nan : float),
    F32.is_nan v = false ->
    F32.is_nan nan = true ->
    (F32.leb (F32.of_Z (-40))
       (Compressor.thresholdDb_ (Compressor.setThreshold v c))
     && F32.leb (Compressor.thresholdDb_ (Compressor.setThreshold v c))
          F32.zero
     && F32.leb F32.one (Compressor.ratio_ (Compressor.setRatio v c))
     && F32.leb (Compressor.ratio_ (Compressor.setRatio v c)) (F32.of_Z 20)
     && F32.leb F32.zero (Compressor.kneeDb_ (Compressor.setKnee v c))
     && F32.leb (Compressor.kneeDb_ (Compressor.setKnee v c))
          (F32.of_Z 12))%bool = true /\
    Compressor.thresholdDb_ (Compressor.setThreshold nan c) = nan /\
    Compressor.ratio_ (Compressor.setRatio nan c) = nan /\
    Compressor.kneeDb_ (Compressor.setKnee nan c) = nan.
Proof.
  intros c v nan Hv Hnan.
  assert (H1 : F32.leb (F32.of_Z (-40)) F32.zero = true) by reflexivity.
  assert (H2 : F32.leb F32.one (F32.of_Z 20) = true) by reflexivity.
  assert (H3 : F32.leb F32.zero (F32.of_Z 12) = true) by reflexivity.
  destruct (@f32_clamp_range v _ _ H1) as [R1 _].
  destruct (@f32_clamp_range v _ _ H2) as [R2 _].
  destruct (@f32_clamp_range v _ _ H3) as [R3 _].
  destruct (@f32_clamp_range nan _ _ H1) as [_ N1].
  destruct (@f32_clamp_range nan _ _ H2) as [_ N2].
  destruct (@f32_clamp_range nan _ _ H3) as [_ N3].
  cbn [Compressor.setThreshold Compressor.setRatio Compressor.setKnee
       Compressor.thresholdDb_ Compressor.ratio_ Compressor.kneeDb_].
  split.
  - destruct (R1 Hv) as [-> ->], (R2 Hv) as [-> ->], (R3 Hv) as [-> ->].
    reflexivity.
  - rewrite (N1 Hnan), (N2 Hnan), (N3 Hnan). repeat split.
Qed.

Lemma compressor_setters_clamp_numbers_and_keep_nan_witness :
  let c := Compressor.create libm_table in
  let v := F32.of_Z 100 in
  let nan : float := S754_nan in
  (F32.leb (F32.of_Z (-40))
     (Compressor.thresholdDb_ (Compressor.setThreshold v c))
   && F32.leb (Compressor.thresholdDb_ (Compressor.setThreshold v c))
        F32.zero
   && F32.leb F32.one (Compressor.ratio_ (Compressor.setRatio v c))
   && F32.leb (Compressor.ratio_ (Compressor.setRatio v c)) (F32.of_Z 20)
   && F32.leb F32.zero (Compressor.kneeDb_ (Compressor.setKnee v c))
   && F32.leb (Compressor.kneeDb_ (Compressor.setKnee v c))
        (F32.of_Z 12))%bool = true /\
  Compressor.thresholdDb_ (Compressor.setThreshold nan c) = nan /\
  Compressor.ratio_ (Compressor.setRatio nan c) = nan /\
  Compressor.kneeDb_ (Compressor.setKnee nan c) = nan.
Proof.
  intros c v nan.
  apply (@compressor_setters_clamp_numbers_and_keep_nan c v nan);
    reflexivity.
Defined.

Lemma f32_sub_diag :
  forall x : float, F32.is_finite x = true -> F32.sub x x = F32.zero.
Proof.
  intros [s|s| |s m e] H; try discriminate.
  - destruct s; reflexivity.
  - unfold F32.sub. cbn [SFsub]. rewrite Z.sub_diag. reflexivity.
Qed.

(** X2.  Below the knee ([inputDb < thresholdDb_ - kneeDb_ / 2]) the
    gain [computeGainDb] returns for a finite level is exactly [0] dB,
    whatever the ratio. *)
Theorem compressor_below_knee_no_gain_change :
  forall (c : Compressor.state) (inputDb : float),
    F32.is_finite inputDb = true ->
    (inputDb <? (Compressor.thresholdDb_ c
                 - Compressor.kneeDb_ c / F32.of_Z 2))%f32 = true ->
    Compressor.computeGainDb c inputDb = F32.zero.
Proof.
  intros c inputDb Hfin Hbelow. unfold Compressor.computeGainDb.
  rewrite Hbelow. apply f32_sub_diag. exact Hfin.
Qed.

Lemma compressor_below_knee_no_gain_change_witness :
  Compressor.computeGainDb (Compressor.create libm_table) (F32.of_Z (-30))
  = F32.zero.
Proof.
  apply compressor_below_knee_no_gain_change; vm_compute; reflexivity.
Defined.

(** ** Ring buffer: the queue it implements *)

(** X3.  What every operation of the ring buffer keeps: the positions
    stay inside the storage and one slot stays free, so the samples that
    can be read and those that can be written always add up to the
    capacity; [write] and [read] keep the capacity, and after [clear] the
    queue is empty and the whole capacity can be written. *)
Theorem ring_invariant_kept :
  forall (rb : Ring.state) (data : list float) (count : nat),
    Ring.wf rb ->
    Ring.availableRead rb + Ring.availableWrite rb = Ring.capacity_ rb /\
    Ring.wf (fst (Ring.write rb data)) /\
    Ring.wf (fst (Ring.read rb count)) /\
    Ring.wf (Ring.clear rb) /\
    Ring.capacity_ (fst (Ring.write rb data)) = Ring.capacity_ rb /\
    Ring.capacity_ (fst (Ring.read rb count)) = Ring.capacity_ rb /\
    Ring.contents (Ring.clear rb) = [] /\
    Ring.availableWrite (Ring.clear rb) = Ring.capacity_ rb.
Proof.
  intros rb data count Hwf.
  destruct (@ring_availableRead_position rb Hwf) as (_ & _ & Hsum).
  destruct (@ring_write_appends rb data Hwf) as (_ & Hw & _).
  destruct (@ring_read_takes rb count Hwf) as (_ & Hr & _).
  pose proof Hwf as (Hsize & Hwp & Hrp).
  split; [lia|]. split; [exact Hw|]. split; [exact Hr|].
  split; [unfold Ring.wf, Ring.clear;
          cbn [Ring.buffer_ Ring.capacity_ Ring.writePos_ Ring.readPos_]; lia|].
  split; [unfold Ring.write; destruct (Nat.eqb _ 0); reflexivity|].
  split; [unfold Ring.read; destruct (Nat.eqb _ 0); reflexivity|].
  unfold Ring.contents, Ring.availableWrite, Ring.availableRead, Ring.clear.
  cbn [Ring.buffer_ Ring.capacity_ Ring.writePos_ Ring.readPos_ Nat.leb
       Nat.sub seq map].
  split; [reflexivity | lia].
Qed.

Lemma ring_invariant_kept_witness :
  let rb := fst (Ring.write (Ring.create 4) (ramp 1 3)) in
  Ring.availableRead rb + Ring.availableWrite rb = Ring.capacity_ rb /\
  Ring.wf (fst (Ring.write rb (ramp 4 5))) /\
  Ring.wf (fst (Ring.read rb 2)) /\
  Ring.wf (Ring.clear rb) /\
  Ring.capacity_ (fst (Ring.write rb (ramp 4 5))) = Ring.capacity_ rb /\
  Ring.capacity_ (fst (Ring.read rb 2)) = Ring.capacity_ rb /\
  Ring.contents (Ring.clear rb) = [] /\
  Ring.availableWrite (Ring.clear rb) = Ring.capacity_ rb.
Proof.
  intro rb.
  apply (@ring_invariant_kept rb (ramp 4 5) 2).
  unfold Ring.wf. vm_compute. repeat split; lia.
Defined.

(** X4.  [write] returns [min (count, availableWrite)], appends exactly
    that prefix of the data behind what is queued and leaves the read
    position alone; the queue never grows beyond the capacity, and a
    write into a full ring changes nothing and returns [0]. *)
Theorem ring_write_stores_prefix_only :
  forall (rb : Ring.state) (data : list float),
    Ring.wf rb ->
    let rb' := fst (Ring.write rb data) in
    let n := Nat.min (length data) (Ring.availableWrite rb) in
    snd (Ring.write rb data) = n /\
    Ring.contents rb' = Ring.contents rb ++ firstn n data /\
    Ring.readPos_ rb' = Ring.readPos_ rb /\
    length (Ring.contents rb') <= Ring.capacity_ rb /\
    (Ring.availableWrite rb = 0 -> Ring.write rb data = (rb, 0)).
Proof.
  intros rb data Hwf rb' n.
  destruct (@ring_write_appends rb data Hwf) as (Hn & Hw & Hrp & Hav & Hc).
  destruct (@ring_availableRead_position rb Hwf) as (_ & _ & Hsum).
  split; [exact Hn|]. split; [exact Hc|]. split; [exact Hrp|].
  split.
  - unfold rb'. rewrite ring_contents_length, Hav. fold n. lia.
  - intro Hfull. unfold Ring.write. fold (Ring.availableWrite rb).
    rewrite Hfull, Nat.min_0_r. reflexivity.
Qed.

Lemma ring_write_stores_prefix_only_witness :
  let rb := fst (Ring.write (Ring.create 4) (ramp 1 3)) in
  let data := ramp 4 5 in
  let rb' := fst (Ring.write rb data) in
  let n := Nat.min (length data) (Ring.availableWrite rb) in
  snd (Ring.write rb data) = n /\
  Ring.contents rb' = Ring.contents rb ++ firstn n data /\
  Ring.readPos_ rb' = Ring.readPos_ rb /\
  length (Ring.contents rb') <= Ring.capacity_ rb /\
  (Ring.availableWrite rb = 0 -> Ring.write rb data = (rb, 0)).
Proof.
  intros rb data.
  apply (@ring_write_stores_prefix_only rb data).
  unfold Ring.wf. vm_compute. repeat split; lia.
Defined.

(** X5.  [read] hands out the oldest [min (count, availableRead)]
    queued samples in the order they were written and leaves the rest
    queued; it moves neither the write position nor the stored samples,
    and a read from an empty ring changes nothing and returns nothing. *)
Theorem ring_read_is_fifo :
  forall (rb : Ring.state) (count : nat),
    Ring.wf rb ->
    let n := Nat.min count (Ring.availableRead rb) in
    snd (Ring.read rb count) = firstn n (Ring.contents rb) /\
    length (snd (Ring.read rb count)) = n /\
    Ring.contents (fst (Ring.read rb count)) = skipn n (Ring.contents rb) /\
    Ring.writePos_ (fst (Ring.read rb count)) = Ring.writePos_ rb /\
    Ring.buffer_ (fst (Ring.read rb count)) = Ring.buffer_ rb /\
    (Ring.availableRead rb = 0 -> Ring.read rb count = (rb, [])).
Proof.
  intros rb count Hwf n.
  destruct (@ring_read_takes rb count Hwf) as (Hd & _ & Hc).
  split; [exact Hd|].
  split.
  { rewrite Hd, length_firstn, ring_contents_length. unfold n. lia. }
  split; [exact Hc|].
  split; [unfold Ring.read; destruct (Nat.eqb _ 0); reflexivity|].
  split; [unfold Ring.read; destruct (Nat.eqb _ 0); reflexivity|].
  intro Hempty. unfold Ring.read. fold (Ring.availableRead rb).
  rewrite Hempty, Nat.min_0_r. reflexivity.
Qed.

Lemma ring_read_is_fifo_witness :
  let rb := fst (Ring.write (Ring.create 4) (ramp 1 3)) in
  let count := 2 in
  let n := Nat.min count (Ring.availableRead rb) in
  snd (Ring.read rb count) = firstn n (Ring.contents rb) /\
  length (snd (Ring.read rb count)) = n /\
  Ring.contents (fst (Ring.read rb count)) = skipn n (Ring.contents rb) /\
  Ring.writePos_ (fst (Ring.read rb count)) = Ring.writePos_ rb /\
  Ring.buffer_ (fst (Ring.read rb count)) = Ring.buffer_ rb /\
  (Ring.availableRead rb = 0 -> Ring.read rb count = (rb, [])).
Proof.
  intros rb count.
  apply (@ring_read_is_fifo rb count).
  unfold Ring.wf. vm_compute. repeat split; lia.
Defined.

(** X6.  Round trip: data that fits the free space, written and then
    read back together with what was queued, comes out unchanged behind
    the queued samples, and the ring is empty afterwards. *)
Theorem ring_write_then_read_round_trip :
  forall (rb : Ring.state) (data : list float),
    Ring.wf rb ->
    length data <= Ring.availableWrite rb ->
    let rb1 := fst (Ring.write rb data) in
    let '(rb2, out) := Ring.read rb1 (Ring.availableRead rb1) in
    out = Ring.contents rb ++ data /\
    Ring.contents rb2 = [] /\
    Ring.availableWrite rb2 = Ring.capacity_ rb.
Proof.
  intros rb data Hwf Hroom rb1.
  destruct (@ring_write_appends rb data Hwf) as (_ & Hwf1 & _ & _ & Hc1).
  rewrite Nat.min_l, firstn_all in Hc1 by exact Hroom. fold rb1 in Hwf1, Hc1.
  destruct (@ring_read_takes rb1 (Ring.availableRead rb1) Hwf1)
    as (Hd & Hwf2 & Hc2).
  rewrite Nat.min_id in Hd, Hc2.
  rewrite firstn_all2 in Hd by (rewrite ring_contents_length; lia).
  rewrite skipn_all2 in Hc2 by (rewrite ring_contents_length; lia).
  assert (Hcap : Ring.capacity_
                   (fst (Ring.read rb1 (Ring.availableRead rb1)))
                 = Ring.capacity_ rb).
  { unfold Ring.read. destruct (Nat.eqb _ 0); cbn [fst Ring.capacity_];
      unfold rb1, Ring.write; destruct (Nat.eqb _ 0); reflexivity. }
  destruct (@ring_availableRead_position _ Hwf2) as (_ & _ & Hsum).
  pose proof (ring_contents_length
                (fst (Ring.read rb1 (Ring.availableRead rb1)))) as Hl.
  rewrite Hc2 in Hl. cbn [length] in Hl. rewrite Hcap in Hsum.
  destruct (Ring.read rb1 (Ring.availableRead rb1)) as [rb2 out].
  cbn [fst snd] in *. rewrite Hd, Hc1. repeat split; auto. lia.
Qed.

Lemma ring_write_then_read_round_trip_witness :
  let rb := fst (Ring.read (fst (Ring.write (Ring.create 4) (ramp 1 3))) 2) in
  let data := ramp 4 3 in
  let rb1 := fst (Ring.write rb data) in
  let '(rb2, out) := Ring.read rb1 (Ring.availableRead rb1) in
  out = Ring.contents rb ++ data /\
  Ring.contents rb2 = [] /\
  Ring.availableWrite rb2 = Ring.capacity_ rb.
Proof.
  intros rb data.
  apply (@ring_write_then_read_round_trip rb data).
  - unfold Ring.wf. vm_compute. repeat split; lia.
  - vm_compute. lia.
Defined.

(** ** Limiter: the delay ring *)

Lemma limiter_store_length :
  forall (buf : list float) (pos : nat) (x : float),
    length (Limiter.store buf pos x) = length buf.
Proof.
  induction buf as [|y rest IH]; intros [|k] x; cbn [Limiter.store length];
    try reflexivity.
  rewrite IH. reflexivity.
Qed.

Lemma limiter_store_nth :
  forall (buf : list float) (pos i : nat) (x : float),
    pos < length buf ->
    nth i (Limiter.store buf pos x) F32.zero
    = if Nat.eqb i pos then x else nth i buf F32.zero.
Proof.
  induction buf as [|y rest IH]; intros pos i x Hpos; cbn [length] in Hpos.
  - lia.
  - destruct pos as [|k], i as [|j]; cbn [Limiter.store nth Nat.eqb];
      try reflexivity.
    apply IH. lia.
Qed.

Lemma limiter_lookahead_sample_shape :
  forall (M : MathLib) (l : Limiter.state) (x : float),
    let l1 := fst (Limiter.lookahead_sample M l x) in
    Limiter.enabled_ l1 = Limiter.enabled_ l /\
    Limiter.ceiling_ l1 = Limiter.ceiling_ l /\
    Limiter.releaseCoeff_ l1 = Limiter.releaseCoeff_ l /\
    Limiter.lookaheadSamples_ l1 = Limiter.lookaheadSamples_ l /\
    Limiter.sampleRate_ l1 = Limiter.sampleRate_ l /\
    Limiter.lookaheadBuffer_ l1
    = Limiter.store (Limiter.lookaheadBuffer_ l) (Limiter.bufferPos_ l) x /\
    Limiter.bufferPos_ l1
    = Nat.modulo (Limiter.bufferPos_ l + 1)
        (length (Limiter.lookaheadBuffer_ l)).
Proof.
  intros M l x. unfold Limiter.lookahead_sample.
  cbn [fst Limiter.update Limiter.enabled_ Limiter.ceiling_
       Limiter.releaseCoeff_ Limiter.lookaheadSamples_ Limiter.sampleRate_
       Limiter.lookaheadBuffer_ Limiter.bufferPos_].
  rewrite limiter_store_length. repeat split; reflexivity.
Qed.

Lemma limiter_ring_ok_spec :
  forall l : Limiter.state,
    limiter_ring_ok l = true <->
    (Limiter.lookaheadSamples_ l = 0 \/
     (length (Limiter.lookaheadBuffer_ l) = Limiter.lookaheadSamples_ l + 1 /\
      Limiter.bufferPos_ l < length (Limiter.lookaheadBuffer_ l))).
Proof.
  intro l. unfold limiter_ring_ok.
  rewrite orb_true_iff, andb_true_iff, !Nat.eqb_eq, Nat.ltb_lt. reflexivity.
Qed.

Lemma limiter_run_lookahead_shape :
  forall (M : MathLib) (buffer : list float) (l : Limiter.state),
    Limiter.bufferPos_ l < length (Limiter.lookaheadBuffer_ l) ->
    let l' := fst (Limiter.run (Limiter.lookahead_sample M) l buffer) in
    Limiter.enabled_ l' = Limiter.enabled_ l /\
    Limiter.ceiling_ l' = Limiter.ceiling_ l /\
    Limiter.releaseCoeff_ l' = Limiter.releaseCoeff_ l /\
    Limiter.lookaheadSamples_ l' = Limiter.lookaheadSamples_ l /\
    Limiter.sampleRate_ l' = Limiter.sampleRate_ l /\
    length (Limiter.lookaheadBuffer_ l') = length (Limiter.lookaheadBuffer_ l) /\
    Limiter.bufferPos_ l'
    = Nat.modulo (Limiter.bufferPos_ l + length buffer)
        (length (Limiter.lookaheadBuffer_ l)).
Proof.
  intros M. induction buffer as [|x rest IH]; intros l Hpos.
  - cbn [Limiter.run fst length]. rewrite Nat.add_0_r, Nat.mod_small by lia.
    repeat split; reflexivity.
  - cbn [Limiter.run length].
    pose proof (@limiter_lookahead_sample_shape M l x) as Hshape.
    cbv zeta in Hshape. destruct Hshape as (He & Hc & Hr & Hn & Hs & Hb & Hp).
    destruct (Limiter.lookahead_sample M l x) as [l1 y]. cbn [fst] in *.
    assert (Hlen1 : length (Limiter.lookaheadBuffer_ l1)
                    = length (Limiter.lookaheadBuffer_ l))
      by (rewrite Hb; apply limiter_store_length).
    assert (Hpos1 : Limiter.bufferPos_ l1
                    < length (Limiter.lookaheadBuffer_ l1)).
    { rewrite Hp, Hlen1. apply Nat.mod_upper_bound. lia. }
    specialize (IH l1 Hpos1).
    destruct (Limiter.run (Limiter.lookahead_sample M) l1 rest) as [l2 ys].
    cbn [fst] in *. destruct IH as (He2 & Hc2 & Hr2 & Hn2 & Hs2 & Hb2 & Hp2).
    repeat split; try congruence.
    rewrite Hp2, Hp, Hlen1, Nat.Div0.add_mod_idemp_l.
    f_equal. lia.
Qed.

(** X7.  The delay ring of the limiter: a fresh limiter satisfies the
    relation between ring and lookahead; [reset], [setLookahead] and
    [process] keep it (with a lookahead the ring has one slot more than
    the lookahead and the position is inside it, so no access of [process]
    leaves the ring); [process] keeps the lookahead and returns as many
    samples as it was given. *)
Theorem limiter_ring_invariant :
  forall (M : MathLib) (l : Limiter.state) (ms : float)
         (buffer : list float),
    limiter_ring_ok l = true ->
    limiter_ring_ok Limiter.fresh = true /\
    limiter_ring_ok (Limiter.reset l) = true /\
    (forall l', Limiter.setLookahead ms l = Some l' ->
                limiter_ring_ok l' = true) /\
    limiter_ring_ok (fst (Limiter.process M l buffer)) = true /\
    Limiter.lookaheadSamples_ (fst (Limiter.process M l buffer))
    = Limiter.lookaheadSamples_ l /\
    length (snd (Limiter.process M l buffer)) = length buffer.
Proof.
  intros M l ms buffer Hok.
  split; [reflexivity|].
  apply limiter_ring_ok_spec in Hok.
  split.
  { apply limiter_ring_ok_spec. unfold Limiter.reset.
    cbn [Limiter.update Limiter.lookaheadSamples_ Limiter.lookaheadBuffer_
         Limiter.bufferPos_]. rewrite length_map. lia. }
  split.
  { intros l' Hset. apply limiter_ring_ok_spec.
    unfold Limiter.setLookahead in Hset.
    destruct (Limiter.lookahead_samples _ _) as [n|]; [|discriminate].
    destruct (Nat.eqb _ _).
    - injection Hset as <-. exact Hok.
    - injection Hset as <-.
      cbn [Limiter.lookaheadSamples_ Limiter.lookaheadBuffer_
           Limiter.bufferPos_]. rewrite repeat_length. right. lia. }
  unfold Limiter.process.
  destruct (negb (Limiter.enabled_ l)).
  { cbn [fst snd]. split; [apply limiter_ring_ok_spec; exact Hok|].
    split; reflexivity. }
  destruct (Nat.eqb (Limiter.lookaheadSamples_ l) 0) eqn:Hn.
  - apply Nat.eqb_eq in Hn.
    assert (Hkeep : Limiter.lookaheadSamples_
                      (fst (Limiter.run (Limiter.instant_sample M) l buffer))
                    = Limiter.lookaheadSamples_ l).
    { clear Hok Hn. revert l.
      induction buffer as [|x rest IH]; intro l; [reflexivity|].
      cbn [Limiter.run]. unfold Limiter.instant_sample at 1.
      match goal with
      | |- context [Limiter.run _ ?l1 rest] => specialize (IH l1)
      end.
      destruct (Limiter.run (Limiter.instant_sample M) _ rest) as [l2 ys].
      cbn [fst] in *. rewrite IH. reflexivity. }
    split; [apply limiter_ring_ok_spec; left; congruence|].
    split; [exact Hkeep | apply limiter_run_length].
  - apply Nat.eqb_neq in Hn.
    destruct Hok as [Hz | [Hlen Hpos]]; [contradiction|].
    pose proof (@limiter_run_lookahead_shape M buffer l Hpos) as Hshape.
    cbv zeta in Hshape. destruct Hshape as (_ & _ & _ & Hn' & _ & Hb' & Hp').
    split.
    { apply limiter_ring_ok_spec. right. rewrite Hb', Hn', Hp'.
      split; [exact Hlen | apply Nat.mod_upper_bound; lia]. }
    split; [exact Hn' | apply limiter_run_length].
Qed.

Lemma limiter_ring_invariant_witness :
  let l := LimiterFacts.reference in
  limiter_ring_ok Limiter.fresh = true /\
  limiter_ring_ok (Limiter.reset l) = true /\
  (forall l', Limiter.setLookahead (F32.of_Z 2) l = Some l' ->
              limiter_ring_ok l' = true) /\
  limiter_ring_ok (fst (Limiter.process libm_table l (ramp 0 3))) = true /\
  Limiter.lookaheadSamples_ (fst (Limiter.process libm_table l (ramp 0 3)))
  = Limiter.lookaheadSamples_ l /\
  length (snd (Limiter.process libm_table l (ramp 0 3))) = length (ramp 0 3).
Proof.
  intro l.
  apply (@limiter_ring_invariant libm_table l (F32.of_Z 2) (ramp 0 3)).
  vm_compute. reflexivity.
Defined.

Lemma limiter_delayed_step :
  forall (M : MathLib) (l : Limiter.state) (x : float) (rest : list float)
         (j : nat),
    Limiter.bufferPos_ l < length (Limiter.lookaheadBuffer_ l) ->
    limiter_delayed (fst (Limiter.lookahead_sample M l x)) rest j
    = limiter_delayed l (x :: rest) (S j).
Proof.
  intros M l x rest j Hpos.
  pose proof (@limiter_lookahead_sample_shape M l x) as Hshape.
    cbv zeta in Hshape. destruct Hshape as (_ & _ & _ & _ & _ & Hb & Hp).
  unfold limiter_delayed.
  rewrite Hb, Hp, limiter_store_length.
  set (size := length (Limiter.lookaheadBuffer_ l)) in *.
  set (pos := Limiter.bufferPos_ l) in *.
  rewrite Nat.Div0.add_mod_idemp_l.
  replace (pos + 1 + j) with (pos + S j) by lia.
  destruct (Nat.ltb j size) eqn:Hj.
  - apply Nat.ltb_lt in Hj.
    rewrite limiter_store_nth by exact Hpos.
    destruct (Nat.ltb (S j) size) eqn:Hsj.
    + apply Nat.ltb_lt in Hsj.
      assert (Hne : Nat.modulo (pos + S j) size <> pos).
      { rewrite (@mod_below_twice (pos + S j) size) by lia.
        destruct (Nat.ltb_spec (pos + S j) size); lia. }
      apply Nat.eqb_neq in Hne. rewrite Hne. reflexivity.
    + apply Nat.ltb_ge in Hsj.
      assert (Heq : Nat.modulo (pos + S j) size = pos).
      { replace (pos + S j) with (pos + 1 * size) by lia.
        rewrite Nat.Div0.mod_add. apply Nat.mod_small. exact Hpos. }
      rewrite Heq, Nat.eqb_refl.
      replace (S j - size) with 0 by lia. reflexivity.
  - apply Nat.ltb_ge in Hj.
    assert (Hsj : Nat.ltb (S j) size = false) by (apply Nat.ltb_ge; lia).
    rewrite Hsj. replace (S j - size) with (S (j - size)) by lia.
    reflexivity.
Qed.

Lemma limiter_lookahead_nth :
  forall (M : MathLib) (buffer : list float) (l : Limiter.state) (i : nat),
    Limiter.bufferPos_ l < length (Limiter.lookaheadBuffer_ l) ->
    i < length buffer ->
    nth i (snd (Limiter.run (Limiter.lookahead_sample M) l buffer)) F32.zero
    = (limiter_delayed l buffer i
       * Limiter.smoothedGain_
           (fst (Limiter.run (Limiter.lookahead_sample M) l
                   (firstn (S i) buffer))))%f32.
Proof.
  intros M. induction buffer as [|x rest IH]; intros l i Hpos Hi;
    cbn [length] in Hi; [lia|].
  pose proof (@limiter_delayed_step M l x rest) as Hstep.
  pose proof (@limiter_lookahead_sample_shape M l x) as Hshape.
  cbv zeta in Hshape. destruct Hshape as (_ & _ & _ & _ & _ & Hb & Hp).
  cbn [Limiter.run firstn].
  destruct (Limiter.lookahead_sample M l x) as [l1 y] eqn:E1.
  cbn [fst] in *.
  destruct i as [|j].
  - cbn [firstn Limiter.run].
    destruct (Limiter.run (Limiter.lookahead_sample M) l1 rest) as [l2 ys].
    cbn [fst snd nth].
    unfold Limiter.lookahead_sample in E1. injection E1 as <- <-.
    cbn [Limiter.update Limiter.smoothedGain_].
    unfold limiter_delayed.
    assert (H0 : Nat.ltb 0 (length (Limiter.lookaheadBuffer_ l)) = true)
      by (apply Nat.ltb_lt; lia).
    rewrite H0, Nat.add_0_r, Nat.mod_small by exact Hpos. reflexivity.
  - rewrite <- (Hstep j Hpos).
    assert (Hpos1 : Limiter.bufferPos_ l1
                    < length (Limiter.lookaheadBuffer_ l1)).
    { rewrite Hb, Hp, limiter_store_length. apply Nat.mod_upper_bound. lia. }
    assert (Hj : j < length rest) by lia.
    specialize (IH l1 j Hpos1 Hj).
    destruct (Limiter.run (Limiter.lookahead_sample M) l1 rest) as [l2 ys].
    destruct (Limiter.run (Limiter.lookahead_sample M) l1 (firstn (S j) rest))
      as [l3 zs].
    cbn [fst snd nth] in *. exact IH.
Qed.

(** X8.  The lookahead path delays by the size of the ring, that is by
    [getLatency() + 1] samples: output [i] is the smoothed gain after
    input [i], times what the ring held when the call began (during the
    first turn of the ring) or times input [i - (getLatency() + 1)]
    (afterwards). *)
Theorem limiter_lookahead_delay_is_ring_size :
  forall (M : MathLib) (l : Limiter.state) (buffer : list float) (i : nat),
    Limiter.enabled_ l = true ->
    Limiter.lookaheadSamples_ l <> 0 ->
    limiter_ring_ok l = true ->
    i < length buffer ->
    nth i (snd (Limiter.process M l buffer)) F32.zero
    = ((if Nat.ltb i (Limiter.lookaheadSamples_ l + 1) then
          nth (Nat.modulo (Limiter.bufferPos_ l + i)
                 (Limiter.lookaheadSamples_ l + 1))
            (Limiter.lookaheadBuffer_ l) F32.zero
        else nth (i - (Limiter.getLatency l + 1)) buffer F32.zero)
       * Limiter.smoothedGain_
           (fst (Limiter.process M l (firstn (S i) buffer))))%f32.
Proof.
  intros M l buffer i He Hn Hok Hi.
  apply limiter_ring_ok_spec in Hok.
  destruct Hok as [Hz | [Hlen Hpos]]; [contradiction|].
  unfold Limiter.process. rewrite He. cbn [negb].
  apply Nat.eqb_neq in Hn. rewrite Hn.
  rewrite (@limiter_lookahead_nth M buffer l i Hpos Hi).
  unfold limiter_delayed, Limiter.getLatency. rewrite Hlen. reflexivity.
Qed.

Lemma limiter_lookahead_delay_is_ring_size_witness :
  let l := LimiterFacts.reference in
  nth 241 (snd (Limiter.process libm_table l (ramp 1 300))) F32.zero
  = ((if Nat.ltb 241 (Limiter.lookaheadSamples_ l + 1) then
        nth (Nat.modulo (Limiter.bufferPos_ l + 241)
               (Limiter.lookaheadSamples_ l + 1))
          (Limiter.lookaheadBuffer_ l) F32.zero
      else nth (241 - (Limiter.getLatency l + 1)) (ramp 1 300) F32.zero)
     * Limiter.smoothedGain_
         (fst (Limiter.process libm_table l
                 (firstn 242 (ramp 1 300)))))%f32.
Proof.
  intro l.
  apply (@limiter_lookahead_delay_is_ring_size libm_table l (ramp 1 300) 241).
  - reflexivity.
  - vm_compute. discriminate.
  - vm_compute. reflexivity.
  - rewrite ramp_length. lia.
Defined.

(** ** Limiter: samples that are not numbers *)

Lemma f32_max_nan_r :
  forall p : float, F32.max p (F32.abs S754_nan) = p.
Proof. intro p. destruct p as [s| s| |s m e]; reflexivity. Qed.

Lemma f32_mul_nan_l :
  forall g : float, (S754_nan * g)%f32 = S754_nan.
Proof. intro g. destruct g as [s| s| |s m e]; reflexivity. Qed.

(** X9.  A sample that is not a number is never limited: the peak scan
    of the ring skips it ([std::max] keeps the running peak), on the path
    without lookahead it leaves the limiter as NaN, and the gain moves as
    it does for a sample under the ceiling. *)
Theorem limiter_nan_sample_is_not_limited :
  forall (M : MathLib) (l : Limiter.state) (before after : list float),
    Limiter.peak_of (before ++ S754_nan :: after)
    = Limiter.peak_of (before ++ after) /\
    snd (Limiter.instant_sample M l S754_nan) = S754_nan /\
    Limiter.smoothedGain_ (fst (Limiter.instant_sample M l S754_nan))
    = (if (F32.one <? Limiter.smoothedGain_ l)%f32 then F32.one
       else (Limiter.releaseCoeff_ l * Limiter.smoothedGain_ l
             + (F32.one - Limiter.releaseCoeff_ l) * F32.one)%f32).
Proof.
  intros M l before after. split; [|split].
  - unfold Limiter.peak_of.
    rewrite !fold_left_app. cbn [fold_left].
    rewrite f32_max_nan_r. reflexivity.
  - unfold Limiter.instant_sample. cbn [snd]. apply f32_mul_nan_l.
  - unfold Limiter.instant_sample.
    cbn [fst Limiter.update Limiter.smoothedGain_].
    assert (Hn : (F32.abs S754_nan >? Limiter.ceiling_ l)%f32 = false)
      by (destruct (Limiter.ceiling_ l) as [s| s| |s m e]; reflexivity).
    rewrite Hn. reflexivity.
Qed.

(** ** Expander: the gate flag *)

Lemma expander_process_sample_gate_blind :
  forall (M : MathLib) (a b : Expander.state) (x : float),
    expander_same_but_gate a b ->
    snd (Expander.process_sample M a x) = snd (Expander.process_sample M b x)
    /\ expander_same_but_gate (fst (Expander.process_sample M a x))
         (fst (Expander.process_sample M b x)).
Proof.
  intros M a b x H.
  destruct a as [en1 th1 ra1 at1 re1 hy1 env1 gr1 go1 sr1].
  destruct b as [en2 th2 ra2 at2 re2 hy2 env2 gr2 go2 sr2].
  unfold expander_same_but_gate in H.
  cbn [Expander.enabled_ Expander.threshold_ Expander.ratio_
       Expander.attackCoeff_ Expander.releaseCoeff_ Expander.envelope_
       Expander.gainReductionDb_ Expander.sampleRate_] in H.
  destruct H as (-> & -> & -> & -> & -> & -> & -> & ->).
  unfold Expander.process_sample, Expander.computeGain,
    expander_same_but_gate.
  cbn [Expander.update Expander.enabled_ Expander.threshold_ Expander.ratio_
       Expander.attackCoeff_ Expander.releaseCoeff_ Expander.envelope_
       Expander.gainReductionDb_ Expander.sampleRate_ Expander.gateOpen_
       Expander.hysteresis_].
  cbv zeta.
  repeat match goal with
         | |- context [if ?c then _ else _] => destruct c
         end;
    cbn [fst snd Expander.update Expander.enabled_ Expander.threshold_
         Expander.ratio_ Expander.attackCoeff_ Expander.releaseCoeff_
         Expander.envelope_ Expander.gainReductionDb_ Expander.sampleRate_];
    repeat split; reflexivity.
Qed.

(** X10.  The gate flag [gateOpen_] and the hysteresis factor of the
    expander are written by [process] but never heard: two expanders that
    differ in them only return the same samples for every block, and agree
    afterwards on the envelope, the meter value and every parameter. *)
Theorem expander_gate_flag_is_never_heard :
  forall (M : MathLib) (buffer : list float) (a b : Expander.state),
    expander_same_but_gate a b ->
    snd (Expander.process M a buffer) = snd (Expander.process M b buffer) /\
    expander_same_but_gate (fst (Expander.process M a buffer))
      (fst (Expander.process M b buffer)).
Proof.
  intros M buffer a b H.
  unfold Expander.process.
  pose proof H as (Hen & _). rewrite <- Hen.
  destruct (negb (Expander.enabled_ a)); [split; [reflexivity | exact H]|].
  clear Hen. revert a b H.
  induction buffer as [|x rest IH]; intros a b H.
  - split; [reflexivity | exact H].
  - cbn [Expander.process_loop].
    destruct (@expander_process_sample_gate_blind M a b x H) as (Hy & H1).
    destruct (Expander.process_sample M a x) as [a1 ya].
    destruct (Expander.process_sample M b x) as [b1 yb].
    cbn [fst snd] in Hy, H1.
    specialize (IH a1 b1 H1).
    destruct (Expander.process_loop M a1 rest) as [a2 ysa].
    destruct (Expander.process_loop M b1 rest) as [b2 ysb].
    cbn [fst snd] in *. destruct IH as (Hys & H2).
    split; [congruence | exact H2].
Qed.

Lemma expander_gate_flag_is_never_heard_witness :
  let a := Expander.create libm_table in
  let b := expander_with_gate true (F32.of_Z 4) a in
  snd (Expander.process libm_table a (ramp 0 2))
  = snd (Expander.process libm_table b (ramp 0 2)) /\
  expander_same_but_gate (fst (Expander.process libm_table a (ramp 0 2)))
    (fst (Expander.process libm_table b (ramp 0 2))).
Proof.
  intros a b.
  apply (@expander_gate_flag_is_never_heard libm_table (ramp 0 2) a b).
  unfold expander_same_but_gate. repeat split; reflexivity.
Defined.

(** ** Resampler: a call without frames *)

(** X11.  A call of [Resampler::process] without frames, on a resampler
    whose rates differ: [frames - 1] wraps to the largest [size_t], the
    loop is entered and its first iteration reads [input[idx0 * channels]]
    outside the empty input, so the call has no defined result. *)
Theorem resampler_zero_frames_reads_outside_input :
  forall r : Resampler.state,
    Resampler.srcRate_ r <> Resampler.dstRate_ r ->
    (1 <= Resampler.channels_ r)%Z ->
    F64.ltb (Resampler.position_ r) (F64.of_Z (2 ^ 64 - 1)) = true ->
    Resampler.process r [] 0 = None.
Proof.
  intros r Hrate Hch Hpos.
  unfold Resampler.process.
  apply Z.eqb_neq in Hrate. rewrite Hrate.
  destruct (F64.to_size_t _) as [outputFrames|]; [|reflexivity].
  cbn [Resampler.interpolate_loop].
  change ((0 - 1) mod 2 ^ 64)%Z with (2 ^ 64 - 1)%Z.
  rewrite Hpos.
  destruct (F64.to_size_t (Resampler.position_ r)) as [idx0|]; [|reflexivity].
  destruct (Z.to_nat (Resampler.channels_ r)) as [|n] eqn:Hn; [lia|].
  cbn [Resampler.interpolate_channels].
  assert (Hin : forall i, Resampler.input_at [] i = None).
  { intro i. unfold Resampler.input_at.
    destruct (Z.ltb i 0); [reflexivity|].
    destruct (Z.to_nat i); reflexivity. }
  rewrite Hin. reflexivity.
Qed.

Lemma resampler_zero_frames_reads_outside_input_witness :
  Resampler.process (fst (Resampler.initialize 44100 48000 1)) [] 0 = None.
Proof.
  apply (@resampler_zero_frames_reads_outside_input
           (fst (Resampler.initialize 44100 48000 1))).
  - vm_compute. discriminate.
  - vm_compute. discriminate.
  - vm_compute. reflexivity.
Defined.

(** ** RNNoise: blocks of one whole frame *)

Lemma rnnoise_process_loop_done :
  forall (L : RNNoiseLib) (fuel : nat) (p : RNNoise.state L)
         (st : DenoiseState L) (buffer : list float) (inputPos : nat),
    length buffer <= inputPos ->
    RNNoise.process_loop fuel p st buffer inputPos = Some (p, []).
Proof.
  intros L fuel p st buffer inputPos H.
  apply Nat.ltb_ge in H.
  destruct fuel; cbn [RNNoise.process_loop]; rewrite H; reflexivity.
Qed.

Lemma copy_into_whole :
  forall dst src : list float,
    length src = length dst -> copy_into dst 0 src = src.
Proof.
  intros dst src H. unfold copy_into. cbn [firstn app Nat.add].
  rewrite skipn_all2 by lia. apply app_nil_r.
Qed.

(** X12.  When the denoiser is initialised, holds no pending samples
    and is given a block of exactly one frame (the way the engine calls it),
    [process] runs the inference once on that block and returns the
    denoised frame of this very block, without a frame of delay; the
    processor is in the same aligned state afterwards, so this holds for
    every following block as well. *)
Theorem rnnoise_whole_frame_block_returns_its_own_frame :
  forall (L : RNNoiseLib) (p : RNNoise.state L) (st : DenoiseState L)
         (buffer : list float),
    RNNoise.state_ p = Some st ->
    rnnoise_frame_aligned p ->
    length buffer = RNNoise.FRAME_SIZE ->
    exists p',
      RNNoise.process p buffer
      = Some (p',
              snd (fst (RNNoise.processFrame L (RNNoise.attenuation_ p)
                          st buffer)),
              [buffer]) /\
      RNNoise.state_ p'
      = Some (fst (fst (RNNoise.processFrame L (RNNoise.attenuation_ p)
                          st buffer))) /\
      rnnoise_frame_aligned p'.
Proof.
  intros L p st buffer Hst (Hfb & Hbp & Hob & k & Hk & Hop) Hlen.
  unfold RNNoise.process. rewrite Hst.
  cbn [RNNoise.process_loop].
  assert (H0 : Nat.ltb 0 (length buffer) = true)
    by (apply Nat.ltb_lt; rewrite Hlen; unfold RNNoise.FRAME_SIZE; lia).
  rewrite H0, Hbp, !Nat.sub_0_r, Hlen, Nat.min_id, !Nat.add_0_l, Nat.eqb_refl.
  assert (Hslice : slice buffer 0 RNNoise.FRAME_SIZE = buffer).
  { unfold slice. cbn [skipn]. apply firstn_all2. lia. }
  rewrite Hslice, (@copy_into_whole (RNNoise.frameBuffer_ p) buffer)
    by congruence.
  pose proof (@rnnoise_processFrame_length L (RNNoise.attenuation_ p) st
                buffer) as Hframe.
  destruct (RNNoise.processFrame L (RNNoise.attenuation_ p) st buffer)
    as [[st1 frame] vad].
  cbn [fst snd] in *.
  rewrite rnnoise_process_loop_done by lia.
  match goal with
  | |- context [RNNoise.drain ?q _] => set (p1 := q)
  end.
  assert (Hdrain : RNNoise.drain p1 (length buffer) = frame).
  { unfold RNNoise.drain, p1.
    cbn [RNNoise.outputBuffer_ RNNoise.outputPos_].
    assert (Hspace : Nat.leb RNNoise.FRAME_SIZE
                       (length (RNNoise.outputBuffer_ p)
                        - RNNoise.outputPos_ p) = true).
    { apply Nat.leb_le. rewrite Hob, Hop. unfold RNNoise.FRAME_SIZE. lia. }
    unfold RNNoise.push_output. rewrite Hspace.
    assert (Hfits : RNNoise.outputPos_ p + length frame
                    <= length (RNNoise.outputBuffer_ p)).
    { rewrite Hob, Hop, Hframe, Hlen. unfold RNNoise.FRAME_SIZE. lia. }
    rewrite copy_into_length by exact Hfits.
    set (op := RNNoise.outputPos_ p) in *.
    set (size := length (RNNoise.outputBuffer_ p)) in *.
    assert (Hstart :
              (((Z.of_nat (Nat.modulo (op + RNNoise.FRAME_SIZE) size)
                 + Z.of_nat size - Z.of_nat (length buffer)) mod 2 ^ 64)
               mod Z.of_nat size)%Z = Z.of_nat op).
    { rewrite Hlen, Nat2Z.inj_mod, Nat2Z.inj_add.
      assert (Hs : Z.of_nat size = 1920%Z)
        by (rewrite Hob; unfold RNNoise.FRAME_SIZE; lia).
      assert (Hf : Z.of_nat RNNoise.FRAME_SIZE = 480%Z)
        by (unfold RNNoise.FRAME_SIZE; lia).
      assert (Ho : (0 <= Z.of_nat op <= 1440)%Z)
        by (rewrite Hop; unfold RNNoise.FRAME_SIZE; lia).
      rewrite Hs, Hf.
      destruct (Z.lt_ge_cases (Z.of_nat op + 480) 1920) as [Hlt | Hge].
      - rewrite (Z.mod_small (Z.of_nat op + 480) 1920) by lia.
        rewrite (Z.mod_small _ (2 ^ 64)) by lia.
        replace (Z.of_nat op + 480 + 1920 - 480)%Z
          with (Z.of_nat op + 1 * 1920)%Z by lia.
        rewrite Z.mod_add by lia. apply Z.mod_small. lia.
      - assert (Z.of_nat op = 1440%Z) by lia.
        replace (Z.of_nat op) with 1440%Z. reflexivity. }
    rewrite Hstart.
    transitivity (firstn (length buffer) frame);
      [|apply firstn_all2; rewrite Hframe; lia].
    rewrite <- (@map_nth_seq_firstn frame (length buffer) F32.zero)
      by (rewrite Hframe; lia).
    apply map_ext_in. intros i Hi. apply in_seq in Hi.
    assert (Hidx : Z.to_nat ((Z.of_nat op + Z.of_nat i)
                             mod Z.of_nat size) = op + i).
    { rewrite Z.mod_small; [lia|].
      rewrite Hlen in Hi. split; [lia|].
      assert (op + i < size); [|lia].
      rewrite Hframe, Hlen in Hfits. lia. }
    rewrite Hidx, nth_copy_into by exact Hfits.
    assert (Hin : (op <=? op + i) && (op + i <? op + length frame) = true).
    { apply andb_true_iff. split; [apply Nat.leb_le; lia|].
      apply Nat.ltb_lt. rewrite Hframe. lia. }
    rewrite Hin. f_equal. lia. }
  rewrite Hlen in Hdrain. exists p1. rewrite Hdrain. unfold p1. split; [|split].
  - reflexivity.
  - reflexivity.
  - unfold rnnoise_frame_aligned.
    cbn [RNNoise.frameBuffer_ RNNoise.bufferPos_ RNNoise.outputBuffer_
         RNNoise.outputPos_].
    split; [congruence|]. split; [reflexivity|].
    assert (Hspace : Nat.leb RNNoise.FRAME_SIZE
                       (length (RNNoise.outputBuffer_ p)
                        - RNNoise.outputPos_ p) = true).
    { apply Nat.leb_le. rewrite Hob, Hop. unfold RNNoise.FRAME_SIZE. lia. }
    unfold RNNoise.push_output. rewrite Hspace.
    split.
    { rewrite copy_into_length; [exact Hob|].
      rewrite Hob, Hop, Hframe, Hlen. unfold RNNoise.FRAME_SIZE. lia. }
    rewrite Hob, Hop.
    exists (Nat.modulo (k + 1) 4). split; [apply Nat.mod_upper_bound; lia|].
    unfold RNNoise.FRAME_SIZE.
    replace (k * 480 + 480) with ((k + 1) * 480) by lia.
    replace (480 * 4) with (4 * 480) by lia.
    rewrite Nat.Div0.mul_mod_distr_r. reflexivity.
Qed.

Lemma rnnoise_whole_frame_block_returns_its_own_frame_witness :
  let L := rnnoise_mute in
  let p := fst (RNNoise.initialize (RNNoise.create L)) in
  let buffer := ramp 0 480 in
  exists p',
    RNNoise.process p buffer
    = Some (p',
            snd (fst (RNNoise.processFrame L (RNNoise.attenuation_ p)
                        tt buffer)),
            [buffer]) /\
    RNNoise.state_ p'
    = Some (fst (fst (RNNoise.processFrame L (RNNoise.attenuation_ p)
                        tt buffer))) /\
    rnnoise_frame_aligned p'.
Proof.
  intros L p buffer.
  apply (@rnnoise_whole_frame_block_returns_its_own_frame L p tt buffer).
  - reflexivity.
  - unfold rnnoise_frame_aligned.
    split; [vm_compute; reflexivity|].
    split; [reflexivity|].
    split; [vm_compute; reflexivity|].
    exists 0%nat. split; [lia | reflexivity].
  - vm_compute. reflexivity.
Defined.

(** ** Engine: initialisation *)

Lemma engine_find_virtual_device_none :
  forall devices : list (string * string),
    forallb (fun d => negb (is_virtual_name (fst d))) devices = true ->
    Engine.find_virtual_device devices = EmptyString.
Proof.
  induction devices as [|d rest IH]; intro H; [reflexivity|].
  cbn [forallb] in H. apply andb_true_iff in H. destruct H as [Hd Hrest].
  unfold is_virtual_name in Hd. apply negb_true_iff in Hd.
  apply orb_false_iff in Hd. destruct Hd as [Hd H4].
  apply orb_false_iff in Hd. destruct Hd as [Hd H3].
  apply orb_false_iff in Hd. destruct Hd as [H1 H2].
  cbn [Engine.find_virtual_device]. rewrite H1, H2, H3, H4.
  cbn [orb]. apply IH. exact Hrest.
Qed.

Lemma engine_initializeCapture_config :
  forall (L : RNNoiseLib) (P : Platform) (e : Engine.state L),
    Engine.config_ (fst (fst (Engine.initializeCapture P e)))
    = Engine.config_ e.
Proof.
  intros L P e. unfold Engine.initializeCapture.
  destruct (negb (capture_initialize P _)); [reflexivity|].
  destruct (negb (Z.eqb _ _)); reflexivity.
Qed.

Lemma engine_initializeRender_config :
  forall (L : RNNoiseLib) (P : Platform) (e : Engine.state L),
    Engine.config_ (fst (fst (Engine.initializeRender P e)))
    = Engine.config_ e.
Proof.
  intros L P e. unfold Engine.initializeRender.
  destruct (Engine.is_empty (if Engine.is_empty _ then _ else _));
    [reflexivity|].
  destruct (negb (render_initialize P _)); [reflexivity|].
  destruct (negb (Z.eqb _ _)); reflexivity.
Qed.

(** X13.  With no output device configured and no render device whose
    name contains one of the four substrings, [initializeRender] fails
    with its two lines on [std::cerr]; the engine is left with the new
    renderer, which is not ready, and is otherwise as it was.
    [initialize] then returns false after the capture succeeded, and
    writes the third line. *)
Theorem engine_no_virtual_device_fails_initialize :
  forall (M : MathLib) (L : RNNoiseLib) (P : Platform) (e : Engine.state L),
    outputDevice (Engine.config_ e) = EmptyString ->
    forallb (fun d => negb (is_virtual_name (fst d))) (render_devices P)
    = true ->
    Engine.initializeRender P e
    = (Engine.with_io e (Engine.capture_ready_ e) false
         (Engine.inputResampler_ e) (Engine.outputResampler_ e),
       false,
       ["No virtual audio device found!"%string;
        "Please install VB-Cable from: https://vb-audio.com/Cable/"%string])
    /\
    (snd (fst (Engine.initializeCapture P e)) = true ->
     exists e' : Engine.state L,
       Engine.initialize M P e
       = Some (e', false,
               snd (Engine.initializeCapture P e)
               ++ ["No virtual audio device found!"%string;
                   "Please install VB-Cable from: https://vb-audio.com/Cable/"%string]
               ++ ["Failed to initialize audio render"%string])
       /\ Engine.render_ready_ e' = false
       /\ Engine.rnnoise_ e' = Engine.rnnoise_ e
       /\ Engine.limiter_ e' = Engine.limiter_ e).
Proof.
  intros M L P e Hdev Hnone.
  assert (Hrender : forall e1 : Engine.state L,
             Engine.config_ e1 = Engine.config_ e ->
             Engine.initializeRender P e1
             = (Engine.with_io e1 (Engine.capture_ready_ e1) false
                  (Engine.inputResampler_ e1) (Engine.outputResampler_ e1),
                false,
                ["No virtual audio device found!"%string;
                 "Please install VB-Cable from: https://vb-audio.com/Cable/"%string])).
  { intros e1 Hcfg. unfold Engine.initializeRender.
    rewrite Hcfg, Hdev. cbn [Engine.is_empty].
    rewrite (engine_find_virtual_device_none _ Hnone). reflexivity. }
  split; [apply Hrender; reflexivity|].
  intro Hcap. unfold Engine.initialize.
  pose proof (@engine_initializeCapture_config L P e) as Hcfg.
  assert (Hunits :
            Engine.rnnoise_ (fst (fst (Engine.initializeCapture P e)))
            = Engine.rnnoise_ e /\
            Engine.limiter_ (fst (fst (Engine.initializeCapture P e)))
            = Engine.limiter_ e).
  { unfold Engine.initializeCapture.
    destruct (negb (capture_initialize P _)); [split; reflexivity|].
    destruct (negb (Z.eqb _ _)); split; reflexivity. }
  destruct (Engine.initializeCapture P e) as [[e1 ok1] log1].
  cbn [fst snd] in *. subst ok1. cbn [negb].
  rewrite (Hrender e1 Hcfg). cbn [negb].
  eexists. split; [reflexivity|].
  cbn [Engine.with_io Engine.render_ready_ Engine.rnnoise_ Engine.limiter_].
  split; [reflexivity | exact Hunits].
Qed.

Lemma engine_no_virtual_device_fails_initialize_witness :
  let e := Engine.with_io (@Engine.create rnnoise_mute default_config)
             true true None None in
  Engine.initializeRender platform_plain e
  = (Engine.with_io e (Engine.capture_ready_ e) false
       (Engine.inputResampler_ e) (Engine.outputResampler_ e),
     false,
     ["No virtual audio device found!"%string;
      "Please install VB-Cable from: https://vb-audio.com/Cable/"%string])
  /\
  (snd (fst (Engine.initializeCapture platform_plain e)) = true ->
   exists e' : Engine.state rnnoise_mute,
     Engine.initialize libm_table platform_plain e
     = Some (e', false,
             snd (Engine.initializeCapture platform_plain e)
             ++ ["No virtual audio device found!"%string;
                 "Please install VB-Cable from: https://vb-audio.com/Cable/"%string]
             ++ ["Failed to initialize audio render"%string])
     /\ Engine.render_ready_ e' = false
     /\ Engine.rnnoise_ e' = Engine.rnnoise_ e
     /\ Engine.limiter_ e' = Engine.limiter_ e).
Proof.
  intro e.
  apply (@engine_no_virtual_device_fails_initialize libm_table rnnoise_mute
           platform_plain e).
  - reflexivity.
  - vm_compute. reflexivity.
Defined.


(** X14.  The auto-detection takes the identifier of the first render
    device whose name contains one of the four substrings.  When the
    renderer cannot open that device [initializeRender] returns false and
    writes no line of its own, and a device with an empty identifier
    counts as no device; either way the engine is left with the new
    renderer, which is not ready, and is otherwise as it was.  When the
    renderer opens the device the result is true and the renderer is
    ready. *)
Theorem engine_auto_detect_takes_first_virtual_device :
  forall (L : RNNoiseLib) (P : Platform) (e : Engine.state L)
         (before after : list (string * string)) (name id : string),
    outputDevice (Engine.config_ e) = EmptyString ->
    render_devices P = before ++ (name, id) :: after ->
    forallb (fun d => negb (is_virtual_name (fst d))) before = true ->
    is_virtual_name name = true ->
    Engine.find_virtual_device (render_devices P) = id /\
    ((Engine.is_empty id = true \/ render_initialize P id = false) ->
     fst (Engine.initializeRender P e)
     = (Engine.with_io e (Engine.capture_ready_ e) false
          (Engine.inputResampler_ e) (Engine.outputResampler_ e),
        false)) /\
    (Engine.is_empty id = false ->
     render_initialize P id = true ->
     snd (fst (Engine.initializeRender P e)) = true /\
     Engine.render_ready_ (fst (fst (Engine.initializeRender P e))) = true).
Proof.
  intros L P e before after name id Hdev Hsplit Hbefore Hname.
  assert (Hfind : Engine.find_virtual_device (render_devices P) = id).
  { rewrite Hsplit. clear Hsplit.
    induction before as [|d rest IH].
    - cbn [app Engine.find_virtual_device fst snd].
      unfold is_virtual_name in Hname.
      destruct (contains "CABLE Input" name || contains "VB-Audio" name);
        [reflexivity|].
      cbn [orb] in Hname. rewrite Hname. reflexivity.
    - cbn [forallb] in Hbefore. apply andb_true_iff in Hbefore.
      destruct Hbefore as [Hd Hrest].
      unfold is_virtual_name in Hd. apply negb_true_iff in Hd.
      apply orb_false_iff in Hd. destruct Hd as [Hd H4].
      apply orb_false_iff in Hd. destruct Hd as [Hd H3].
      apply orb_false_iff in Hd. destruct Hd as [H1 H2].
      cbn [app Engine.find_virtual_device]. rewrite H1, H2, H3, H4.
      cbn [orb]. apply IH. exact Hrest. }
  split; [exact Hfind|]. split.
  - intros Hfail. unfold Engine.initializeRender.
    rewrite Hdev. cbn [Engine.is_empty]. rewrite Hfind.
    destruct (Engine.is_empty id) eqn:Hid; [reflexivity|].
    destruct Hfail as [Hfail|Hfail]; [discriminate Hfail|].
    rewrite Hfail. reflexivity.
  - intros Hid Hopen. unfold Engine.initializeRender.
    rewrite Hdev. cbn [Engine.is_empty]. rewrite Hfind, Hid, Hopen.
    cbn [negb].
    destruct (negb (Z.eqb _ _)); split; reflexivity.
Qed.

Lemma engine_auto_detect_takes_first_virtual_device_witness :
  let P := {| capture_initialize := fun _ => true;
              capture_sample_rate := 48000;
              render_devices :=
                render_devices platform_plain
                ++ ("Virtual Speaker (WindowsAiMic)"%string, "{mic}"%string)
                   :: render_devices platform_48k;
              render_initialize := fun _ => false;
              render_sample_rate := 48000;
              pipe_start := true |} in
  let e := Engine.with_io (@Engine.create rnnoise_mute default_config)
             true true None None in
  Engine.find_virtual_device (render_devices P) = "{mic}"%string /\
  ((Engine.is_empty "{mic}" = true \/ render_initialize P "{mic}" = false) ->
   fst (Engine.initializeRender P e)
   = (Engine.with_io e (Engine.capture_ready_ e) false
        (Engine.inputResampler_ e) (Engine.outputResampler_ e),
      false)) /\
  (Engine.is_empty "{mic}" = false ->
   render_initialize P "{mic}" = true ->
   snd (fst (Engine.initializeRender P e)) = true /\
   Engine.render_ready_ (fst (fst (Engine.initializeRender P e))) = true).
Proof.
  intros P e.
  apply (@engine_auto_detect_takes_first_virtual_device rnnoise_mute P e
           (render_devices platform_plain) (render_devices platform_48k)
           "Virtual Speaker (WindowsAiMic)" "{mic}").
  - reflexivity.
  - reflexivity.
  - vm_compute. reflexivity.
  - vm_compute. reflexivity.
Defined.


(** X15.  A pipe server that does not start does not fail
    [initialize]: when capture, render and the processors succeed the
    result is true, the only trace is the warning line, and the engine
    holds the pipe server, the limiter and an initialised denoiser. *)
Theorem engine_initialize_tolerates_ipc_failure :
  forall (M : MathLib) (L : RNNoiseLib) (P : Platform) (e : Engine.state L)
         (st : DenoiseState L) (li : Limiter.state),
    snd (fst (Engine.initializeCapture P e)) = true ->
    snd (fst (Engine.initializeRender P
                (fst (fst (Engine.initializeCapture P e))))) = true ->
    rnnoise_create L = Some st ->
    Engine.make_limiter M (limiter (Engine.config_ e)) = Some li ->
    exists e' : Engine.state L,
      Engine.initialize M P e
      = Some (e', true,
              snd (Engine.initializeCapture P e)
              ++ snd (Engine.initializeRender P
                        (fst (fst (Engine.initializeCapture P e))))
              ++ []
              ++ (if pipe_start P then []
                  else ["Warning: Failed to initialize IPC server"%string]))
      /\ Engine.pipeServer_ e' = true
      /\ Engine.limiter_ e' = Some li
      /\ (exists rn, Engine.rnnoise_ e' = Some rn
                     /\ RNNoise.state_ rn = Some st).
Proof.
  intros M L P e st li Hcap Hren Hst Hli.
  unfold Engine.initialize.
  pose proof (@engine_initializeCapture_config L P e) as Hcfg1.
  destruct (Engine.initializeCapture P e) as [[e1 ok1] log1].
  cbn [fst snd] in *. subst ok1. cbn [negb].
  pose proof (@engine_initializeRender_config L P e1) as Hcfg2.
  destruct (Engine.initializeRender P e1) as [[e2 ok2] log2].
  cbn [fst snd] in *. subst ok2. cbn [negb].
  unfold Engine.initializeProcessors, RNNoise.initialize.
  rewrite Hst. cbn [negb]. rewrite Hcfg2, Hcfg1, Hli. cbn [negb].
  unfold Engine.initializeIPC.
  eexists. split; [|split; [|split]].
  - destruct (pipe_start P); reflexivity.
  - reflexivity.
  - reflexivity.
  - eexists. split; reflexivity.
Qed.

Lemma engine_initialize_tolerates_ipc_failure_witness :
  let e := @Engine.create rnnoise_mute default_config in
  let P := platform_no_pipe in
  exists e' : Engine.state rnnoise_mute,
    Engine.initialize libm_table P e
    = Some (e', true,
            snd (Engine.initializeCapture P e)
            ++ snd (Engine.initializeRender P
                      (fst (fst (Engine.initializeCapture P e))))
            ++ []
            ++ (if pipe_start P then []
                else ["Warning: Failed to initialize IPC server"%string]))
    /\ Engine.pipeServer_ e' = true
    /\ Engine.limiter_ e' = Some LimiterFacts.reference
    /\ (exists rn, Engine.rnnoise_ e' = Some rn
                   /\ RNNoise.state_ rn = Some tt).
Proof.
  intros e P.
  apply (@engine_initialize_tolerates_ipc_failure libm_table rnnoise_mute
           P e tt LimiterFacts.reference).
  - reflexivity.
  - reflexivity.
  - reflexivity.
  - vm_compute. reflexivity.
Defined.

(** ** Engine: the capture callback *)

(** X16.  The mono block of the capture callback, when no input
    resampler exists: for two channels each sample is the sum of the pair
    times [0.5f]; for every other channel count the first [frames]
    interleaved samples are copied as they are, without a downmix. *)
Theorem engine_capture_downmixes_stereo_only :
  forall (L : RNNoiseLib) (e : Engine.state L) (buffer : list float)
         (frames : nat) (channels : Z),
    Engine.inputResampler_ e = None ->
    (1 <= channels)%Z ->
    Z.to_nat channels * frames <= length buffer ->
    exists mono : list float,
      Engine.capture_block e buffer frames channels = Some (None, mono) /\
      length mono = frames /\
      forall i, i < frames ->
        nth i mono F32.zero
        = if Z.eqb channels 2 then
            ((nth (i * 2) buffer F32.zero
              + nth (i * 2 + 1) buffer F32.zero) * F32.lit 1 2)%f32
          else nth i buffer F32.zero.
Proof.
  intros L e buffer frames channels Hres Hpos Hlen.
  unfold Engine.capture_block. rewrite Hres.
  destruct (Z.eqb channels 2) eqn:Hch.
  - apply Z.eqb_eq in Hch. subst channels.
    change (Z.to_nat 2) with 2 in Hlen.
    eexists. split; [reflexivity|].
    split; [apply engine_downmix_length; exact Hlen|].
    intros i Hi. apply engine_downmix_nth; assumption.
  - eexists. split; [reflexivity|].
    assert (Hfit : frames <= length buffer) by nia.
    split; [rewrite length_firstn; lia|].
    intros i Hi. apply nth_firstn_below. exact Hi.
Qed.

Lemma engine_capture_downmixes_stereo_only_witness :
  let e := @Engine.create rnnoise_mute default_config in
  exists mono : list float,
    Engine.capture_block e (ramp 0 12) 3 4 = Some (None, mono) /\
    length mono = 3 /\
    forall i, i < 3 ->
      nth i mono F32.zero
      = if Z.eqb 4 2 then
          ((nth (i * 2) (ramp 0 12) F32.zero
            + nth (i * 2 + 1) (ramp 0 12) F32.zero) * F32.lit 1 2)%f32
        else nth i (ramp 0 12) F32.zero.
Proof.
  intro e.
  apply (@engine_capture_downmixes_stereo_only rnnoise_mute e (ramp 0 12) 3 4).
  - reflexivity.
  - lia.
  - vm_compute. lia.
Defined.

(** ** Engine: the processing block *)

Lemma expander_process_length :
  forall (M : MathLib) (buffer : list float) (e : Expander.state),
    length (snd (Expander.process M e buffer)) = length buffer.
Proof.
  intros M buffer e. unfold Expander.process.
  destruct (negb (Expander.enabled_ e)); [reflexivity|].
  revert e. induction buffer as [|x rest IH]; intro e; [reflexivity|].
  cbn [Expander.process_loop].
  destruct (Expander.process_sample M e x) as [e1 y].
  specialize (IH e1).
  destruct (Expander.process_loop M e1 rest) as [e2 ys].
  cbn [snd length] in *. congruence.
Qed.

Lemma equalizer_process_length :
  forall (buffer : list float) (e : Equalizer.state),
    length (snd (Equalizer.process e buffer)) = length buffer.
Proof.
  intros buffer e. unfold Equalizer.process.
  destruct (negb (Equalizer.enabled_ e)); [reflexivity|].
  revert e. induction buffer as [|x rest IH]; intro e; [reflexivity|].
  cbn [Equalizer.process_loop].
  destruct (Equalizer.process_sample e x) as [e1 y].
  specialize (IH e1).
  destruct (Equalizer.process_loop e1 rest) as [e2 ys].
  cbn [snd length] in *. congruence.
Qed.

Lemma compressor_process_length :
  forall (M : MathLib) (buffer : list float) (c : Compressor.state),
    length (snd (Compressor.process M c buffer)) = length buffer.
Proof.
  intros M buffer c. unfold Compressor.process.
  destruct (negb (Compressor.enabled_ c)); [reflexivity|].
  revert c. induction buffer as [|x rest IH]; intro c; [reflexivity|].
  cbn [Compressor.process_loop].
  destruct (Compressor.process_sample M c x) as [c1 y].
  specialize (IH c1).
  destruct (Compressor.process_loop M c1 rest) as [c2 ys].
  cbn [snd length] in *. congruence.
Qed.

Lemma limiter_process_length :
  forall (M : MathLib) (buffer : list float) (l : Limiter.state),
    length (snd (Limiter.process M l buffer)) = length buffer.
Proof.
  intros M buffer l. unfold Limiter.process.
  destruct (negb (Limiter.enabled_ l)); [reflexivity|].
  destruct (Nat.eqb _ 0); apply limiter_run_length.
Qed.

(** X17.  [processAudioBlock] returns a block of the length it was
    given for every combination of present, absent, enabled and disabled
    units (the denoiser buffering within its frame, and a meter present
    when a callback is set), keeps the bypass flag, and, when not bypassed,
    the gain reduction in the status and in the meter callback is the
    compressor's ([0] without a compressor), never the expander's or
    the limiter's. *)
Theorem engine_block_keeps_length_and_reports_compressor :
  forall (M : MathLib) (L : RNNoiseLib) (e : Engine.state L)
         (buffer : list float),
    (forall rn, Engine.rnnoise_ e = Some rn -> RNNoise.wf rn) ->
    (Engine.meterCallback_ e = true -> Engine.outputMetering_ e <> None) ->
    exists (e' : Engine.state L) (out : list float)
           (event : option Engine.MeterEvent),
      Engine.processAudioBlock M e buffer = Some (e', out, event) /\
      length out = length buffer /\
      Engine.bypass_ e' = Engine.bypass_ e /\
      (Engine.bypass_ e = false ->
       Engine.gainReduction (Engine.status_ e')
       = match Engine.compressor_ e' with
         | Some c => Compressor.gainReductionDb_ c
         | None => F32.zero
         end /\
       forall peak rms gr, event = Some (peak, rms, gr) ->
                           gr = Engine.gainReduction (Engine.status_ e')).
Proof.
  intros M L e buffer Hwf Hcb.
  unfold Engine.processAudioBlock.
  destruct (Engine.bypass_ e) eqn:Hby.
  { eexists; eexists; eexists. split; [reflexivity|].
    split; [reflexivity|]. split; [exact Hby | discriminate]. }
  assert (Hai :
            exists rn out,
              match Engine.rnnoise_ e with
              | Some rn =>
                  if String.eqb (aiModel (Engine.config_ e)) "rnnoise" then
                    match RNNoise.process rn buffer with
                    | Some (rn1, out, _) => Some (Some rn1, out)
                    | None => None
                    end
                  else Some (Some rn, buffer)
              | None => Some (None, buffer)
              end = Some (rn, out) /\ length out = length buffer).
  { destruct (Engine.rnnoise_ e) as [rn|] eqn:Hrn;
      [|eexists; eexists; split; reflexivity].
    destruct (String.eqb _ _); [|eexists; eexists; split; reflexivity].
    destruct (RNNoise.isInitialized rn) eqn:Hinit.
    - destruct (@rnnoise_process_conserves L rn buffer (Hwf rn eq_refl) Hinit)
        as (p' & out & calls & Hp & _ & _ & Hout & _).
      rewrite Hp. eexists; eexists; split; [reflexivity | exact Hout].
    - rewrite (@rnnoise_uninitialized_passthrough L rn buffer Hinit).
      eexists; eexists; split; reflexivity. }
  destruct Hai as (rn & b0 & -> & Hb0).
  destruct (Engine.expander_ e) as [ex|];
    [destruct (Expander.enabled_ ex);
     [pose proof (@expander_process_length M b0 ex) as Hex;
      destruct (Expander.process M ex b0) as [ex1 b1]; cbn [snd] in Hex|]|];
  match goal with
       | |- context [Engine.equalizer_ e] =>
           destruct (Engine.equalizer_ e) as [q|];
           [destruct (Equalizer.enabled_ q);
            [match goal with
             | |- context [Equalizer.process q ?b] =>
                 pose proof (@equalizer_process_length b q) as Heq;
                 destruct (Equalizer.process q b) as [q1 b2];
                 cbn [snd] in Heq
             end|]|]
       end;
  match goal with
       | |- context [Engine.compressor_ e] =>
           destruct (Engine.compressor_ e) as [c|];
           [destruct (Compressor.enabled_ c);
            [match goal with
             | |- context [Compressor.process M c ?b] =>
                 pose proof (@compressor_process_length M b c) as Hco;
                 destruct (Compressor.process M c b) as [c1 b3];
                 cbn [snd] in Hco
             end|]|]
       end;
  match goal with
       | |- context [Engine.limiter_ e] =>
           destruct (Engine.limiter_ e) as [l|];
           [destruct (Limiter.enabled_ l);
            [match goal with
             | |- context [Limiter.process M l ?b] =>
                 pose proof (@limiter_process_length M b l) as Hli;
                 destruct (Limiter.process M l b) as [l1 b4];
                 cbn [snd] in Hli
             end|]|]
       end;
  (destruct (Engine.meterCallback_ e);
   [destruct (Engine.outputMetering_ e) as [om|];
    [|exfalso; apply Hcb; reflexivity]|]);
    cbn [Engine.meter];
    (eexists; eexists; eexists; split; [reflexivity|]);
    cbn [Engine.with_chain Engine.status_ Engine.gainReduction
         Engine.compressor_ Engine.bypass_];
    (split; [congruence|]); (split; [exact Hby|]);
    intros _; (split; [reflexivity|]);
    intros peak rms gr Hev; try discriminate Hev;
    injection Hev as _ _ <-; reflexivity.
Qed.

Lemma engine_block_keeps_length_and_reports_compressor_witness :
  let L := rnnoise_mute in
  let M := libm_table in
  let e0 := @Engine.create L default_config in
  let e :=
    Engine.with_chain e0
      (Some (fst (RNNoise.initialize (RNNoise.create L))))
      (Some (Expander.create M)) (Some (Compressor.create M))
      None None None None (Engine.status_ e0) in
  exists (e' : Engine.state L) (out : list float)
         (event : option Engine.MeterEvent),
    Engine.processAudioBlock M e (ramp 0 3) = Some (e', out, event) /\
    length out = length (ramp 0 3) /\
    Engine.bypass_ e' = Engine.bypass_ e /\
    (Engine.bypass_ e = false ->
     Engine.gainReduction (Engine.status_ e')
     = match Engine.compressor_ e' with
       | Some c => Compressor.gainReductionDb_ c
       | None => F32.zero
       end /\
     forall peak rms gr, event = Some (peak, rms, gr) ->
                         gr = Engine.gainReduction (Engine.status_ e')).
Proof.
  intros L M e0 e.
  apply (@engine_block_keeps_length_and_reports_compressor M L e (ramp 0 3)).
  - intros rn Hrn. injection Hrn as <-.
    split; vm_compute; [reflexivity | lia].
  - intro Hcb. discriminate Hcb.
Defined.

(** ** Metering: the windows *)

Lemma metering_store_length :
  forall (buf : list float) (pos : nat) (x : float),
    length (Metering.store buf pos x) = length buf.
Proof.
  induction buf as [|y rest IH]; intros [|k] x; cbn [Metering.store length];
    try reflexivity.
  rewrite IH. reflexivity.
Qed.

Lemma metering_scan_ring :
  forall (buffer : list float) (blockPeak blockSum : float)
         (lufsBuffer : list float) (lufsPos : nat),
    lufsPos < length lufsBuffer ->
    let '(_, _, lufsBuffer', lufsPos') :=
      Metering.scan buffer blockPeak blockSum lufsBuffer lufsPos in
    length lufsBuffer' = length lufsBuffer /\
    lufsPos' = Nat.modulo (lufsPos + length buffer) (length lufsBuffer).
Proof.
  induction buffer as [|x rest IH]; intros blockPeak blockSum lufsBuffer
    lufsPos Hpos.
  - cbn [Metering.scan length]. rewrite Nat.add_0_r, Nat.mod_small by lia.
    split; reflexivity.
  - cbn [Metering.scan length].
    specialize (IH (F32.max blockPeak (F32.abs x))
                  (blockSum + x * x)%f32
                  (Metering.store lufsBuffer lufsPos (x * x)%f32)
                  (Nat.modulo (lufsPos + 1) (length lufsBuffer))).
    rewrite metering_store_length in IH.
    assert (Hlt : Nat.modulo (lufsPos + 1) (length lufsBuffer)
                  < length lufsBuffer)
      by (apply Nat.mod_upper_bound; lia).
    specialize (IH Hlt).
    destruct (Metering.scan rest _ _ _ _) as [[[bp bs] lb] lp].
    destruct IH as [Hl Hp]. split; [exact Hl|].
    rewrite Hp, Nat.Div0.add_mod_idemp_l. f_equal. lia.
Qed.

(** X18.  [Metering::process] keeps the size of the window of squares
    and moves its write position by the block length modulo that size, so
    the position stays inside the window. *)
Theorem metering_window_position_stays_inside :
  forall (M : MathLib) (m : Metering.state) (buffer : list float),
    Metering.lufsPos_ m < length (Metering.lufsBuffer_ m) ->
    length (Metering.lufsBuffer_ (Metering.process M m buffer))
    = length (Metering.lufsBuffer_ m) /\
    Metering.lufsPos_ (Metering.process M m buffer)
    = Nat.modulo (Metering.lufsPos_ m + length buffer)
        (length (Metering.lufsBuffer_ m)) /\
    Metering.lufsPos_ (Metering.process M m buffer)
    < length (Metering.lufsBuffer_ (Metering.process M m buffer)).
Proof.
  intros M m buffer Hpos.
  pose proof (@metering_scan_ring buffer F32.zero F32.zero
                (Metering.lufsBuffer_ m) (Metering.lufsPos_ m) Hpos) as Hscan.
  unfold Metering.process.
  destruct (Metering.scan buffer F32.zero F32.zero _ _) as [[[bp bs] lb] lp].
  cbn [Metering.lufsBuffer_ Metering.lufsPos_].
  destruct Hscan as [Hl Hp].
  split; [exact Hl|]. split; [exact Hp|].
  rewrite Hl, Hp. apply Nat.mod_upper_bound. lia.
Qed.

Lemma metering_window_position_stays_inside_witness :
  let M := libm_table in
  let m := Metering.create M in
  let buffer := ramp 0 3 in
  length (Metering.lufsBuffer_ (Metering.process M m buffer))
  = length (Metering.lufsBuffer_ m) /\
  Metering.lufsPos_ (Metering.process M m buffer)
  = Nat.modulo (Metering.lufsPos_ m + length buffer)
      (length (Metering.lufsBuffer_ m)) /\
  Metering.lufsPos_ (Metering.process M m buffer)
  < length (Metering.lufsBuffer_ (Metering.process M m buffer)).
Proof.
  intros M m buffer.
  apply (@metering_window_position_stays_inside M m buffer).
  apply Nat.ltb_lt. vm_compute. reflexivity.
Defined.

Lemma metering_process_rms_counter :
  forall (M : MathLib) (m : Metering.state) (buffer : list float),
    Metering.rmsCount_ m + length buffer < Metering.RMS_WINDOW_SAMPLES ->
    Metering.getRMS (Metering.process M m buffer) = Metering.getRMS m /\
    Metering.rmsCount_ (Metering.process M m buffer)
    = Metering.rmsCount_ m + length buffer.
Proof.
  intros M m buffer H.
  unfold Metering.process, Metering.getRMS.
  destruct (Metering.scan buffer F32.zero F32.zero _ _) as [[[bp bs] lb] lp].
  cbn [Metering.rmsDb_ Metering.rmsCount_].
  assert (Hw : Nat.leb Metering.RMS_WINDOW_SAMPLES
                 (Metering.rmsCount_ m + length buffer) = false)
    by (apply Nat.leb_gt; exact H).
  rewrite Hw. split; reflexivity.
Qed.

(** X19.  The RMS reading does not move before the window of 300 ms is
    full: over any sequence of blocks whose samples, with those counted so
    far, stay below [RMS_WINDOW_SAMPLES], [getRMS] keeps its value and the
    counter adds up the block lengths. *)
Theorem metering_rms_holds_until_window_fills :
  forall (M : MathLib) (blocks : list (list float)) (m : Metering.state),
    Metering.rmsCount_ m + length (concat blocks)
    < Metering.RMS_WINDOW_SAMPLES ->
    Metering.getRMS (metering_run M m blocks) = Metering.getRMS m /\
    Metering.rmsCount_ (metering_run M m blocks)
    = Metering.rmsCount_ m + length (concat blocks).
Proof.
  intros M. unfold metering_run.
  induction blocks as [|b rest IH]; intros m H.
  - cbn [fold_left concat length]. split; [reflexivity | lia].
  - cbn [concat] in *. rewrite length_app in *.
    cbn [fold_left].
    destruct (@metering_process_rms_counter M m b) as [Hr Hc]; [lia|].
    destruct (IH (Metering.process M m b)) as [Hr' Hc']; [lia|].
    split; [congruence | lia].
Qed.

Lemma metering_rms_holds_until_window_fills_witness :
  let M := libm_table in
  let m := Metering.create M in
  let blocks := [ramp 0 480; ramp 480 480] in
  Metering.getRMS (metering_run M m blocks) = Metering.getRMS m /\
  Metering.rmsCount_ (metering_run M m blocks)
  = Metering.rmsCount_ m + length (concat blocks).
Proof.
  intros M m blocks.
  apply (@metering_rms_holds_until_window_fills M blocks m).
  apply Nat.ltb_lt. vm_compute. reflexivity.
Defined.
